(** * Trackscreen: the event translation engine of the batched sidekey variant

    A shallow embedding of the C program that turns a region of a
    touchscreen into a virtual trackpad: geometry resolution
    ([read_trackpad_dimensions], [compute_trackpad_bounds]), the report queue
    ([queue_tp_event], [flush_tp_events]), the side-key emitter
    ([emit_sidekey_event]), the bounds check ([check_bounds]) and the event
    handler ([handle_event]).

    C [int] and [int32_t] values are integers of [Z] with the 32-bit
    wrap-around written out where the program does arithmetic on them;
    [unsigned int] is [Z] reduced modulo 2^32.  The [time] member of
    [struct input_event] is never read or written by the translated
    functions and is left out.  Calls of [write] are recorded in an output
    trace; their return values are ignored by the program, and so are they
    here.  Diagnostics printed under [verbose] are left out. *)

From Stdlib Require Import ZArith Lia Bool.
From stdpp Require Import base list strings.

Local Open Scope Z_scope.

(** ** Constants *)

Definition MAX_FINGERS : Z := 10.
Definition MAX_EVENTS_PER_REPORT : Z := 24.

(** Event types and codes of linux/input-event-codes.h. *)
Definition EV_SYN : Z := 0.
Definition EV_KEY : Z := 1.
Definition EV_ABS : Z := 3.
Definition SYN_REPORT : Z := 0.
Definition ABS_X : Z := 0.
Definition ABS_Y : Z := 1.
Definition ABS_MT_SLOT : Z := 47.
Definition ABS_MT_POSITION_X : Z := 53.
Definition ABS_MT_POSITION_Y : Z := 54.
Definition ABS_MT_TRACKING_ID : Z := 57.
Definition BTN_TOOL_FINGER : Z := 325.
Definition BTN_TOOL_QUINTTAP : Z := 328.
Definition BTN_TOOL_DOUBLETAP : Z := 333.
Definition BTN_TOOL_TRIPLETAP : Z := 334.
Definition BTN_TOOL_QUADTAP : Z := 335.

(** ** Machine integers *)

Definition INT_MIN : Z := - 2 ^ 31.
Definition INT_MAX : Z := 2 ^ 31 - 1.

Definition int_range (z : Z) : Prop := INT_MIN <= z <= INT_MAX.

(** Reduction of a mathematical result to a 32-bit two's complement [int]. *)
Definition to_int (z : Z) : Z := (z + 2 ^ 31) mod 2 ^ 32 - 2 ^ 31.

(** Conversion to [unsigned int] and to [uint16_t]. *)
Definition to_uint (z : Z) : Z := z mod 2 ^ 32.
Definition to_uint16 (z : Z) : Z := z mod 2 ^ 16.

Definition int_add (a b : Z) : Z := to_int (a + b).
Definition int_sub (a b : Z) : Z := to_int (a - b).
Definition int_mul (a b : Z) : Z := to_int (a * b).
(** C division truncates towards zero. *)
Definition int_div (a b : Z) : Z := to_int (Z.quot a b).

#[global] Arguments to_int : simpl never.
#[global] Arguments to_uint : simpl never.
#[global] Arguments to_uint16 : simpl never.
#[global] Arguments int_add : simpl never.
#[global] Arguments int_sub : simpl never.
#[global] Arguments int_mul : simpl never.
#[global] Arguments int_div : simpl never.

(** ** Data *)

Record struct_input_event : Type := mk_input_event {
  type : Z;   (* uint16_t *)
  code : Z;   (* uint16_t *)
  value : Z   (* int32_t *)
}.

Record trackscreen_context : Type := {
  kbd : Z;                 (* Fake keyboard file descriptor *)
  keycode : Z;             (* Keyboard keycode for side palm touches *)
  ts_min_x : Z;            (* Minimum touchscreen X coordinate *)
  ts_min_y : Z;            (* Minimum touchscreen Y coordinate *)
  ts_max_x : Z;            (* Maximum touchscreen X coordinate *)
  ts_max_y : Z;            (* Maximum touchscreen Y coordinate *)
  tp_left_percent : Z;     (* Percent from the left trackpad should start *)
  tp_top_percent : Z;      (* Percent from the top trackpad should start *)
  tp_width_percent : Z;    (* Width of the trackpad as percent of TS *)
  tp_height_percent : Z;   (* Height of tp as percent of touchscreen *)
  tp_min_x : Z;            (* Minimum trackpad X coordinate *)
  tp_min_y : Z;            (* Minimum trackpad Y coordinate *)
  tp_max_x : Z;            (* Maximum trackpad X coordinate *)
  tp_max_y : Z;            (* Maximum trackpad Y coordinate *)
  finger_count : Z;        (* Number of slots with a valid tracking ID *)
  fingers : list Z;        (* int fingers[MAX_FINGERS] *)
  slot : Z;                (* unsigned int: currently selected slot *)
  input_event : list struct_input_event;
                           (* struct input_event [MAX_EVENTS_PER_REPORT] *)
  input_events : Z;        (* Valid events in this report *)
  pos_x : Z;               (* X position from last report *)
  pos_y : Z;               (* Y position from last report *)
  sidekey : Z              (* unsigned int: current sidekey state *)
}.

(** Field updates. *)

Definition set_kbd (v : Z) (c : trackscreen_context) :
  trackscreen_context :=
  Build_trackscreen_context v (keycode c) (ts_min_x c) (ts_min_y c)
    (ts_max_x c) (ts_max_y c) (tp_left_percent c) (tp_top_percent c)
    (tp_width_percent c) (tp_height_percent c) (tp_min_x c) (tp_min_y c)
    (tp_max_x c) (tp_max_y c) (finger_count c) (fingers c) (slot c)
    (input_event c) (input_events c) (pos_x c) (pos_y c) (sidekey c).

Definition set_keycode (v : Z) (c : trackscreen_context) :
  trackscreen_context :=
  Build_trackscreen_context (kbd c) v (ts_min_x c) (ts_min_y c) (ts_max_x c)
    (ts_max_y c) (tp_left_percent c) (tp_top_percent c) (tp_width_percent c)
    (tp_height_percent c) (tp_min_x c) (tp_min_y c) (tp_max_x c)
    (tp_max_y c) (finger_count c) (fingers c) (slot c) (input_event c)
    (input_events c) (pos_x c) (pos_y c) (sidekey c).

Definition set_ts_min_x (v : Z) (c : trackscreen_context) :
  trackscreen_context :=
  Build_trackscreen_context (kbd c) (keycode c) v (ts_min_y c) (ts_max_x c)
    (ts_max_y c) (tp_left_percent c) (tp_top_percent c) (tp_width_percent c)
    (tp_height_percent c) (tp_min_x c) (tp_min_y c) (tp_max_x c)
    (tp_max_y c) (finger_count c) (fingers c) (slot c) (input_event c)
    (input_events c) (pos_x c) (pos_y c) (sidekey c).

Definition set_ts_min_y (v : Z) (c : trackscreen_context) :
  trackscreen_context :=
  Build_trackscreen_context (kbd c) (keycode c) (ts_min_x c) v (ts_max_x c)
    (ts_max_y c) (tp_left_percent c) (tp_top_percent c) (tp_width_percent c)
    (tp_height_percent c) (tp_min_x c) (tp_min_y c) (tp_max_x c)
    (tp_max_y c) (finger_count c) (fingers c) (slot c) (input_event c)
    (input_events c) (pos_x c) (pos_y c) (sidekey c).

Definition set_ts_max_x (v : Z) (c : trackscreen_context) :
  trackscreen_context :=
  Build_trackscreen_context (kbd c) (keycode c) (ts_min_x c) (ts_min_y c) v
    (ts_max_y c) (tp_left_percent c) (tp_top_percent c) (tp_width_percent c)
    (tp_height_percent c) (tp_min_x c) (tp_min_y c) (tp_max_x c)
    (tp_max_y c) (finger_count c) (fingers c) (slot c) (input_event c)
    (input_events c) (pos_x c) (pos_y c) (sidekey c).

Definition set_ts_max_y (v : Z) (c : trackscreen_context) :
  trackscreen_context :=
  Build_trackscreen_context (kbd c) (keycode c) (ts_min_x c) (ts_min_y c)
    (ts_max_x c) v (tp_left_percent c) (tp_top_percent c)
    (tp_width_percent c) (tp_height_percent c) (tp_min_x c) (tp_min_y c)
    (tp_max_x c) (tp_max_y c) (finger_count c) (fingers c) (slot c)
    (input_event c) (input_events c) (pos_x c) (pos_y c) (sidekey c).

Definition set_tp_left_percent (v : Z) (c : trackscreen_context) :
  trackscreen_context :=
  Build_trackscreen_context (kbd c) (keycode c) (ts_min_x c) (ts_min_y c)
    (ts_max_x c) (ts_max_y c) v (tp_top_percent c) (tp_width_percent c)
    (tp_height_percent c) (tp_min_x c) (tp_min_y c) (tp_max_x c)
    (tp_max_y c) (finger_count c) (fingers c) (slot c) (input_event c)
    (input_events c) (pos_x c) (pos_y c) (sidekey c).

Definition set_tp_top_percent (v : Z) (c : trackscreen_context) :
  trackscreen_context :=
  Build_trackscreen_context (kbd c) (keycode c) (ts_min_x c) (ts_min_y c)
    (ts_max_x c) (ts_max_y c) (tp_left_percent c) v (tp_width_percent c)
    (tp_height_percent c) (tp_min_x c) (tp_min_y c) (tp_max_x c)
    (tp_max_y c) (finger_count c) (fingers c) (slot c) (input_event c)
    (input_events c) (pos_x c) (pos_y c) (sidekey c).

Definition set_tp_width_percent (v : Z) (c : trackscreen_context) :
  trackscreen_context :=
  Build_trackscreen_context (kbd c) (keycode c) (ts_min_x c) (ts_min_y c)
    (ts_max_x c) (ts_max_y c) (tp_left_percent c) (tp_top_percent c) v
    (tp_height_percent c) (tp_min_x c) (tp_min_y c) (tp_max_x c)
    (tp_max_y c) (finger_count c) (fingers c) (slot c) (input_event c)
    (input_events c) (pos_x c) (pos_y c) (sidekey c).

Definition set_tp_height_percent (v : Z) (c : trackscreen_context) :
  trackscreen_context :=
  Build_trackscreen_context (kbd c) (keycode c) (ts_min_x c) (ts_min_y c)
    (ts_max_x c) (ts_max_y c) (tp_left_percent c) (tp_top_percent c)
    (tp_width_percent c) v (tp_min_x c) (tp_min_y c) (tp_max_x c)
    (tp_max_y c) (finger_count c) (fingers c) (slot c) (input_event c)
    (input_events c) (pos_x c) (pos_y c) (sidekey c).

Definition set_tp_min_x (v : Z) (c : trackscreen_context) :
  trackscreen_context :=
  Build_trackscreen_context (kbd c) (keycode c) (ts_min_x c) (ts_min_y c)
    (ts_max_x c) (ts_max_y c) (tp_left_percent c) (tp_top_percent c)
    (tp_width_percent c) (tp_height_percent c) v (tp_min_y c) (tp_max_x c)
    (tp_max_y c) (finger_count c) (fingers c) (slot c) (input_event c)
    (input_events c) (pos_x c) (pos_y c) (sidekey c).

Definition set_tp_min_y (v : Z) (c : trackscreen_context) :
  trackscreen_context :=
  Build_trackscreen_context (kbd c) (keycode c) (ts_min_x c) (ts_min_y c)
    (ts_max_x c) (ts_max_y c) (tp_left_percent c) (tp_top_percent c)
    (tp_width_percent c) (tp_height_percent c) (tp_min_x c) v (tp_max_x c)
    (tp_max_y c) (finger_count c) (fingers c) (slot c) (input_event c)
    (input_events c) (pos_x c) (pos_y c) (sidekey c).

Definition set_tp_max_x (v : Z) (c : trackscreen_context) :
  trackscreen_context :=
  Build_trackscreen_context (kbd c) (keycode c) (ts_min_x c) (ts_min_y c)
    (ts_max_x c) (ts_max_y c) (tp_left_percent c) (tp_top_percent c)
    (tp_width_percent c) (tp_height_percent c) (tp_min_x c) (tp_min_y c) v
    (tp_max_y c) (finger_count c) (fingers c) (slot c) (input_event c)
    (input_events c) (pos_x c) (pos_y c) (sidekey c).

Definition set_tp_max_y (v : Z) (c : trackscreen_context) :
  trackscreen_context :=
  Build_trackscreen_context (kbd c) (keycode c) (ts_min_x c) (ts_min_y c)
    (ts_max_x c) (ts_max_y c) (tp_left_percent c) (tp_top_percent c)
    (tp_width_percent c) (tp_height_percent c) (tp_min_x c) (tp_min_y c)
    (tp_max_x c) v (finger_count c) (fingers c) (slot c) (input_event c)
    (input_events c) (pos_x c) (pos_y c) (sidekey c).

Definition set_finger_count (v : Z) (c : trackscreen_context) :
  trackscreen_context :=
  Build_trackscreen_context (kbd c) (keycode c) (ts_min_x c) (ts_min_y c)
    (ts_max_x c) (ts_max_y c) (tp_left_percent c) (tp_top_percent c)
    (tp_width_percent c) (tp_height_percent c) (tp_min_x c) (tp_min_y c)
    (tp_max_x c) (tp_max_y c) v (fingers c) (slot c) (input_event c)
    (input_events c) (pos_x c) (pos_y c) (sidekey c).

Definition set_fingers (v : list Z) (c : trackscreen_context) :
  trackscreen_context :=
  Build_trackscreen_context (kbd c) (keycode c) (ts_min_x c) (ts_min_y c)
    (ts_max_x c) (ts_max_y c) (tp_left_percent c) (tp_top_percent c)
    (tp_width_percent c) (tp_height_percent c) (tp_min_x c) (tp_min_y c)
    (tp_max_x c) (tp_max_y c) (finger_count c) v (slot c) (input_event c)
    (input_events c) (pos_x c) (pos_y c) (sidekey c).

Definition set_slot (v : Z) (c : trackscreen_context) :
  trackscreen_context :=
  Build_trackscreen_context (kbd c) (keycode c) (ts_min_x c) (ts_min_y c)
    (ts_max_x c) (ts_max_y c) (tp_left_percent c) (tp_top_percent c)
    (tp_width_percent c) (tp_height_percent c) (tp_min_x c) (tp_min_y c)
    (tp_max_x c) (tp_max_y c) (finger_count c) (fingers c) v (input_event c)
    (input_events c) (pos_x c) (pos_y c) (sidekey c).

Definition set_input_event (v : list struct_input_event) (c : trackscreen_context) :
  trackscreen_context :=
  Build_trackscreen_context (kbd c) (keycode c) (ts_min_x c) (ts_min_y c)
    (ts_max_x c) (ts_max_y c) (tp_left_percent c) (tp_top_percent c)
    (tp_width_percent c) (tp_height_percent c) (tp_min_x c) (tp_min_y c)
    (tp_max_x c) (tp_max_y c) (finger_count c) (fingers c) (slot c) v
    (input_events c) (pos_x c) (pos_y c) (sidekey c).

Definition set_input_events (v : Z) (c : trackscreen_context) :
  trackscreen_context :=
  Build_trackscreen_context (kbd c) (keycode c) (ts_min_x c) (ts_min_y c)
    (ts_max_x c) (ts_max_y c) (tp_left_percent c) (tp_top_percent c)
    (tp_width_percent c) (tp_height_percent c) (tp_min_x c) (tp_min_y c)
    (tp_max_x c) (tp_max_y c) (finger_count c) (fingers c) (slot c)
    (input_event c) v (pos_x c) (pos_y c) (sidekey c).

Definition set_pos_x (v : Z) (c : trackscreen_context) :
  trackscreen_context :=
  Build_trackscreen_context (kbd c) (keycode c) (ts_min_x c) (ts_min_y c)
    (ts_max_x c) (ts_max_y c) (tp_left_percent c) (tp_top_percent c)
    (tp_width_percent c) (tp_height_percent c) (tp_min_x c) (tp_min_y c)
    (tp_max_x c) (tp_max_y c) (finger_count c) (fingers c) (slot c)
    (input_event c) (input_events c) v (pos_y c) (sidekey c).

Definition set_pos_y (v : Z) (c : trackscreen_context) :
  trackscreen_context :=
  Build_trackscreen_context (kbd c) (keycode c) (ts_min_x c) (ts_min_y c)
    (ts_max_x c) (ts_max_y c) (tp_left_percent c) (tp_top_percent c)
    (tp_width_percent c) (tp_height_percent c) (tp_min_x c) (tp_min_y c)
    (tp_max_x c) (tp_max_y c) (finger_count c) (fingers c) (slot c)
    (input_event c) (input_events c) (pos_x c) v (sidekey c).

Definition set_sidekey (v : Z) (c : trackscreen_context) :
  trackscreen_context :=
  Build_trackscreen_context (kbd c) (keycode c) (ts_min_x c) (ts_min_y c)
    (ts_max_x c) (ts_max_y c) (tp_left_percent c) (tp_top_percent c)
    (tp_width_percent c) (tp_height_percent c) (tp_min_x c) (tp_min_y c)
    (tp_max_x c) (tp_max_y c) (finger_count c) (fingers c) (slot c)
    (input_event c) (input_events c) (pos_x c) (pos_y c) v.

(** ** Effects

    A call of [write] on the trackpad or on the keyboard descriptor, with the
    events it passes. *)
Inductive write_call : Type :=
  | write_tp (evs : list struct_input_event)
  | write_kbd (evs : list struct_input_event).

(** A function of the program runs on the context, may fault on an array
    store outside the array (undefined behaviour in C), and otherwise
    returns a result, the new context and the writes it made, oldest first. *)
Definition prog (A : Type) : Type :=
  trackscreen_context -> option (A * trackscreen_context * list write_call).

#[global] Instance prog_ret : MRet prog := fun A a c => Some (a, c, []).

#[global] Instance prog_bind : MBind prog := fun A B k m c =>
  match m c with
  | None => None
  | Some (a, c1, o1) =>
      match k a c1 with
      | None => None
      | Some (b, c2, o2) => Some (b, c2, o1 ++ o2)
      end
  end.

Definition get : prog trackscreen_context := fun c => Some (c, c, []).

Definition modify (f : trackscreen_context -> trackscreen_context) :
  prog unit := fun c => Some (tt, f c, []).

Definition write (w : write_call) : prog unit := fun c => Some (tt, c, [w]).

Definition fault {A : Type} : prog A := fun _ => None.

(** [arr[i] = v]: defined only inside the array. *)
Definition array_store {A : Type} (arr : list A) (i : Z) (v : A) :
  option (list A) :=
  if (0 <=? i) && (i <? Z.of_nat (length arr))
  then Some (<[Z.to_nat i := v]> arr)
  else None.

Definition store_input_event (i : Z) (ev : struct_input_event) : prog unit :=
  c ← get;
  match array_store (input_event c) i ev with
  | Some arr => modify (set_input_event arr)
  | None => fault
  end.

Definition store_fingers (i : Z) (id : Z) : prog unit :=
  c ← get;
  match array_store (fingers c) i id with
  | Some arr => modify (set_fingers arr)
  | None => fault
  end.

(** The events of the current report: the first [input_events] entries of
    the [input_event] array. *)
Definition queued (c : trackscreen_context) : list struct_input_event :=
  take (Z.to_nat (input_events c)) (input_event c).

(** ** Geometry *)

(** One [%d] conversion of [sscanf] into an [int] field.  The integer the
    text denotes fits the field when it is in the range of [int].  One that
    fits a [long] but not an [int] is stored reduced to 32 bits: the C
    standard leaves this conversion undefined, and that is what the C
    libraries do.  One that does not fit a [long] either is a fault of the
    model, the libraries differing on it. *)
Definition LONG_MIN : Z := - 2 ^ 63.
Definition LONG_MAX : Z := 2 ^ 63 - 1.

Definition store_int
  (set : Z -> trackscreen_context -> trackscreen_context) (z : Z) :
  prog unit :=
  if (LONG_MIN <=? z) && (z <=? LONG_MAX) then modify (set (to_int z))
  else fault.

(** [sscanf(arg, "%d,%d,%d,%d", ...)] is given by the integers its
    conversions read, at most four: it stores them in order and returns
    their number. *)
Definition sscanf_dimensions (scanned : list Z) : prog Z :=
  match scanned with
  | [] => mret 0
  | [l] => store_int set_tp_left_percent l;; mret 1
  | [l; t] =>
      store_int set_tp_left_percent l;; store_int set_tp_top_percent t;;
      mret 2
  | [l; t; w] =>
      store_int set_tp_left_percent l;; store_int set_tp_top_percent t;;
      store_int set_tp_width_percent w;; mret 3
  | l :: t :: w :: h :: _ =>
      store_int set_tp_left_percent l;; store_int set_tp_top_percent t;;
      store_int set_tp_width_percent w;;
      store_int set_tp_height_percent h;;
      mret 4
  end.

Definition read_trackpad_dimensions (scanned : list Z) : prog Z :=
  items ← sscanf_dimensions scanned;
  if negb (items =? 4) then mret (-1) else
  c ← get;
  if (tp_left_percent c <? 0) || (tp_left_percent c >=? 100) ||
     (tp_top_percent c <? 0) || (tp_top_percent c >=? 100)
  then mret (-1) else
  if (tp_width_percent c <=? 0) || (tp_width_percent c >? 100) ||
     (int_add (tp_left_percent c) (tp_width_percent c) >? 100) ||
     (tp_height_percent c <=? 0) || (tp_height_percent c >? 100) ||
     (int_add (tp_top_percent c) (tp_height_percent c) >? 100)
  then mret (-1) else
  mret 0.

Definition compute_trackpad_bounds : prog unit :=
  c ← get;
  let height := int_sub (ts_max_y c) (ts_min_y c) in
  let width := int_sub (ts_max_x c) (ts_min_x c) in
  modify (fun c => set_tp_min_x
    (int_add (ts_min_x c)
       (int_div (int_mul width (tp_left_percent c)) 100)) c);;
  modify (fun c => set_tp_max_x
    (int_add (tp_min_x c)
       (int_div (int_mul width (tp_width_percent c)) 100)) c);;
  modify (fun c => set_tp_min_y
    (int_add (ts_min_y c)
       (int_div (int_mul height (tp_top_percent c)) 100)) c);;
  modify (fun c => set_tp_max_y
    (int_add (tp_min_y c)
       (int_div (int_mul height (tp_height_percent c)) 100)) c).

(** ** Report queue *)

Definition queue_tp_event (type code value : Z) : prog unit :=
  c ← get;
  if input_events c >=? MAX_EVENTS_PER_REPORT then mret tt else
  store_input_event (input_events c) (mk_input_event type code value);;
  modify (set_input_events (int_add (input_events c) 1)).

Definition flush_tp_events (report : struct_input_event) : prog unit :=
  c ← get;
  write (write_tp (queued c));;
  modify (set_input_events 0);;
  write (write_tp [report]).

(** ** Side key *)

(** The two events [emit_sidekey_event] builds: the key, then a sync. *)
Definition sidekey_events (c : trackscreen_context) (value : Z) :
  list struct_input_event :=
  [mk_input_event EV_KEY (to_uint16 (keycode c)) value;
   mk_input_event EV_SYN SYN_REPORT 0].

Definition emit_sidekey_event (value : Z) : prog unit :=
  c ← get;
  write (write_kbd (sidekey_events c value)).

(** First loop of [check_bounds]: the last X and the last Y position among
    the events of the report, starting from the position of the last
    report. *)
Fixpoint find_position (evs : list struct_input_event) (x y : Z) : Z * Z :=
  match evs with
  | [] => (x, y)
  | ev :: evs' =>
      if type ev =? EV_ABS then
        if (code ev =? ABS_X) || (code ev =? ABS_MT_POSITION_X) then
          find_position evs' (value ev) y
        else if (code ev =? ABS_Y) || (code ev =? ABS_MT_POSITION_Y) then
          find_position evs' x (value ev)
        else find_position evs' x y
      else find_position evs' x y
  end.

(** Body of the second loop of [check_bounds]. *)
Definition replace_position (x y : Z) (ev : struct_input_event) :
  struct_input_event :=
  if type ev =? EV_ABS then
    if (code ev =? ABS_X) || (code ev =? ABS_MT_POSITION_X) then
      mk_input_event (type ev) (code ev) x
    else if (code ev =? ABS_Y) || (code ev =? ABS_MT_POSITION_Y) then
      mk_input_event (type ev) (code ev) y
    else ev
  else ev.

(** The second loop of [check_bounds]: the positions of the events of the
    report are replaced in the array, the entries past them are not
    visited. *)
Definition replace_positions (x y : Z) (c : trackscreen_context) :
  trackscreen_context :=
  set_input_event
    (map (replace_position x y) (queued c) ++
     drop (Z.to_nat (input_events c)) (input_event c)) c.

(** Whether there are touches on either side of the trackpad. *)
Definition side_touches (c : trackscreen_context) (x y : Z) : Z :=
  if (y >=? tp_min_y c) && (y <? tp_max_y c) then
    if (x <? tp_min_x c) || (x >=? tp_max_x c) then 1 else 0
  else 0.

(** Clamp and adjust one coordinate. *)
Definition clamp_adjust (tp_min tp_max v : Z) : Z :=
  let v := if v <? tp_min then tp_min
           else if v >=? tp_max then int_sub tp_max 1
           else v in
  int_sub v tp_min.

Definition check_bounds : prog unit :=
  c ← get;
  let '(x, y) := find_position (queued c) (pos_x c) (pos_y c) in
  if (x =? -1) || (y =? -1) then mret tt else
  let side := side_touches c x y in
  (if negb (side =? sidekey c) then
     modify (set_sidekey side);;
     (if kbd c >? 0 then emit_sidekey_event side else mret tt)
   else mret tt);;
  modify (set_pos_x x);;
  modify (set_pos_y y);;
  let x := clamp_adjust (tp_min_x c) (tp_max_x c) x in
  let y := clamp_adjust (tp_min_y c) (tp_max_y c) y in
  modify (replace_positions x y).

(** ** Finger count and tool events *)

Definition finger_tap_codes : list Z :=
  [0; BTN_TOOL_FINGER; BTN_TOOL_DOUBLETAP; BTN_TOOL_TRIPLETAP;
   BTN_TOOL_QUADTAP; BTN_TOOL_QUINTTAP].

Definition emit_multitap (finger_count value : Z) : prog unit :=
  if (finger_count <=? 0) || (finger_count >? 5) then mret tt else
  queue_tp_event EV_KEY (nth (Z.to_nat finger_count) finger_tap_codes 0)
    value.

(** The counting loop of [handle_event], over the slots
    [0 .. MAX_FINGERS - 1]. *)
Definition count_fingers (fingers : list Z) : Z :=
  fold_left
    (fun finger_count i =>
       if nth i fingers 0 >? 0 then finger_count + 1 else finger_count)
    (seq 0 (Z.to_nat MAX_FINGERS)) 0.

(** ** The event handler

    [ev] is the event that [read] returned; a failed or short read makes
    [handle_event] return -1 without touching the context, which ends the
    loop of [main]. *)
Definition handle_event (ev : struct_input_event) : prog Z :=
  if (type ev =? EV_SYN) && (code ev =? SYN_REPORT) then
    c ← get;
    let count := count_fingers (fingers c) in
    (if negb (count =? finger_count c) then
       emit_multitap (finger_count c) 0;;
       emit_multitap count 1;;
       modify (set_finger_count count)
     else mret tt);;
    check_bounds;;
    c ← get;
    (if (count =? 0) && negb (sidekey c =? 0) then
       modify (set_sidekey 0);;
       (if keycode c >? 0 then emit_sidekey_event 0 else mret tt)
     else mret tt);;
    flush_tp_events ev;;
    mret 0
  else if negb (type ev =? EV_ABS) then
    queue_tp_event (type ev) (code ev) (value ev);;
    mret 0
  else
    (if code ev =? ABS_MT_SLOT then
       modify (set_slot (to_uint (value ev)))
     else if code ev =? ABS_MT_TRACKING_ID then
       c ← get;
       if slot c <? MAX_FINGERS then store_fingers (slot c) (value ev)
       else mret tt
     else mret tt);;
    queue_tp_event (type ev) (code ev) (value ev);;
    mret 0.

(** The loop of [main] over the events read, as long as reads succeed. *)
Fixpoint handle_events (evs : list struct_input_event) : prog unit :=
  match evs with
  | [] => mret tt
  | ev :: evs' => handle_event ev;; handle_events evs'
  end.

(** ** Start-up *)

(** The context of [main] before the options are read: zeroed, the
    descriptors and the key code at -1, the default dimensions, and every
    slot of the finger table at -1. *)
Definition initial_context : trackscreen_context :=
  {| kbd := -1; keycode := -1;
     ts_min_x := 0; ts_min_y := 0; ts_max_x := 0; ts_max_y := 0;
     tp_left_percent := 33; tp_top_percent := 67;
     tp_width_percent := 33; tp_height_percent := 33;
     tp_min_x := 0; tp_min_y := 0; tp_max_x := 0; tp_max_y := 0;
     finger_count := 0;
     fingers := replicate (Z.to_nat MAX_FINGERS) (-1);
     slot := 0;
     input_event :=
       replicate (Z.to_nat MAX_EVENTS_PER_REPORT) (mk_input_event 0 0 0);
     input_events := 0;
     pos_x := 0; pos_y := 0; sidekey := 0 |}.

(** [read_touchscreen_parameters], for a device whose [EVIOCGABS] queries
    succeed and answer [abs_x] and [abs_y] as (minimum, maximum). *)
Definition read_touchscreen_parameters (abs_x abs_y : Z * Z) : prog Z :=
  modify (set_ts_min_x (fst abs_x));;
  modify (set_ts_max_x (snd abs_x));;
  modify (set_ts_min_y (fst abs_y));;
  modify (set_ts_max_y (snd abs_y));;
  mret 0.

(** The path of [main] from the [-d] option to the trackpad region, for a
    device that opens: [dimensions] is what [sscanf] converts from the
    argument of [-d], if the option is given.  The result is the exit
    status on failure, and 0 when the region has been computed. *)
Definition main_geometry (dimensions : option (list Z))
  (abs_x abs_y : Z * Z) : prog Z :=
  status ← match dimensions with
           | Some scanned => read_trackpad_dimensions scanned
           | None => mret 0
           end;
  if negb (status =? 0) then mret 1 else
  status ← read_touchscreen_parameters abs_x abs_y;
  if negb (status =? 0) then mret 1 else
  compute_trackpad_bounds;;
  mret 0.

(** The successive calls of [queue_tp_event] that queue the events [evs]. *)
Fixpoint queue_tp_events (evs : list struct_input_event) : prog unit :=
  match evs with
  | [] => mret tt
  | ev :: evs' =>
      queue_tp_event (type ev) (code ev) (value ev);; queue_tp_events evs'
  end.

(** ** Well-formed contexts

    What the C types give for free: the two arrays have their declared
    sizes, the event count stays inside the queue, and the slot cursor is
    unsigned. *)
Definition wf (c : trackscreen_context) : Prop :=
  length (fingers c) = Z.to_nat MAX_FINGERS /\
  length (input_event c) = Z.to_nat MAX_EVENTS_PER_REPORT /\
  0 <= input_events c <= MAX_EVENTS_PER_REPORT /\
  0 <= slot c.

(** An event as [read] delivers it: two [uint16_t] and an [int32_t]. *)
Definition valid_event (ev : struct_input_event) : Prop :=
  0 <= type ev < 2 ^ 16 /\ 0 <= code ev < 2 ^ 16 /\ int_range (value ev).

(** ** Statements of the specification *)

(** The percentages the specification accepts: left and top in [0,100),
    width and height in (0,100], and neither sum above 100. *)
Definition valid_dimensions (l t w h : Z) : bool :=
  (0 <=? l) && (l <? 100) && (0 <=? t) && (t <? 100) &&
  (0 <? w) && (w <=? 100) && (0 <? h) && (h <=? 100) &&
  (l + w <=? 100) && (t + h <=? 100).

(** The context after [sscanf] has stored four converted percentages. *)
Definition with_dimensions (l t w h : Z) (c : trackscreen_context) :
  trackscreen_context :=
  set_tp_height_percent h
    (set_tp_width_percent w
       (set_tp_top_percent t (set_tp_left_percent l c))).

(** ** Example contexts *)

(** The context of a run with the default dimensions on a touchscreen of
    [0,1000] x [0,1000], with the side key 85 on keyboard descriptor 5:
    the trackpad region is [330,660) x [670,1000). *)
Definition example_context : trackscreen_context :=
  {| kbd := 5; keycode := 85;
     ts_min_x := 0; ts_min_y := 0; ts_max_x := 1000; ts_max_y := 1000;
     tp_left_percent := 33; tp_top_percent := 67;
     tp_width_percent := 33; tp_height_percent := 33;
     tp_min_x := 330; tp_min_y := 670; tp_max_x := 660; tp_max_y := 1000;
     finger_count := 0;
     fingers := replicate (Z.to_nat MAX_FINGERS) (-1);
     slot := 0;
     input_event :=
       replicate (Z.to_nat MAX_EVENTS_PER_REPORT) (mk_input_event 0 0 0);
     input_events := 0;
     pos_x := 0; pos_y := 0; sidekey := 0 |}.

(** A touchscreen of [0,10] x [0,10] with the dimensions 0,0,5,5. *)
Definition small_screen_context : trackscreen_context :=
  set_ts_max_y 10 (set_ts_max_x 10 (with_dimensions 0 0 5 5 initial_context)).

(** The position [check_bounds] resolves for the report: the last X and the
    last Y of its events, else those of the last report. *)
Definition resolved_position (c : trackscreen_context) : Z * Z :=
  find_position (queued c) (pos_x c) (pos_y c).

(** The writes to the keyboard, and to the trackpad, of an output trace. *)
Fixpoint kbd_writes (out : list write_call) :
  list (list struct_input_event) :=
  match out with
  | [] => []
  | write_kbd evs :: out' => evs :: kbd_writes out'
  | write_tp _ :: out' => kbd_writes out'
  end.

Fixpoint tp_writes (out : list write_call) :
  list (list struct_input_event) :=
  match out with
  | [] => []
  | write_tp evs :: out' => evs :: tp_writes out'
  | write_kbd _ :: out' => tp_writes out'
  end.

(** The context [c] with the events [evs] queued for the current report. *)
Definition with_report (evs : list struct_input_event)
  (c : trackscreen_context) : trackscreen_context :=
  set_input_events (Z.of_nat (length evs))
    (set_input_event (evs ++ drop (length evs) (input_event c)) c).

(** A report with a touch at (100, 800), left of the region of
    [example_context] and inside its vertical span. *)
Definition side_touch_context : trackscreen_context :=
  with_report [mk_input_event EV_ABS ABS_MT_POSITION_X 100;
               mk_input_event EV_ABS ABS_MT_POSITION_Y 800] example_context.

(** The number of slots whose tracking ID is non-negative. *)
Definition occupied_slots (fingers : list Z) : Z :=
  Z.of_nat (length (List.filter (fun id => 0 <=? id) fingers)).

(** The fixed mapping from a finger count to its tool code. *)
Definition tool_code (n : Z) : option Z :=
  if n =? 1 then Some BTN_TOOL_FINGER
  else if n =? 2 then Some BTN_TOOL_DOUBLETAP
  else if n =? 3 then Some BTN_TOOL_TRIPLETAP
  else if n =? 4 then Some BTN_TOOL_QUADTAP
  else if n =? 5 then Some BTN_TOOL_QUINTTAP
  else None.

(** The tool event of a finger count: none outside 1..5. *)
Definition tool_event (n value : Z) : list struct_input_event :=
  match tool_code n with
  | Some k => [mk_input_event EV_KEY k value]
  | None => []
  end.

(** The lift of the count [a] followed by the press of the count [b]. *)
Definition tool_events (a b : Z) : list struct_input_event :=
  tool_event a 0 ++ tool_event b 1.

(** [c'] is [c] up to the report queue. *)
Definition queue_frame (c c' : trackscreen_context) : Prop :=
  c' = set_input_events (input_events c')
         (set_input_event (input_event c') c).

(** The sync-report event. *)
Definition syn_report : struct_input_event :=
  mk_input_event EV_SYN SYN_REPORT 0.

(** [example_context] after a finger, since lifted, touched at (100, 800):
    the side key is active, the recorded count is still 1, and no slot is
    occupied. *)
Definition sidekey_active_context : trackscreen_context :=
  set_sidekey 1
    (set_pos_y 800 (set_pos_x 100 (set_finger_count 1 example_context))).

(** [example_context] for a run without the option [-k]: no key code and no
    keyboard descriptor. *)
Definition no_keyboard_context : trackscreen_context :=
  set_keycode (-1) (set_kbd (-1) example_context).

(** A finger with tracking ID 7 goes down in slot 0 at (100, 800). *)
Definition side_touch_report : list struct_input_event :=
  [mk_input_event EV_ABS ABS_MT_SLOT 0;
   mk_input_event EV_ABS ABS_MT_TRACKING_ID 7;
   mk_input_event EV_ABS ABS_MT_POSITION_X 100;
   mk_input_event EV_ABS ABS_MT_POSITION_Y 800;
   syn_report].

(** The finger of the current slot is lifted. *)
Definition lift_report : list struct_input_event :=
  [mk_input_event EV_ABS ABS_MT_TRACKING_ID (-1); syn_report].

(** Two fingers were down and the one of slot 1 has just been lifted: the
    recorded count is 2, one slot is occupied, and the lift is queued. *)
Definition lift_one_of_two_context : trackscreen_context :=
  with_report [mk_input_event EV_ABS ABS_MT_SLOT 1;
               mk_input_event EV_ABS ABS_MT_TRACKING_ID (-1)]
    (set_finger_count 2
       (set_fingers (7 :: replicate 9 (-1)) example_context)).

(** A slot-select event with the value -1, then a tracking ID for it. *)
Definition negative_slot_report : list struct_input_event :=
  [mk_input_event EV_ABS ABS_MT_SLOT (-1);
   mk_input_event EV_ABS ABS_MT_TRACKING_ID 7;
   syn_report].

(** A finger with tracking ID 0, the first the kernel hands out, goes down
    in slot 0 at (500, 800). *)
Definition first_touch_report : list struct_input_event :=
  [mk_input_event EV_ABS ABS_MT_SLOT 0;
   mk_input_event EV_ABS ABS_MT_TRACKING_ID 0;
   mk_input_event EV_ABS ABS_MT_POSITION_X 500;
   mk_input_event EV_ABS ABS_MT_POSITION_Y 800;
   syn_report].

(** ** Runs of reports

    A report is given by the events that precede its sync-report event. *)
Definition no_sync (ev : struct_input_event) : bool :=
  negb ((type ev =? EV_SYN) && (code ev =? SYN_REPORT)).

Fixpoint run_reports (reports : list (list struct_input_event)) :
  prog unit :=
  match reports with
  | [] => mret tt
  | body :: rest =>
      handle_events body;; handle_event syn_report;; run_reports rest
  end.

(** The classification the bounds check gives the resolved position of the
    pending report, if it is a full point. *)
Definition classification (c : trackscreen_context) : option Z :=
  let '(x, y) := resolved_position c in
  if (x =? -1) || (y =? -1) then None else Some (side_touches c x y).

(** For each report of a run, in order: the classification of its resolved
    position and the finger count recomputed at its sync-report event. *)
Fixpoint report_observations (c : trackscreen_context)
  (reports : list (list struct_input_event)) : list (option Z * Z) :=
  match reports with
  | [] => []
  | body :: rest =>
      match handle_events body c with
      | Some (_, c1, _) =>
          (classification c1, count_fingers (fingers c1)) ::
          match handle_event syn_report c1 with
          | Some (_, c2, _) => report_observations c2 rest
          | None => []
          end
      | None => []
      end
  end.

(** The bare touch flag goes up in a report of its own. *)
Definition idle_report : list struct_input_event :=
  [mk_input_event EV_KEY 330 0].

(** A finger goes down left of the region and moves there for two more
    reports. *)
Definition side_touch_run : list (list struct_input_event) :=
  [[mk_input_event EV_ABS ABS_MT_SLOT 0;
    mk_input_event EV_ABS ABS_MT_TRACKING_ID 7;
    mk_input_event EV_ABS ABS_MT_POSITION_X 100;
    mk_input_event EV_ABS ABS_MT_POSITION_Y 800];
   [mk_input_event EV_ABS ABS_MT_POSITION_Y 810];
   [mk_input_event EV_ABS ABS_MT_POSITION_X 90]].

(** [example_context] after [side_touch_report]: the finger of slot 0 rests
    at (100, 800) and the side key is active. *)
Definition after_side_touch : trackscreen_context :=
  match handle_events side_touch_report example_context with
  | Some (_, c, _) => c
  | None => example_context
  end.

(** The finger is lifted, and the touch flag follows in the next report. *)
Definition lift_then_idle_run : list (list struct_input_event) :=
  [[mk_input_event EV_ABS ABS_MT_TRACKING_ID (-1)]; idle_report].

(** ** Observations on output traces *)

(** The values of the key events written to the keyboard, oldest first. *)
Definition sidekey_values (out : list write_call) : list Z :=
  map (fun evs => match evs with ev :: _ => value ev | [] => 0 end)
    (kbd_writes out).

(** [vs] alternates between 1 and 0, starting from the opposite of [s]. *)
Fixpoint alternates (s : Z) (vs : list Z) : bool :=
  match vs with
  | [] => true
  | v :: vs' => (v =? 1 - s) && alternates v vs'
  end.

(** The writes to the trackpad come as reports: a batch of at most
    [MAX_EVENTS_PER_REPORT] events, then one sync-report event. *)
Fixpoint batched (tw : list (list struct_input_event)) : bool :=
  match tw with
  | [] => true
  | batch :: [sync] :: tw' =>
      (Z.of_nat (length batch) <=? MAX_EVENTS_PER_REPORT) &&
      (type sync =? EV_SYN) && (code sync =? SYN_REPORT) && batched tw'
  | _ => false
  end.

Definition is_sync (ev : struct_input_event) : bool :=
  (type ev =? EV_SYN) && (code ev =? SYN_REPORT).

Definition is_x_position (ev : struct_input_event) : bool :=
  (type ev =? EV_ABS) &&
  ((code ev =? ABS_X) || (code ev =? ABS_MT_POSITION_X)).

Definition is_y_position (ev : struct_input_event) : bool :=
  (type ev =? EV_ABS) &&
  ((code ev =? ABS_Y) || (code ev =? ABS_MT_POSITION_Y)).

(** A report with a touch at (-1, 2000): the X value is the one the bounds
    check takes for a missing coordinate. *)
Definition unset_position_context : trackscreen_context :=
  with_report [mk_input_event EV_ABS ABS_MT_POSITION_X (-1);
               mk_input_event EV_ABS ABS_MT_POSITION_Y 2000] example_context.

(** A report that fills the queue, 24 pressure events, while the finger of
    slot 0 has gone down: the recorded count is 0 and the table counts 1. *)
Definition full_queue_context : trackscreen_context :=
  with_report (replicate 24 (mk_input_event EV_ABS 24 50))
    (set_fingers (7 :: replicate 9 (-1)) example_context).

(** ** The handler that clamps every position as it arrives

    The second program of trackscreen.c writes each event to the trackpad
    at once instead of queueing it.  Its context has the fields of
    [trackscreen_context] without the keyboard, the queue, the last position
    and the side key, none of which the functions below touch. *)
Module Eager.

Definition emit_tp_event (type code value : Z) : prog unit :=
  write (write_tp [mk_input_event type code value]).

Definition emit_multitap (finger_count value : Z) : prog unit :=
  if (finger_count <=? 0) || (finger_count >? 5) then mret tt else
  emit_tp_event EV_KEY (nth (Z.to_nat finger_count) finger_tap_codes 0)
    value.

(** The two tests and the shift of the position cases of [convert_event]. *)
Definition clamp (tp_min tp_max value : Z) : Z :=
  let value := if value <? tp_min then tp_min else value in
  let value := if value >=? tp_max then int_sub tp_max 1 else value in
  int_sub value tp_min.

Definition convert_event (ev : struct_input_event) : prog Z :=
  (if (type ev =? EV_SYN) && (code ev =? SYN_REPORT) then
     c ← get;
     let count := count_fingers (fingers c) in
     if negb (count =? finger_count c) then
       emit_multitap (finger_count c) 0;;
       emit_multitap count 1;;
       modify (set_finger_count count)
     else mret tt
   else mret tt);;
  if negb (type ev =? EV_ABS) then
    emit_tp_event (type ev) (code ev) (value ev);;
    mret 0
  else
    value ←
      (if (code ev =? ABS_X) || (code ev =? ABS_MT_POSITION_X) then
         c ← get; mret (clamp (tp_min_x c) (tp_max_x c) (value ev))
       else if (code ev =? ABS_Y) || (code ev =? ABS_MT_POSITION_Y) then
         c ← get; mret (clamp (tp_min_y c) (tp_max_y c) (value ev))
       else if code ev =? ABS_MT_SLOT then
         modify (set_slot (to_uint (value ev)));; mret (value ev)
       else if code ev =? ABS_MT_TRACKING_ID then
         c ← get;
         (if slot c <? MAX_FINGERS then store_fingers (slot c) (value ev)
          else mret tt);;
         mret (value ev)
       else mret (value ev));
    emit_tp_event (type ev) (code ev) value;;
    mret 0.

(** The loop of [main] over the events read, as long as reads succeed. *)
Fixpoint convert_events (evs : list struct_input_event) : prog unit :=
  match evs with
  | [] => mret tt
  | ev :: evs' => convert_event ev;; convert_events evs'
  end.

End Eager.

(** What the clamping handler may write for the event [ev]: tool events
    first, and only before a sync-report event, then the event itself with
    its type and code, and with its value unless it is a position. *)
Definition forwards (ev : struct_input_event)
  (written : list struct_input_event) : Prop :=
  exists tools ev',
    written = tools ++ [ev'] /\
    Forall (fun e => type e = EV_KEY) tools /\
    (is_sync ev = false -> tools = []) /\
    type ev' = type ev /\ code ev' = code ev /\
    (is_x_position ev || is_y_position ev = false -> ev' = ev).

(** ** Finding the touchscreen by name

    [find_input_by_name] scans /dev/input.  The directory is given by its
    entries in the order [readdir] returns them, each with what the system
    answers for it: the result of [open], the name [EVIOCGNAME] stores (or
    its failure), the event-type bits [EVIOCGBIT(0)] stores in [evbit]
    (which stays 0 when the call fails) and the bytes [EVIOCGBIT(EV_ABS)]
    stores in [absbits] (or its failure). *)
Module Discovery.

Record input_device : Type := {
  d_name : string;
  open_fd : Z;
  device_name : option string;
  evbit : Z;
  absbits : option (list Z)
}.

Inductive syscall : Type :=
  | sys_open (path : string) (fd : Z)
  | sys_close (fd : Z).

Definition ABS_MAX : Z := 63.

(** [absbits] has [ABS_MAX / 8 + 1] bytes, zeroed before the query. *)
Definition has_abs_bit (absbits : option (list Z)) (absbit : Z) : Z :=
  match absbits with
  | None => 0
  | Some bytes =>
      if negb (Z.land
                 (nth (Z.to_nat (Z.quot absbit 8))
                    (take (Z.to_nat (Z.quot ABS_MAX 8 + 1)) bytes) 0)
                 (Z.shiftl 1 (Z.rem absbit 8)) =? 0)
      then 1 else 0
  end.

(** The loop over the directory: the descriptor found, or -1, and the calls
    of [open] and [close] made, oldest first. *)
Fixpoint scan (entries : list input_device) (arg : string) :
  Z * list syscall :=
  match entries with
  | [] => (-1, [])
  | entry :: rest =>
      if negb (String.prefix "event" (d_name entry)) then scan rest arg
      else
        let fullpath := "/dev/input/" +:+ d_name entry in
        let fd := open_fd entry in
        let skip (close : bool) :=
          let '(found, calls) := scan rest arg in
          (found,
           sys_open fullpath fd ::
           (if close then [sys_close fd] else []) ++ calls) in
        if fd <? 0 then skip false
        else
          match device_name entry with
          | None => skip true
          | Some devicename =>
              if negb (String.eqb devicename arg) then skip true
              else if Z.land (evbit entry) (Z.shiftl 1 EV_ABS) =? 0
              then skip true
              else if has_abs_bit (absbits entry) ABS_MT_POSITION_Y =? 0
              then skip true
              else (fd, [sys_open fullpath fd])
          end
  end.

(** [dir] is [None] when /dev/input cannot be opened. *)
Definition find_input_by_name (dir : option (list input_device))
  (arg : string) : Z * list syscall :=
  match dir with
  | None => (-1, [])
  | Some entries => scan entries arg
  end.

(** The descriptors a trace of calls opened, and those it closed. *)
Fixpoint opened (calls : list syscall) : list Z :=
  match calls with
  | [] => []
  | sys_open _ fd :: calls' =>
      if fd <? 0 then opened calls' else fd :: opened calls'
  | sys_close _ :: calls' => opened calls'
  end.

Fixpoint closed (calls : list syscall) : list Z :=
  match calls with
  | [] => []
  | sys_close fd :: calls' => fd :: closed calls'
  | sys_open _ _ :: calls' => closed calls'
  end.

(** An entry the caller can use: an event device that opens, carries the
    name asked for, reports absolute events and has the multitouch Y
    axis. *)
Definition usable (arg : string) (entry : input_device) : bool :=
  String.prefix "event" (d_name entry) &&
  (0 <=? open_fd entry) &&
  match device_name entry with
  | Some devicename => String.eqb devicename arg
  | None => false
  end &&
  Z.testbit (evbit entry) EV_ABS &&
  match absbits entry with
  | Some bytes => Z.testbit (nth 6 (take 8 bytes) 0) 6
  | None => false
  end.

End Discovery.

(** ** The relative-motion program

    The third program of the file turns the touches into relative mouse
    motion and short touches into clicks.  Its events keep their time
    stamp, which the tap detection reads.  The product of a motion with the
    [double] scale factor, truncated back to [int], is not modelled: it is
    the function [scale_delta] the definitions are given. *)
Module Relative.

Definition MAX_FINGERS : Z := 2.
Definition TAP_TIME_US : Z := 100000.

Definition EV_REL : Z := 2.
Definition REL_X : Z := 0.
Definition REL_Y : Z := 1.
Definition BTN_LEFT : Z := 272.

(** Reduction to a 64-bit two's complement integer, the size of [int64_t]
    and of the members of [struct timeval] on a 64-bit system. *)
Definition to_int64 (z : Z) : Z := (z + 2 ^ 63) mod 2 ^ 64 - 2 ^ 63.

#[global] Arguments to_int64 : simpl never.

Record timeval : Type := { tv_sec : Z; tv_usec : Z }.

Record input_event : Type := mk_event {
  time : timeval;
  type : Z;
  code : Z;
  value : Z
}.

Record finger : Type := {
  prev_x : Z;               (* Previous x coordinate *)
  prev_y : Z;               (* Previous y coordinate *)
  prev_on : Z;              (* Previous on value *)
  x : Z;                    (* Most recent x coordinate *)
  y : Z;                    (* Most recent y coordinate *)
  on : Z;                   (* Whether or not the finger is touching *)
  started_in_bounds : Z;    (* Whether the touch down started in the box *)
  start_time : timeval;     (* When the finger started touching *)
  end_time : timeval        (* When the finger lifted off *)
}.

Definition set_x (v : Z) (f : finger) : finger :=
  Build_finger (prev_x f) (prev_y f) (prev_on f) v (y f) (on f)
    (started_in_bounds f) (start_time f) (end_time f).

Definition set_y (v : Z) (f : finger) : finger :=
  Build_finger (prev_x f) (prev_y f) (prev_on f) (x f) v (on f)
    (started_in_bounds f) (start_time f) (end_time f).

Definition set_on (v : Z) (f : finger) : finger :=
  Build_finger (prev_x f) (prev_y f) (prev_on f) (x f) (y f) v
    (started_in_bounds f) (start_time f) (end_time f).

Definition set_started_in_bounds (v : Z) (f : finger) : finger :=
  Build_finger (prev_x f) (prev_y f) (prev_on f) (x f) (y f) (on f)
    v (start_time f) (end_time f).

Definition set_start_time (v : timeval) (f : finger) : finger :=
  Build_finger (prev_x f) (prev_y f) (prev_on f) (x f) (y f) (on f)
    (started_in_bounds f) v (end_time f).

Definition set_end_time (v : timeval) (f : finger) : finger :=
  Build_finger (prev_x f) (prev_y f) (prev_on f) (x f) (y f) (on f)
    (started_in_bounds f) (start_time f) v.

(** [f->prev_x = f->x; f->prev_y = f->y; f->prev_on = f->on]. *)
Definition set_prev (f : finger) : finger :=
  Build_finger (x f) (y f) (on f) (x f) (y f) (on f)
    (started_in_bounds f) (start_time f) (end_time f).

Record trackscreen_context : Type := {
  ts_min_x : Z;
  ts_min_y : Z;
  ts_max_x : Z;
  ts_max_y : Z;
  tp_min_x : Z;
  tp_min_y : Z;
  tp_max_x : Z;
  tp_max_y : Z;
  current_slot : Z;         (* int: most recently selected finger slot *)
  fingers : list finger     (* finger fingers[MAX_FINGERS] *)
}.

Definition set_current_slot (v : Z) (c : trackscreen_context) :
  trackscreen_context :=
  Build_trackscreen_context (ts_min_x c) (ts_min_y c) (ts_max_x c)
    (ts_max_y c) (tp_min_x c) (tp_min_y c) (tp_max_x c) (tp_max_y c) v
    (fingers c).

Definition set_fingers (v : list finger) (c : trackscreen_context) :
  trackscreen_context :=
  Build_trackscreen_context (ts_min_x c) (ts_min_y c) (ts_max_x c)
    (ts_max_y c) (tp_min_x c) (tp_min_y c) (tp_max_x c) (tp_max_y c)
    (current_slot c) v.

(** The region of this program: the middle third of the width, the bottom
    third of the height. *)
Definition compute_trackpad_bounds (c : trackscreen_context) :
  trackscreen_context :=
  let height := int_sub (ts_max_y c) (ts_min_y c) in
  let width := int_sub (ts_max_x c) (ts_min_x c) in
  let min_x := int_add (ts_min_x c) (int_div width 3) in
  let max_x := int_add min_x (int_div width 3) in
  let min_y := int_add (ts_min_y c) (int_div (int_mul height 2) 3) in
  Build_trackscreen_context (ts_min_x c) (ts_min_y c) (ts_max_x c)
    (ts_max_y c) min_x min_y max_x (ts_max_y c) (current_slot c)
    (fingers c).

Definition touch_in_box (c : trackscreen_context) (f : finger) : bool :=
  (x f >=? tp_min_x c) && (x f <? tp_max_x c) &&
  (y f >=? tp_min_y c) && (y f <? tp_max_y c).

(** The time a lifted finger was down, in microseconds, as the loop of
    [process_report] computes it. *)
Definition touch_time (f : finger) : Z :=
  to_int64
    (to_int64
       (to_int64 (tv_sec (end_time f) - tv_sec (start_time f)) * 1000000) +
     to_int64 (tv_usec (end_time f) - tv_usec (start_time f))).

(** The body of the loop of [process_report] for one finger, on the
    accumulators [click], [delta_x] and [delta_y]. *)
Definition report_finger (c : trackscreen_context) (f : finger)
  (acc : Z * Z * Z) : finger * (Z * Z * Z) :=
  let '(click, delta_x, delta_y) := acc in
  let '(f, click) :=
    if negb (on f =? prev_on f) then
      if on f =? 0 then
        (f, if touch_time f <=? TAP_TIME_US then 1 else click)
      else
        (set_started_in_bounds (if touch_in_box c f then 1 else 0) f, click)
    else (f, click) in
  let '(delta_x, delta_y) :=
    if negb (on f =? 0) && negb (prev_on f =? 0) &&
       negb (started_in_bounds f =? 0)
    then (int_add delta_x (int_sub (x f) (prev_x f)),
          int_add delta_y (int_sub (y f) (prev_y f)))
    else (delta_x, delta_y) in
  (set_prev f, (click, delta_x, delta_y)).

Fixpoint report_fingers (c : trackscreen_context) (fs : list finger)
  (acc : Z * Z * Z) : list finger * (Z * Z * Z) :=
  match fs with
  | [] => ([], acc)
  | f :: fs' =>
      let '(f', acc') := report_finger c f acc in
      let '(fs'', acc'') := report_fingers c fs' acc' in
      (f' :: fs'', acc'')
  end.

Section Scale.

Variable scale_delta : Z -> Z.

(** [process_report]: the status, the context and the events written to
    the mouse, one [emit_mouse_event] each. *)
Definition process_report (c : trackscreen_context) :
  Z * trackscreen_context * list struct_input_event :=
  let '(fs, (click, delta_x, delta_y)) :=
    report_fingers c (fingers c) (0, 0, 0) in
  let '(delta_x, out_x) :=
    if negb (delta_x =? 0) then
      let delta_x := scale_delta delta_x in
      (delta_x,
       if negb (delta_x =? 0) then [mk_input_event EV_REL REL_X delta_x]
       else [])
    else (delta_x, []) in
  let '(delta_y, out_y) :=
    if negb (delta_y =? 0) then
      let delta_y := scale_delta delta_y in
      (delta_y, [mk_input_event EV_REL REL_Y delta_y])
    else (delta_y, []) in
  let out_click :=
    if negb (click =? 0) then [mk_input_event EV_KEY BTN_LEFT 1] else [] in
  let out_sync :=
    if negb (Z.lor (Z.lor delta_x delta_y) click =? 0) then
      mk_input_event EV_SYN SYN_REPORT 0 ::
      (if negb (click =? 0)
       then [mk_input_event EV_KEY BTN_LEFT 0;
             mk_input_event EV_SYN SYN_REPORT 0]
       else [])
    else [] in
  (0, set_fingers fs c, out_x ++ out_y ++ out_click ++ out_sync).

(** [ctx->fingers[i]] is updated by [g]: defined only inside the array. *)
Definition update_finger (c : trackscreen_context) (i : Z)
  (g : finger -> finger) : option trackscreen_context :=
  if (0 <=? i) && (i <? Z.of_nat (length (fingers c))) then
    match fingers c !! Z.to_nat i with
    | Some f => Some (set_fingers (<[Z.to_nat i := g f]> (fingers c)) c)
    | None => None
    end
  else None.

(** The tracking-ID case of [convert_event] on the finger of the slot. *)
Definition track_finger (ev : input_event) (f : finger) : finger :=
  if value ev <? 0 then
    set_on 0 (if on f >? 0 then set_end_time (time ev) f else f)
  else
    set_on (value ev)
      (if on f =? 0 then set_start_time (time ev) f else f).

(** [convert_event] on the event read: [None] is an access outside the
    finger array. *)
Definition convert_event (ev : input_event) (c : trackscreen_context) :
  option (Z * trackscreen_context * list struct_input_event) :=
  if (type ev =? EV_SYN) && (code ev =? SYN_REPORT) then
    Some (process_report c)
  else if negb (type ev =? EV_ABS) then Some (0, c, [])
  else if code ev =? ABS_MT_SLOT then
    Some (0, set_current_slot (value ev) c, [])
  else if code ev =? ABS_MT_POSITION_X then
    if current_slot c <? MAX_FINGERS then
      match update_finger c (current_slot c) (set_x (value ev)) with
      | Some c' => Some (0, c', [])
      | None => None
      end
    else Some (0, c, [])
  else if code ev =? ABS_MT_POSITION_Y then
    if current_slot c <? MAX_FINGERS then
      match update_finger c (current_slot c) (set_y (value ev)) with
      | Some c' => Some (0, c', [])
      | None => None
      end
    else Some (0, c, [])
  else if code ev =? ABS_MT_TRACKING_ID then
    if current_slot c <? MAX_FINGERS then
      match update_finger c (current_slot c) (track_finger ev) with
      | Some c' => Some (0, c', [])
      | None => None
      end
    else Some (0, c, [])
  else Some (0, c, []).

End Scale.

(** The context of [main] before the first event: zeroed. *)
Definition zero_finger : finger :=
  {| prev_x := 0; prev_y := 0; prev_on := 0; x := 0; y := 0; on := 0;
     started_in_bounds := 0;
     start_time := {| tv_sec := 0; tv_usec := 0 |};
     end_time := {| tv_sec := 0; tv_usec := 0 |} |}.

(** The zeroed context with the region of a touchscreen of
    [0,999] x [0,999]. *)
Definition example_context : trackscreen_context :=
  compute_trackpad_bounds
    {| ts_min_x := 0; ts_min_y := 0; ts_max_x := 999; ts_max_y := 999;
       tp_min_x := 0; tp_min_y := 0; tp_max_x := 0; tp_max_y := 0;
       current_slot := 0; fingers := [zero_finger; zero_finger] |}.



(** The finger array has its declared size. *)
Definition wf (c : trackscreen_context) : Prop :=
  length (fingers c) = Z.to_nat MAX_FINGERS.

(** A finger that adds nothing to the motion of the report: it is up, or
    was up at the last report, or its touch began outside the box. *)
Definition still (c : trackscreen_context) (f : finger) : bool :=
  (on f =? 0) || (prev_on f =? 0) ||
  (if on f =? prev_on f then started_in_bounds f =? 0
   else negb (touch_in_box c f)).

(** A finger lifted since the last report after a touch of at most
    [TAP_TIME_US]. *)
Definition tapped (f : finger) : bool :=
  (on f =? 0) && negb (prev_on f =? 0) && (touch_time f <=? TAP_TIME_US).

(** A finger that is up and was up at the last report. *)
Definition idle (f : finger) : bool := (on f =? 0) && (prev_on f =? 0).

(** An event that brings no finger down and keeps the cursor from going
    below the array: no slot-select event with a negative value, no
    tracking-ID event with a positive value. *)
Definition quiet (ev : input_event) : bool :=
  negb (type ev =? EV_ABS) ||
  (if code ev =? ABS_MT_SLOT then 0 <=? value ev
   else if code ev =? ABS_MT_TRACKING_ID then value ev <=? 0
   else true).

(** The events [process_report] writes for a tap. *)
Definition click_sequence : list struct_input_event :=
  [mk_input_event EV_KEY BTN_LEFT 1; mk_input_event EV_SYN SYN_REPORT 0;
   mk_input_event EV_KEY BTN_LEFT 0; mk_input_event EV_SYN SYN_REPORT 0].

(** The report of a finger coming down at [(px, py)] with tracking ID
    [id], and the report of its lift. *)
Definition touch_report (t : timeval) (id px py : Z) : list input_event :=
  [mk_event t EV_ABS ABS_MT_TRACKING_ID id;
   mk_event t EV_ABS ABS_MT_POSITION_X px;
   mk_event t EV_ABS ABS_MT_POSITION_Y py;
   mk_event t EV_SYN SYN_REPORT 0].

Definition lift_report (t : timeval) : list input_event :=
  [mk_event t EV_ABS ABS_MT_TRACKING_ID (-1);
   mk_event t EV_SYN SYN_REPORT 0].

(** The report of the finger of the cursor moving to [(px, py)]. *)
Definition move_report (t : timeval) (px py : Z) : list input_event :=
  [mk_event t EV_ABS ABS_MT_POSITION_X px;
   mk_event t EV_ABS ABS_MT_POSITION_Y py;
   mk_event t EV_SYN SYN_REPORT 0].

(** A normalised time stamp, and the microseconds between two. *)
Definition valid_time (t : timeval) : bool :=
  (0 <=? tv_sec t) && (tv_sec t <? 2 ^ 31) &&
  (0 <=? tv_usec t) && (tv_usec t <? 1000000).

Definition elapsed_us (t0 t1 : timeval) : Z :=
  (tv_sec t1 - tv_sec t0) * 1000000 + (tv_usec t1 - tv_usec t0).

Section Run.

Variable scale_delta : Z -> Z.

(** The loop of [main]: [convert_event] on each event read, until one
    returns a status other than zero. *)
Fixpoint convert_events (evs : list input_event) (c : trackscreen_context) :
  option (trackscreen_context * list struct_input_event) :=
  match evs with
  | [] => Some (c, [])
  | ev :: evs' =>
      match convert_event scale_delta ev c with
      | Some (status, c', out) =>
          if status =? 0 then
            match convert_events evs' c' with
            | Some (c'', out') => Some (c'', out ++ out')
            | None => None
            end
          else Some (c', out)
      | None => None
      end
  end.

End Run.

Definition stamp (s us : Z) : timeval := {| tv_sec := s; tv_usec := us |}.

(** [c] is [c0] with the finger array [l1 ++ f :: l2], where [f] is the
    finger of the cursor and the other fingers are idle. *)
Definition slot_finger (c0 c : trackscreen_context) (f : finger) : Prop :=
  exists l1 l2,
    c = set_fingers (l1 ++ f :: l2) c0 /\
    current_slot c0 = Z.of_nat (length l1) /\
    forallb idle l1 = true /\ forallb idle l2 = true.

(** The reports of the finger of the cursor moving through the positions
    [ps]. *)
Definition move_reports (ps : list (timeval * Z * Z)) : list input_event :=
  flat_map (fun '(t, px, py) => move_report t px py) ps.

End Relative.

(** ** Set-up of the uinput devices (sidekey program)

    [setup_trackpad] and [setup_keyboard] configure a uinput device by a
    sequence of [ioctl] requests.  The model records the requests issued, in
    order, for a /dev/uinput that opens; [accepts] tells which requests the
    kernel accepts.  A status is modelled by whether it is 0: the non-zero
    values are source line numbers. *)
Module Setup.

Definition BTN_TOUCH : Z := 330.
Definition ABS_PRESSURE : Z := 24.
Definition ABS_MT_TOUCH_MAJOR : Z := 48.
Definition ABS_MT_TOUCH_MINOR : Z := 49.
Definition ABS_MT_PRESSURE : Z := 58.
Definition INPUT_PROP_POINTER : Z := 0.
Definition INPUT_PROP_BUTTONPAD : Z := 2.
Definition BUS_VIRTUAL : Z := 6.

Record input_absinfo : Type := {
  abs_value : Z;
  minimum : Z;
  maximum : Z;
  fuzz : Z;
  flat : Z;
  resolution : Z
}.

Inductive request : Type :=
  | UI_SET_EVBIT (v : Z)
  | UI_SET_KEYBIT (v : Z)
  | UI_SET_ABSBIT (v : Z)
  | UI_SET_PROPBIT (v : Z)
  | UI_ABS_SETUP (axis_code : Z) (absinfo : input_absinfo)
  | UI_DEV_SETUP (bustype vendor product : Z) (name : string)
  | UI_DEV_CREATE.

Section Device.

Variable accepts : request -> bool.

(** A run of [CHECK_IOCTL] lines: the requests are issued in order, and the
    function returns at the first one that fails.  The result is whether
    all succeeded, with the requests issued. *)
Fixpoint check_ioctls (reqs : list request) : bool * list request :=
  match reqs with
  | [] => (true, [])
  | r :: reqs' =>
      if accepts r then
        let '(ok, issued) := check_ioctls reqs' in (ok, r :: issued)
      else (false, [r])
  end.

Definition setup_axis (axis_code maximum resolution : Z) :
  bool * list request :=
  check_ioctls
    [UI_SET_ABSBIT axis_code;
     UI_ABS_SETUP axis_code
       {| abs_value := 0; minimum := 0; maximum := maximum; fuzz := 0;
          flat := 0; resolution := resolution |}].

Definition setup_pressure_axis (axis_code minimum maximum : Z) :
  bool * list request :=
  check_ioctls
    [UI_SET_ABSBIT axis_code;
     UI_ABS_SETUP axis_code
       {| abs_value := 0; minimum := minimum; maximum := maximum;
          fuzz := 0; flat := 0; resolution := 0 |}].

(** The requests of the first run of [CHECK_IOCTL] lines of
    [setup_trackpad], and of its last two. *)
Definition capability_requests : list request :=
  [UI_SET_EVBIT EV_KEY;
   UI_SET_KEYBIT BTN_TOOL_FINGER;
   UI_SET_KEYBIT BTN_TOUCH;
   UI_SET_KEYBIT BTN_TOOL_QUINTTAP;
   UI_SET_KEYBIT BTN_TOOL_DOUBLETAP;
   UI_SET_KEYBIT BTN_TOOL_TRIPLETAP;
   UI_SET_KEYBIT BTN_TOOL_QUADTAP;
   UI_SET_EVBIT EV_ABS;
   UI_SET_ABSBIT ABS_X;
   UI_SET_ABSBIT ABS_Y;
   UI_SET_ABSBIT ABS_PRESSURE;
   UI_SET_ABSBIT ABS_MT_SLOT;
   UI_SET_ABSBIT ABS_MT_TOUCH_MAJOR;
   UI_SET_ABSBIT ABS_MT_TOUCH_MINOR;
   UI_SET_ABSBIT ABS_MT_POSITION_X;
   UI_SET_ABSBIT ABS_MT_POSITION_Y;
   UI_SET_ABSBIT ABS_MT_TRACKING_ID;
   UI_SET_ABSBIT ABS_MT_PRESSURE;
   UI_SET_PROPBIT INPUT_PROP_POINTER;
   UI_SET_PROPBIT INPUT_PROP_BUTTONPAD].

Definition device_requests : list request :=
  [UI_DEV_SETUP BUS_VIRTUAL 1616 2321 "Trackscreen"; UI_DEV_CREATE].

(** The seven axis set-up calls of [setup_trackpad]: their results are not
    looked at.  [x_res], [y_res], [pressure_min] and [pressure_max] are the
    fields of these names that [read_touchscreen_parameters] filled in. *)
Definition setup_axes (c : trackscreen_context)
  (x_res y_res pressure_min pressure_max : Z) : list request :=
  snd (setup_axis ABS_X (int_sub (tp_max_x c) (tp_min_x c)) x_res) ++
  snd (setup_axis ABS_Y (int_sub (tp_max_y c) (tp_min_y c)) y_res) ++
  snd (setup_pressure_axis ABS_PRESSURE pressure_min pressure_max) ++
  snd (setup_axis ABS_MT_POSITION_X
         (int_sub (tp_max_x c) (tp_min_x c)) x_res) ++
  snd (setup_axis ABS_MT_POSITION_Y
         (int_sub (tp_max_y c) (tp_min_y c)) y_res) ++
  snd (setup_pressure_axis ABS_MT_PRESSURE pressure_min pressure_max) ++
  snd (setup_axis ABS_MT_SLOT 9 0).

Definition setup_trackpad (c : trackscreen_context)
  (x_res y_res pressure_min pressure_max : Z) : bool * list request :=
  let '(ok, issued) := check_ioctls capability_requests in
  if negb ok then (false, issued) else
  let axes := setup_axes c x_res y_res pressure_min pressure_max in
  let '(ok, created) := check_ioctls device_requests in
  (ok, issued ++ axes ++ created).

Definition setup_keyboard (c : trackscreen_context) : bool * list request :=
  check_ioctls
    [UI_SET_EVBIT EV_KEY;
     UI_SET_KEYBIT (keycode c);
     UI_DEV_SETUP BUS_VIRTUAL 1616 2322 "Trackscreen Keyboard";
     UI_DEV_CREATE].

End Device.

(** A kernel that accepts every request, and one that refuses the axis
    set-up requests only. *)
Definition accepts_all (r : request) : bool := true.

Definition refuses_axis_setup (r : request) : bool :=
  match r with
  | UI_ABS_SETUP _ _ => false
  | _ => true
  end.


End Setup.

(** ** Contexts at the edge of the hypotheses *)

(** The touchscreen [0,10] x [0,10] with the dimensions 0,0,5,5, whose
    region is empty, and a report with a touch at (5, 5). *)
Definition empty_region_context : trackscreen_context :=
  with_report [mk_input_event EV_ABS ABS_MT_POSITION_X 5;
               mk_input_event EV_ABS ABS_MT_POSITION_Y 5]
    small_screen_context.

(** A report with a key event that the touchscreen sends itself:
    [BTN_TOOL_PEN], code 320. *)
Definition pen_report : list struct_input_event :=
  [mk_input_event EV_KEY 320 1; syn_report].

(** A touchscreen of [0,2000000000] x [0,2000000000] for the relative-motion
    program. *)
Definition large_screen_context : Relative.trackscreen_context :=
  {| Relative.ts_min_x := 0; Relative.ts_min_y := 0;
     Relative.ts_max_x := 2000000000; Relative.ts_max_y := 2000000000;
     Relative.tp_min_x := 0; Relative.tp_min_y := 0;
     Relative.tp_max_x := 0; Relative.tp_max_y := 0;
     Relative.current_slot := 0;
     Relative.fingers := [Relative.zero_finger; Relative.zero_finger] |}.

(** * Proofs *)

(** ** Machine integers *)

Lemma to_int_range (z : Z) : int_range z -> to_int z = z.
Proof.
  unfold int_range, INT_MIN, INT_MAX, to_int. intros H.
  rewrite Z.mod_small; lia.
Qed.

Lemma to_uint_negative (z : Z) :
  INT_MIN <= z < 0 -> to_uint z = z + 2 ^ 32.
Proof.
  unfold INT_MIN, to_uint. intros H. symmetry.
  apply (Z.mod_unique_pos z (2 ^ 32) (-1) (z + 2 ^ 32)); lia.
Qed.

Lemma to_uint_nonneg (z : Z) : 0 <= to_uint z.
Proof. unfold to_uint. apply Z.mod_pos_bound. lia. Qed.

(** Comparisons of the program as propositions, for [lia]. *)
Ltac bool_to_prop :=
  repeat match goal with
  | H : _ && _ = true |- _ => apply andb_true_iff in H; destruct H
  | H : _ && _ = false |- _ => apply andb_false_iff in H
  | H : _ || _ = true |- _ => apply orb_true_iff in H
  | H : _ || _ = false |- _ => apply orb_false_iff in H; destruct H
  | H : negb _ = true |- _ => apply negb_true_iff in H
  | H : negb _ = false |- _ => apply negb_false_iff in H
  | H : (_ <? _) = true |- _ => apply Z.ltb_lt in H
  | H : (_ <? _) = false |- _ => apply Z.ltb_ge in H
  | H : (_ <=? _) = true |- _ => apply Z.leb_le in H
  | H : (_ <=? _) = false |- _ => apply Z.leb_gt in H
  | H : (_ >? _) = true |- _ => rewrite Z.gtb_ltb in H
  | H : (_ >? _) = false |- _ => rewrite Z.gtb_ltb in H
  | H : (_ >=? _) = true |- _ => rewrite Z.geb_leb in H
  | H : (_ >=? _) = false |- _ => rewrite Z.geb_leb in H
  | H : (_ =? _) = true |- _ => apply Z.eqb_eq in H
  | H : (_ =? _) = false |- _ => apply Z.eqb_neq in H
  end.

(** Unfolding of the sequencing of [prog]. *)
Ltac prog_step :=
  unfold mbind, prog_bind, mret, prog_ret, get, modify, write, fault; simpl.

Lemma input_event_eta (ev : struct_input_event) :
  mk_input_event (type ev) (code ev) (value ev) = ev.
Proof. destruct ev; reflexivity. Qed.

(** ** The report queue *)

Lemma queued_length (c : trackscreen_context) :
  wf c -> length (queued c) = Z.to_nat (input_events c).
Proof.
  intros (_ & Harr & Hn & _). unfold queued.
  rewrite length_take_le; [reflexivity|].
  rewrite Harr. unfold MAX_EVENTS_PER_REPORT in *. lia.
Qed.

(** A full queue drops the event and keeps the context. *)
Lemma queue_tp_event_full (c : trackscreen_context) (t k v : Z) :
  input_events c >= MAX_EVENTS_PER_REPORT ->
  queue_tp_event t k v c = Some (tt, c, []).
Proof.
  intros H. unfold queue_tp_event. prog_step.
  destruct (input_events c >=? MAX_EVENTS_PER_REPORT) eqn:E; [reflexivity|].
  bool_to_prop. lia.
Qed.

(** With room left, the event is stored at the end of the queue. *)
Lemma queue_tp_event_room (c : trackscreen_context) (t k v : Z) :
  wf c -> input_events c < MAX_EVENTS_PER_REPORT ->
  queue_tp_event t k v c =
    Some (tt,
          set_input_events (input_events c + 1)
            (set_input_event
               (<[Z.to_nat (input_events c) := mk_input_event t k v]>
                  (input_event c)) c),
          []).
Proof.
  intros (_ & Harr & Hn & _) H. unfold queue_tp_event. prog_step.
  destruct (input_events c >=? MAX_EVENTS_PER_REPORT) eqn:E;
    [bool_to_prop; lia|].
  unfold store_input_event, array_store. prog_step.
  replace ((0 <=? input_events c) &&
           (input_events c <? Z.of_nat (length (input_event c)))) with true.
  2:{ symmetry. apply andb_true_iff. rewrite Harr.
      split; [apply Z.leb_le|apply Z.ltb_lt];
        unfold MAX_EVENTS_PER_REPORT in *; lia. }
  simpl. unfold int_add. rewrite to_int_range; [reflexivity|].
  unfold int_range, INT_MIN, INT_MAX, MAX_EVENTS_PER_REPORT in *. lia.
Qed.

Lemma queued_push (c : trackscreen_context) (ev : struct_input_event) :
  wf c -> input_events c < MAX_EVENTS_PER_REPORT ->
  queued (set_input_events (input_events c + 1)
            (set_input_event
               (<[Z.to_nat (input_events c) := ev]> (input_event c)) c)) =
  queued c ++ [ev].
Proof.
  intros (_ & Harr & Hn & _) H. unfold queued. simpl.
  replace (Z.to_nat (input_events c + 1))
    with (S (Z.to_nat (input_events c))) by lia.
  assert (Hlt : (Z.to_nat (input_events c) < length (input_event c))%nat).
  { rewrite Harr. unfold MAX_EVENTS_PER_REPORT in *. lia. }
  rewrite (take_S_r _ _ ev) by (apply list_lookup_insert_eq; exact Hlt).
  rewrite take_insert_ge by lia. reflexivity.
Qed.

Lemma wf_push (c : trackscreen_context) (ev : struct_input_event) :
  wf c -> input_events c < MAX_EVENTS_PER_REPORT ->
  wf (set_input_events (input_events c + 1)
        (set_input_event
           (<[Z.to_nat (input_events c) := ev]> (input_event c)) c)).
Proof.
  intros (Hf & Harr & Hn & Hs) H. unfold wf. simpl.
  rewrite length_insert. repeat split; try assumption; lia.
Qed.

(** What one call of [queue_tp_event] does on a well-formed context. *)
Lemma queue_tp_event_spec (c : trackscreen_context) (t k v : Z) :
  wf c ->
  exists c',
    queue_tp_event t k v c = Some (tt, c', []) /\ wf c' /\
    queued c' =
      take (Z.to_nat MAX_EVENTS_PER_REPORT)
        (queued c ++ [mk_input_event t k v]).
Proof.
  intros Hwf. pose proof (queued_length c Hwf) as Hlen.
  pose proof Hwf as (_ & _ & Hn & _).
  destruct (Z_lt_ge_dec (input_events c) MAX_EVENTS_PER_REPORT) as [Hr|Hfull].
  - eexists. split; [apply queue_tp_event_room; assumption|].
    split; [apply wf_push; assumption|].
    rewrite queued_push by assumption.
    rewrite take_ge; [reflexivity|].
    rewrite length_app, Hlen. unfold MAX_EVENTS_PER_REPORT in *. simpl. lia.
  - exists c. split; [apply queue_tp_event_full; assumption|].
    split; [assumption|].
    unfold MAX_EVENTS_PER_REPORT in *.
    rewrite take_app_le by (rewrite Hlen; lia).
    rewrite take_ge by (rewrite Hlen; lia). reflexivity.
Qed.

Lemma take_take_app {A : Type} (n : nat) (l k : list A) :
  take n (take n l ++ k) = take n (l ++ k).
Proof.
  destruct (Nat.le_gt_cases n (length l)) as [Hle|Hgt].
  - rewrite !take_app_le; [apply take_idemp|assumption|].
    rewrite length_take_le; [reflexivity|assumption].
  - rewrite (take_ge l) by lia. reflexivity.
Qed.

Lemma queue_tp_events_spec (evs : list struct_input_event) :
  forall c, wf c ->
  exists c',
    queue_tp_events evs c = Some (tt, c', []) /\ wf c' /\
    queued c' = take (Z.to_nat MAX_EVENTS_PER_REPORT) (queued c ++ evs).
Proof.
  induction evs as [|ev evs IH]; intros c Hwf.
  - exists c. split; [reflexivity|]. split; [assumption|].
    rewrite app_nil_r, take_ge; [reflexivity|].
    rewrite queued_length by assumption. destruct Hwf as (_ & _ & Hn & _).
    unfold MAX_EVENTS_PER_REPORT in *. lia.
  - destruct (queue_tp_event_spec c (type ev) (code ev) (value ev) Hwf)
      as (c1 & Hq & Hwf1 & Hq1).
    destruct (IH c1 Hwf1) as (c2 & Hq2 & Hwf2 & Hq2').
    exists c2. split; [|split; [assumption|]].
    + simpl. unfold mbind, prog_bind. rewrite Hq, Hq2. reflexivity.
    + rewrite Hq2', Hq1, input_event_eta, take_take_app.
      rewrite <- app_assoc. reflexivity.
Qed.

Lemma flush_tp_events_spec (c : trackscreen_context)
  (report : struct_input_event) :
  flush_tp_events report c =
    Some (tt, set_input_events 0 c, [write_tp (queued c); write_tp [report]]).
Proof. reflexivity. Qed.

(** C5: queueing past the capacity of 24 drops the arriving events and keeps
    the queued ones in arrival order; the flush writes the queue as one
    batch, then the sync event, and leaves the queue empty.  Twenty-five
    events queued in one report flush as the first twenty-four. *)
Theorem C5_queue_overflow_and_flush (c : trackscreen_context)
  (evs : list struct_input_event) (report : struct_input_event) :
  wf c ->
  exists c1 c2,
    queue_tp_events evs c = Some (tt, c1, []) /\
    queued c1 = take 24 (queued c ++ evs) /\
    (length (queued c) = 24%nat -> queued c1 = queued c) /\
    flush_tp_events report c1 =
      Some (tt, c2, [write_tp (queued c1); write_tp [report]]) /\
    queued c2 = [] /\
    (forall first24 ev25,
       queued c = [] -> evs = first24 ++ [ev25] -> length first24 = 24%nat ->
       queued c1 = first24).
Proof.
  intros Hwf.
  destruct (queue_tp_events_spec evs c Hwf) as (c1 & Hq & Hwf1 & Hq1).
  change (Z.to_nat MAX_EVENTS_PER_REPORT) with 24%nat in Hq1.
  exists c1, (set_input_events 0 c1).
  split; [exact Hq|]. split; [exact Hq1|].
  split; [|split; [apply flush_tp_events_spec|split; [reflexivity|]]].
  - intros Hlen. rewrite Hq1, take_app_le by lia. apply take_ge. lia.
  - intros first24 ev25 Hempty -> Hlen.
    rewrite Hq1, Hempty. simpl. rewrite <- Hlen. apply take_app_length.
Qed.

(** Twenty-five position events on the empty queue of the start-up
    context. *)
Lemma C5_queue_overflow_and_flush_witness :
  exists c1 c2,
    queue_tp_events
      (map (mk_input_event EV_ABS ABS_MT_POSITION_X)
         (map Z.of_nat (seq 1 25))) initial_context = Some (tt, c1, []) /\
    queued c1 =
      take 24 (queued initial_context ++
               map (mk_input_event EV_ABS ABS_MT_POSITION_X)
                 (map Z.of_nat (seq 1 25))) /\
    (length (queued initial_context) = 24%nat ->
     queued c1 = queued initial_context) /\
    flush_tp_events (mk_input_event EV_SYN SYN_REPORT 0) c1 =
      Some (tt, c2, [write_tp (queued c1);
                     write_tp [mk_input_event EV_SYN SYN_REPORT 0]]) /\
    queued c2 = [] /\
    (forall first24 ev25,
       queued initial_context = [] ->
       map (mk_input_event EV_ABS ABS_MT_POSITION_X)
         (map Z.of_nat (seq 1 25)) = first24 ++ [ev25] ->
       length first24 = 24%nat ->
       queued c1 = first24).
Proof.
  apply (C5_queue_overflow_and_flush initial_context
           (map (mk_input_event EV_ABS ABS_MT_POSITION_X)
              (map Z.of_nat (seq 1 25)))
           (mk_input_event EV_SYN SYN_REPORT 0)).
  repeat split; vm_compute; congruence.
Defined.

(** ** Geometry *)

Lemma valid_dimensions_spec (l t w h : Z) :
  valid_dimensions l t w h = true <->
  0 <= l < 100 /\ 0 <= t < 100 /\ 0 < w <= 100 /\ 0 < h <= 100 /\
  l + w <= 100 /\ t + h <= 100.
Proof.
  unfold valid_dimensions. rewrite !andb_true_iff.
  rewrite !Z.leb_le, !Z.ltb_lt. lia.
Qed.







(** The percentage of an extent, as the program computes it, when the
    extent times 100 fits in an [int]. *)
Lemma percent_of_extent (e p : Z) :
  0 < e -> e * 100 <= INT_MAX -> 0 <= p <= 100 ->
  int_div (int_mul e p) 100 = e * p / 100 /\ 0 <= e * p / 100 <= e.
Proof.
  intros He Hfit Hp. unfold INT_MAX in Hfit.
  assert (Hprod : 0 <= e * p <= e * 100) by nia.
  assert (Hq : 0 <= e * p / 100 <= e).
  { split; [apply Z.div_pos; lia|].
    apply Z.div_le_upper_bound; lia. }
  split; [|exact Hq].
  unfold int_div, int_mul.
  rewrite (to_int_range (e * p))
    by (unfold int_range, INT_MIN, INT_MAX; lia).
  rewrite Z.quot_div_nonneg by lia.
  apply to_int_range. unfold int_range, INT_MIN, INT_MAX. lia.
Qed.

(** One axis of [compute_trackpad_bounds]. *)
Lemma region_axis (lo hi p q : Z) :
  int_range lo -> int_range hi -> lo < hi ->
  (hi - lo) * 100 <= INT_MAX ->
  0 <= p < 100 -> 0 < q <= 100 -> p + q <= 100 ->
  let extent := int_sub hi lo in
  let tp_min := int_add lo (int_div (int_mul extent p) 100) in
  let tp_max := int_add tp_min (int_div (int_mul extent q) 100) in
  lo <= tp_min <= tp_max /\ tp_max <= hi /\
  (tp_min < tp_max <-> 100 <= (hi - lo) * q).
Proof.
  intros Hlo Hhi Hlt Hfit Hp Hq Hsum extent tp_min tp_max.
  assert (He : extent = hi - lo).
  { apply to_int_range. unfold int_range, INT_MIN, INT_MAX in *. lia. }
  subst tp_max tp_min. rewrite He. clear extent He.
  set (e := hi - lo) in *.
  destruct (percent_of_extent e p) as [-> Hpb]; try lia.
  destruct (percent_of_extent e q) as [-> Hqb]; try lia.
  assert (H1 : 100 * (e * p / 100) <= e * p) by (apply Z.mul_div_le; lia).
  assert (H2 : 100 * (e * q / 100) <= e * q) by (apply Z.mul_div_le; lia).
  assert (Hboth : e * p / 100 + e * q / 100 <= e) by nia.
  assert (H3 : e * q < 100 * Z.succ (e * q / 100))
    by (apply Z.mul_succ_div_gt; lia).
  unfold int_add.
  rewrite (to_int_range (lo + e * p / 100))
    by (unfold int_range, INT_MIN, INT_MAX in *; lia).
  rewrite to_int_range by (unfold int_range, INT_MIN, INT_MAX in *; lia).
  lia.
Qed.

(** C7, amended: for a screen rectangle with minimum below maximum whose
    extents times 100 fit in an [int], and valid percentages, the computed
    region lies inside the screen rectangle; on each axis it is non-empty
    exactly when extent times percentage reaches 100, since the division by
    100 truncates.  The dimensions 33,67,33,33 on [0,1000] x [0,1000] give
    the region [330,660) x [670,1000). *)
Theorem C7_region_inside_screen (c : trackscreen_context) :
  valid_dimensions (tp_left_percent c) (tp_top_percent c)
    (tp_width_percent c) (tp_height_percent c) = true ->
  ts_min_x c < ts_max_x c -> ts_min_y c < ts_max_y c ->
  int_range (ts_min_x c) -> int_range (ts_max_x c) ->
  int_range (ts_min_y c) -> int_range (ts_max_y c) ->
  (ts_max_x c - ts_min_x c) * 100 <= INT_MAX ->
  (ts_max_y c - ts_min_y c) * 100 <= INT_MAX ->
  (exists c',
     compute_trackpad_bounds c = Some (tt, c', []) /\
     ts_min_x c <= tp_min_x c' <= tp_max_x c' /\ tp_max_x c' <= ts_max_x c /\
     ts_min_y c <= tp_min_y c' <= tp_max_y c' /\ tp_max_y c' <= ts_max_y c /\
     (tp_min_x c' < tp_max_x c' <->
      100 <= (ts_max_x c - ts_min_x c) * tp_width_percent c) /\
     (tp_min_y c' < tp_max_y c' <->
      100 <= (ts_max_y c - ts_min_y c) * tp_height_percent c)) /\
  (exists c',
     main_geometry (Some [33; 67; 33; 33]) (0, 1000) (0, 1000)
       initial_context = Some (0, c', []) /\
     (tp_min_x c', tp_max_x c', tp_min_y c', tp_max_y c') =
     (330, 660, 670, 1000)).
Proof.
  intros Hvalid Hx Hy Hx0 Hx1 Hy0 Hy1 Hfx Hfy.
  apply valid_dimensions_spec in Hvalid.
  destruct Hvalid as (Hl & Ht & Hw & Hh & Hlw & Hth).
  split.
  - eexists. split; [reflexivity|]. simpl.
    pose proof (region_axis (ts_min_x c) (ts_max_x c) (tp_left_percent c)
                  (tp_width_percent c) Hx0 Hx1 Hx Hfx Hl Hw Hlw) as HX.
    pose proof (region_axis (ts_min_y c) (ts_max_y c) (tp_top_percent c)
                  (tp_height_percent c) Hy0 Hy1 Hy Hfy Ht Hh Hth) as HY.
    simpl in HX, HY. tauto.
  - eexists. split; [vm_compute; reflexivity|reflexivity].
Qed.

Lemma C7_region_inside_screen_witness :
  (exists c',
     compute_trackpad_bounds example_context = Some (tt, c', []) /\
     ts_min_x example_context <= tp_min_x c' <= tp_max_x c' /\
     tp_max_x c' <= ts_max_x example_context /\
     ts_min_y example_context <= tp_min_y c' <= tp_max_y c' /\
     tp_max_y c' <= ts_max_y example_context /\
     (tp_min_x c' < tp_max_x c' <->
      100 <= (ts_max_x example_context - ts_min_x example_context) *
             tp_width_percent example_context) /\
     (tp_min_y c' < tp_max_y c' <->
      100 <= (ts_max_y example_context - ts_min_y example_context) *
             tp_height_percent example_context)) /\
  (exists c',
     main_geometry (Some [33; 67; 33; 33]) (0, 1000) (0, 1000)
       initial_context = Some (0, c', []) /\
     (tp_min_x c', tp_max_x c', tp_min_y c', tp_max_y c') =
     (330, 660, 670, 1000)).
Proof.
  apply (C7_region_inside_screen example_context);
    try reflexivity; vm_compute; intuition congruence.
Defined.

(** On the touchscreen [0,10] x [0,10] the valid dimensions 0,0,5,5 give an
    empty region: 10 * 5 / 100 is 0. *)
Lemma C7_small_screen_region_empty :
  valid_dimensions (tp_left_percent small_screen_context)
    (tp_top_percent small_screen_context)
    (tp_width_percent small_screen_context)
    (tp_height_percent small_screen_context) = true /\
  ts_min_x small_screen_context < ts_max_x small_screen_context /\
  ts_min_y small_screen_context < ts_max_y small_screen_context /\
  exists c',
    compute_trackpad_bounds small_screen_context = Some (tt, c', []) /\
    (tp_min_x c', tp_max_x c', tp_min_y c', tp_max_y c') = (0, 0, 0, 0) /\
    ~ (tp_min_x c' < tp_max_x c' /\ tp_min_y c' < tp_max_y c').
Proof.
  split; [reflexivity|]. split; [reflexivity|]. split; [reflexivity|].
  eexists. split; [vm_compute; reflexivity|].
  split; [reflexivity|]. simpl. lia.
Qed.

(** On a touchscreen of [0,40000000] x [0,40000000] the product of the
    height and 67 leaves the range of [int]: with the wrap-around of two's
    complement the default dimensions put the top of the region above the
    screen. *)
Lemma compute_trackpad_bounds_overflow :
  exists c',
    main_geometry None (0, 40000000) (0, 40000000) initial_context =
      Some (0, c', []) /\
    (tp_min_x c', tp_max_x c', tp_min_y c', tp_max_y c') =
    (13200000, 26400000, -16149672, -2949672) /\
    tp_min_y c' < ts_min_y c'.
Proof.
  eexists. split; [vm_compute; reflexivity|]. split; [reflexivity|].
  simpl. lia.
Qed.

(** ** The bounds check *)

Lemma side_touches_spec (c : trackscreen_context) (x y : Z) :
  (side_touches c x y = 1 <->
   tp_min_y c <= y < tp_max_y c /\ (x < tp_min_x c \/ tp_max_x c <= x)) /\
  (side_touches c x y = 0 <->
   ~ (tp_min_y c <= y < tp_max_y c /\ (x < tp_min_x c \/ tp_max_x c <= x))).
Proof.
  unfold side_touches.
  destruct ((y >=? tp_min_y c) && (y <? tp_max_y c)) eqn:Ey;
    [destruct ((x <? tp_min_x c) || (x >=? tp_max_x c)) eqn:Ex|];
    bool_to_prop; lia.
Qed.

(** No full point: the bounds check does nothing. *)
Lemma check_bounds_unresolved (c : trackscreen_context) (x y : Z) :
  resolved_position c = (x, y) -> x = -1 \/ y = -1 ->
  check_bounds c = Some (tt, c, []).
Proof.
  unfold resolved_position, check_bounds. intros Hpos Hunset. prog_step.
  rewrite Hpos.
  replace ((x =? -1) || (y =? -1)) with true; [reflexivity|].
  symmetry. apply orb_true_iff. rewrite !Z.eqb_eq. exact Hunset.
Qed.

(** The classification equals the stored state: nothing is written to the
    keyboard. *)
Lemma check_bounds_steady (c : trackscreen_context) (x y : Z) :
  resolved_position c = (x, y) -> x <> -1 -> y <> -1 ->
  side_touches c x y = sidekey c ->
  check_bounds c =
    Some (tt,
          replace_positions
            (clamp_adjust (tp_min_x c) (tp_max_x c) x)
            (clamp_adjust (tp_min_y c) (tp_max_y c) y)
            (set_pos_y y (set_pos_x x c)),
          []).
Proof.
  unfold resolved_position, check_bounds. intros Hpos Hx Hy Hside. prog_step.
  rewrite Hpos.
  replace ((x =? -1) || (y =? -1)) with false
    by (symmetry; apply orb_false_iff; rewrite !Z.eqb_neq; tauto).
  rewrite Hside, Z.eqb_refl. reflexivity.
Qed.

(** The classification differs from the stored state: the state is updated
    and, with a keyboard, one key event is written. *)
Lemma check_bounds_transition (c : trackscreen_context) (x y : Z) :
  resolved_position c = (x, y) -> x <> -1 -> y <> -1 ->
  side_touches c x y <> sidekey c ->
  check_bounds c =
    Some (tt,
          replace_positions
            (clamp_adjust (tp_min_x c) (tp_max_x c) x)
            (clamp_adjust (tp_min_y c) (tp_max_y c) y)
            (set_pos_y y (set_pos_x x (set_sidekey (side_touches c x y) c))),
          if kbd c >? 0
          then [write_kbd (sidekey_events c (side_touches c x y))]
          else []).
Proof.
  unfold resolved_position, check_bounds. intros Hpos Hx Hy Hside. prog_step.
  rewrite Hpos.
  replace ((x =? -1) || (y =? -1)) with false
    by (symmetry; apply orb_false_iff; rewrite !Z.eqb_neq; tauto).
  apply Z.eqb_neq in Hside. rewrite Hside. simpl.
  destruct (kbd c >? 0); reflexivity.
Qed.

(** C3: for a resolved position (x, y), the bounds check declares a side
    touch exactly when y is inside the vertical span of the region and x is
    outside its horizontal span, and stores that classification.  With the
    region [330,660) x [670,1000), (500,800) is no side touch and (100,800)
    is one. *)
Theorem C3_side_touch_classification (c : trackscreen_context) (x y : Z) :
  resolved_position c = (x, y) -> x <> -1 -> y <> -1 ->
  (side_touches c x y = 1 <->
   tp_min_y c <= y < tp_max_y c /\ (x < tp_min_x c \/ tp_max_x c <= x)) /\
  (side_touches c x y = 0 <->
   ~ (tp_min_y c <= y < tp_max_y c /\ (x < tp_min_x c \/ tp_max_x c <= x))) /\
  (exists c' out,
     check_bounds c = Some (tt, c', out) /\
     sidekey c' = side_touches c x y) /\
  side_touches example_context 500 800 = 0 /\
  side_touches example_context 100 800 = 1.
Proof.
  intros Hpos Hx Hy.
  split; [apply side_touches_spec|]. split; [apply side_touches_spec|].
  split; [|split; reflexivity].
  destruct (Z.eq_dec (side_touches c x y) (sidekey c)) as [Heq|Hne].
  - eexists _, _. split; [apply (check_bounds_steady c x y); assumption|].
    simpl. symmetry. exact Heq.
  - eexists _, _. split; [apply (check_bounds_transition c x y); assumption|].
    reflexivity.
Qed.

Lemma C3_side_touch_classification_witness :
  (side_touches side_touch_context 100 800 = 1 <->
   tp_min_y side_touch_context <= 800 < tp_max_y side_touch_context /\
   (100 < tp_min_x side_touch_context \/
    tp_max_x side_touch_context <= 100)) /\
  (side_touches side_touch_context 100 800 = 0 <->
   ~ (tp_min_y side_touch_context <= 800 < tp_max_y side_touch_context /\
      (100 < tp_min_x side_touch_context \/
       tp_max_x side_touch_context <= 100))) /\
  (exists c' out,
     check_bounds side_touch_context = Some (tt, c', out) /\
     sidekey c' = side_touches side_touch_context 100 800) /\
  side_touches example_context 500 800 = 0 /\
  side_touches example_context 100 800 = 1.
Proof.
  apply (C3_side_touch_classification side_touch_context 100 800);
    [reflexivity|lia|lia].
Defined.

Lemma queued_replace_positions (c : trackscreen_context) (x y : Z) :
  wf c ->
  queued (replace_positions x y c) = map (replace_position x y) (queued c).
Proof.
  intros Hwf. pose proof (queued_length c Hwf) as Hlen.
  unfold replace_positions, queued in *. simpl.
  rewrite take_app_length'; [reflexivity|].
  rewrite length_map, Hlen. reflexivity.
Qed.

Lemma wf_replace_positions (c : trackscreen_context) (x y : Z) :
  wf c -> wf (replace_positions x y c).
Proof.
  intros Hwf. pose proof (queued_length c Hwf) as Hlen.
  destruct Hwf as (Hf & Harr & Hn & Hs).
  unfold wf, replace_positions. simpl.
  repeat split; try assumption; try lia.
  rewrite length_app, length_map, Hlen, length_drop, Harr.
  unfold MAX_EVENTS_PER_REPORT in *. lia.
Qed.

Lemma clamp_adjust_spec (lo hi v : Z) :
  int_range lo -> int_range hi -> int_range v ->
  lo < hi -> hi - lo <= INT_MAX ->
  clamp_adjust lo hi v = Z.max lo (Z.min v (hi - 1)) - lo /\
  0 <= clamp_adjust lo hi v < hi - lo.
Proof.
  unfold clamp_adjust, int_sub. intros Hlo Hhi Hv Hlt Hfit.
  assert (Hr : forall z, int_range z -> to_int z = z)
    by apply to_int_range.
  unfold int_range, INT_MIN, INT_MAX in *.
  destruct (v <? lo) eqn:E1; [|destruct (v >=? hi) eqn:E2]; bool_to_prop.
  - rewrite Hr by lia. lia.
  - rewrite (Hr (hi - 1)) by lia. rewrite Hr by lia. lia.
  - rewrite Hr by lia. lia.
Qed.

(** C9, amended: after the bounds check on a report with a resolved
    position (x, y), the stored last position is (x, y) itself, as resolved
    and before clamping; the clamped pair, each component clamped into
    [tp_min, tp_max) and shifted by tp_min (for a region whose extent fits
    in an [int]), is what replaces the values of
    the coordinate events of the report. *)
Theorem C9_last_position_is_raw (c : trackscreen_context) (x y : Z) :
  wf c -> resolved_position c = (x, y) -> x <> -1 -> y <> -1 ->
  (exists c' out,
     check_bounds c = Some (tt, c', out) /\
     pos_x c' = x /\ pos_y c' = y /\
     queued c' =
       map (replace_position
              (clamp_adjust (tp_min_x c) (tp_max_x c) x)
              (clamp_adjust (tp_min_y c) (tp_max_y c) y)) (queued c)) /\
  (forall lo hi v,
     int_range lo -> int_range hi -> int_range v ->
     lo < hi -> hi - lo <= INT_MAX ->
     clamp_adjust lo hi v = Z.max lo (Z.min v (hi - 1)) - lo /\
     0 <= clamp_adjust lo hi v < hi - lo).
Proof.
  intros Hwf Hpos Hx Hy. split; [|apply clamp_adjust_spec].
  destruct (Z.eq_dec (side_touches c x y) (sidekey c)) as [Heq|Hne].
  - eexists _, _. split; [apply (check_bounds_steady c x y); assumption|].
    split; [reflexivity|]. split; [reflexivity|].
    rewrite queued_replace_positions; [reflexivity|exact Hwf].
  - eexists _, _. split; [apply (check_bounds_transition c x y); assumption|].
    split; [reflexivity|]. split; [reflexivity|].
    rewrite queued_replace_positions; [reflexivity|exact Hwf].
Qed.

Lemma C9_last_position_is_raw_witness :
  (exists c' out,
     check_bounds side_touch_context = Some (tt, c', out) /\
     pos_x c' = 100 /\ pos_y c' = 800 /\
     queued c' =
       map (replace_position
              (clamp_adjust (tp_min_x side_touch_context)
                 (tp_max_x side_touch_context) 100)
              (clamp_adjust (tp_min_y side_touch_context)
                 (tp_max_y side_touch_context) 800))
         (queued side_touch_context)) /\
  (forall lo hi v,
     int_range lo -> int_range hi -> int_range v ->
     lo < hi -> hi - lo <= INT_MAX ->
     clamp_adjust lo hi v = Z.max lo (Z.min v (hi - 1)) - lo /\
     0 <= clamp_adjust lo hi v < hi - lo).
Proof.
  apply (C9_last_position_is_raw side_touch_context 100 800);
    [repeat split; vm_compute; congruence|reflexivity|lia|lia].
Defined.

(** At (100, 800) with the region [330,660) x [670,1000) the clamped,
    rebased pair is (0, 130) and goes into the events, while the stored
    position is (100, 800). *)
Lemma C9_stored_position_not_clamped :
  resolved_position side_touch_context = (100, 800) /\
  (clamp_adjust (tp_min_x side_touch_context)
     (tp_max_x side_touch_context) 100,
   clamp_adjust (tp_min_y side_touch_context)
     (tp_max_y side_touch_context) 800) = (0, 130) /\
  exists c' out,
    check_bounds side_touch_context = Some (tt, c', out) /\
    queued c' = [mk_input_event EV_ABS ABS_MT_POSITION_X 0;
                 mk_input_event EV_ABS ABS_MT_POSITION_Y 130] /\
    (pos_x c', pos_y c') = (100, 800) /\
    (pos_x c', pos_y c') <> (0, 130).
Proof.
  split; [reflexivity|]. split; [reflexivity|].
  eexists _, _. split; [vm_compute; reflexivity|].
  split; [reflexivity|]. split; [reflexivity|]. simpl. congruence.
Qed.

(** ** Frames *)

Lemma queue_frame_refl (c : trackscreen_context) : queue_frame c c.
Proof. destruct c; reflexivity. Qed.

Lemma queue_frame_trans (c1 c2 c3 : trackscreen_context) :
  queue_frame c1 c2 -> queue_frame c2 c3 -> queue_frame c1 c3.
Proof.
  unfold queue_frame. intros H12 H23. rewrite H23 at 1. rewrite H12 at 1.
  reflexivity.
Qed.

Lemma queue_frame_fields (c c' : trackscreen_context) :
  queue_frame c c' ->
  kbd c' = kbd c /\ keycode c' = keycode c /\
  tp_min_x c' = tp_min_x c /\ tp_max_x c' = tp_max_x c /\
  tp_min_y c' = tp_min_y c /\ tp_max_y c' = tp_max_y c /\
  finger_count c' = finger_count c /\ fingers c' = fingers c /\
  slot c' = slot c /\
  pos_x c' = pos_x c /\ pos_y c' = pos_y c /\ sidekey c' = sidekey c.
Proof. intros H. rewrite H. simpl. repeat split. Qed.

Lemma queue_tp_event_frame (c : trackscreen_context) (t k v : Z) :
  wf c ->
  exists c',
    queue_tp_event t k v c = Some (tt, c', []) /\ wf c' /\
    queue_frame c c' /\
    queued c' =
      take (Z.to_nat MAX_EVENTS_PER_REPORT)
        (queued c ++ [mk_input_event t k v]).
Proof.
  intros Hwf.
  destruct (queue_tp_event_spec c t k v Hwf) as (c' & Hq & Hwf' & Hq').
  exists c'. split; [assumption|]. split; [assumption|].
  split; [|assumption].
  destruct (Z_lt_ge_dec (input_events c) MAX_EVENTS_PER_REPORT) as [Hr|Hfull].
  - rewrite queue_tp_event_room in Hq by assumption.
    injection Hq as <-. reflexivity.
  - rewrite queue_tp_event_full in Hq by assumption.
    injection Hq as <-. apply queue_frame_refl.
Qed.

(** ** Tool events *)

Lemma tool_code_nth (n : Z) :
  1 <= n <= 5 ->
  tool_code n = Some (nth (Z.to_nat n) finger_tap_codes 0).
Proof.
  intros Hn.
  assert (H : n = 1 \/ n = 2 \/ n = 3 \/ n = 4 \/ n = 5) by lia.
  destruct H as [->|[->|[->|[->| ->]]]]; reflexivity.
Qed.

Lemma tool_code_none (n : Z) : n <= 0 \/ 5 < n -> tool_code n = None.
Proof.
  intros Hn. unfold tool_code.
  destruct (n =? 1) eqn:E1; [bool_to_prop; lia|].
  destruct (n =? 2) eqn:E2; [bool_to_prop; lia|].
  destruct (n =? 3) eqn:E3; [bool_to_prop; lia|].
  destruct (n =? 4) eqn:E4; [bool_to_prop; lia|].
  destruct (n =? 5) eqn:E5; [bool_to_prop; lia|].
  reflexivity.
Qed.

Lemma emit_multitap_spec (c : trackscreen_context) (n v : Z) :
  wf c ->
  exists c',
    emit_multitap n v c = Some (tt, c', []) /\ wf c' /\
    queue_frame c c' /\
    queued c' =
      take (Z.to_nat MAX_EVENTS_PER_REPORT) (queued c ++ tool_event n v).
Proof.
  intros Hwf. unfold emit_multitap, tool_event.
  destruct ((n <=? 0) || (n >? 5)) eqn:E.
  - rewrite tool_code_none by (bool_to_prop; destruct E; bool_to_prop; lia).
    exists c. split; [reflexivity|]. split; [assumption|].
    split; [apply queue_frame_refl|].
    rewrite app_nil_r, take_ge; [reflexivity|].
    rewrite queued_length by assumption.
    destruct Hwf as (_ & _ & Hn & _). unfold MAX_EVENTS_PER_REPORT in *. lia.
  - bool_to_prop. rewrite tool_code_nth by lia.
    apply queue_tp_event_frame. exact Hwf.
Qed.

Lemma tool_event_not_abs (n v : Z) :
  Forall (fun ev => type ev = EV_KEY) (tool_event n v).
Proof.
  unfold tool_event. destruct (tool_code n); repeat constructor.
Qed.

Lemma find_position_not_abs (evs : list struct_input_event) (x y : Z) :
  Forall (fun ev => type ev = EV_KEY) evs -> find_position evs x y = (x, y).
Proof.
  induction 1 as [|ev evs Hev _ IH]; [reflexivity|].
  simpl. rewrite Hev. exact IH.
Qed.

Lemma find_position_app (evs1 evs2 : list struct_input_event) :
  forall x y,
  find_position (evs1 ++ evs2) x y =
    find_position evs2 (fst (find_position evs1 x y))
      (snd (find_position evs1 x y)).
Proof.
  induction evs1 as [|ev evs1 IH]; intros x y; [reflexivity|].
  simpl.
  destruct (type ev =? EV_ABS); [|apply IH].
  destruct ((code ev =? ABS_X) || (code ev =? ABS_MT_POSITION_X));
    [apply IH|].
  destruct ((code ev =? ABS_Y) || (code ev =? ABS_MT_POSITION_Y));
    apply IH.
Qed.

(** Key events appended to a queue, up to its capacity, do not change the
    position found in it. *)
Lemma find_position_take_app (n : nat)
  (evs keys : list struct_input_event) (x y : Z) :
  (length evs <= n)%nat ->
  Forall (fun ev => type ev = EV_KEY) keys ->
  find_position (take n (evs ++ keys)) x y = find_position evs x y.
Proof.
  intros Hlen Hkeys.
  rewrite take_app, (take_ge evs) by assumption.
  rewrite find_position_app, find_position_not_abs.
  - destruct (find_position evs x y); reflexivity.
  - apply Forall_take. exact Hkeys.
Qed.

(** ** Sequencing *)

Lemma bind_some {A B : Type} (m : prog A) (k : A -> prog B)
  (c c1 : trackscreen_context) (a : A) (o1 : list write_call) :
  m c = Some (a, c1, o1) ->
  (m ≫= k) c =
    match k a c1 with
    | None => None
    | Some (b, c2, o2) => Some (b, c2, o1 ++ o2)
    end.
Proof. intros H. unfold mbind, prog_bind. rewrite H. reflexivity. Qed.

Lemma bind_get {B : Type} (k : trackscreen_context -> prog B)
  (c : trackscreen_context) :
  (get ≫= k) c = k c c.
Proof.
  unfold mbind, prog_bind, get. destruct (k c c) as [[[b c2] o2]|];
    reflexivity.
Qed.

Lemma bind_ret_r {A : Type} (m : prog unit) (a : A)
  (c c1 : trackscreen_context) (o1 : list write_call) :
  m c = Some (tt, c1, o1) ->
  (m;; mret a) c = Some (a, c1, o1).
Proof.
  intros H. rewrite (bind_some _ _ _ _ _ _ H). unfold mret, prog_ret.
  rewrite app_nil_r. reflexivity.
Qed.

(** ** The sync-report branch of the handler *)

Lemma wf_set_finger_count (c : trackscreen_context) (n : Z) :
  wf c -> wf (set_finger_count n c).
Proof. intros H. exact H. Qed.

(** The tool events of a report: nothing when the count is unchanged, else
    the lift of the old count and the press of the new one, appended to the
    queue as far as it has room. *)
Lemma tool_stage (c : trackscreen_context) :
  wf c ->
  exists c1,
    (if negb (count_fingers (fingers c) =? finger_count c) then
       emit_multitap (finger_count c) 0;;
       emit_multitap (count_fingers (fingers c)) 1;;
       modify (set_finger_count (count_fingers (fingers c)))
     else mret tt) c = Some (tt, c1, []) /\
    wf c1 /\
    queue_frame (set_finger_count (count_fingers (fingers c)) c) c1 /\
    queued c1 =
      take (Z.to_nat MAX_EVENTS_PER_REPORT)
        (queued c ++
         if count_fingers (fingers c) =? finger_count c then []
         else tool_events (finger_count c) (count_fingers (fingers c))).
Proof.
  intros Hwf. set (count := count_fingers (fingers c)).
  destruct (count =? finger_count c) eqn:E; simpl.
  - exists c. split; [reflexivity|]. split; [assumption|]. split.
    + bool_to_prop. rewrite E. destruct c; reflexivity.
    + rewrite app_nil_r, take_ge; [reflexivity|].
      rewrite queued_length by assumption.
      destruct Hwf as (_ & _ & Hn & _). unfold MAX_EVENTS_PER_REPORT in *. lia.
  - destruct (emit_multitap_spec c (finger_count c) 0 Hwf)
      as (c' & He' & Hwf' & Hf' & Hq').
    destruct (emit_multitap_spec c' count 1 Hwf')
      as (c'' & He'' & Hwf'' & Hf'' & Hq'').
    exists (set_finger_count count c'').
    split; [|split; [apply wf_set_finger_count; assumption|split]].
    + rewrite (bind_some _ _ _ _ _ _ He').
      rewrite (bind_some _ _ _ _ _ _ He''). reflexivity.
    + pose proof (queue_frame_trans _ _ _ Hf' Hf'') as Hf.
      unfold queue_frame in *. simpl. rewrite Hf at 1. reflexivity.
    + change (queued (set_finger_count count c'')) with (queued c'').
      rewrite Hq'', Hq', take_take_app. unfold tool_events.
      rewrite app_assoc. reflexivity.
Qed.

Lemma check_bounds_total (c : trackscreen_context) :
  wf c ->
  exists c2 o2,
    check_bounds c = Some (tt, c2, o2) /\ wf c2 /\
    kbd c2 = kbd c /\ keycode c2 = keycode c /\
    tp_min_x c2 = tp_min_x c /\ tp_max_x c2 = tp_max_x c /\
    tp_min_y c2 = tp_min_y c /\ tp_max_y c2 = tp_max_y c /\
    finger_count c2 = finger_count c /\ fingers c2 = fingers c /\
    slot c2 = slot c /\ input_events c2 = input_events c.
Proof.
  intros Hwf.
  destruct (resolved_position c) as [x y] eqn:Hpos.
  destruct (Z.eq_dec x (-1)) as [Hx|Hx];
    [|destruct (Z.eq_dec y (-1)) as [Hy|Hy]].
  - exists c, []. split; [apply (check_bounds_unresolved c x y); tauto|].
    repeat split; apply Hwf.
  - exists c, []. split; [apply (check_bounds_unresolved c x y); tauto|].
    repeat split; apply Hwf.
  - destruct (Z.eq_dec (side_touches c x y) (sidekey c)) as [Heq|Hne].
    + eexists _, _.
      split; [apply (check_bounds_steady c x y); assumption|].
      split; [apply wf_replace_positions; exact Hwf|].
      simpl. repeat split.
    + eexists _, _.
      split; [apply (check_bounds_transition c x y); assumption|].
      split; [apply wf_replace_positions; exact Hwf|].
      simpl. repeat split.
Qed.

(** The handler on a sync-report event: the tool events are queued, the
    bounds check runs, the side key is released when no finger is left, and
    the queue is flushed. *)
Lemma handle_event_sync (c : trackscreen_context) (ev : struct_input_event) :
  wf c -> type ev = EV_SYN -> code ev = SYN_REPORT ->
  exists c1 c2 o2,
    wf c1 /\
    queue_frame (set_finger_count (count_fingers (fingers c)) c) c1 /\
    queued c1 =
      take (Z.to_nat MAX_EVENTS_PER_REPORT)
        (queued c ++
         if count_fingers (fingers c) =? finger_count c then []
         else tool_events (finger_count c) (count_fingers (fingers c))) /\
    check_bounds c1 = Some (tt, c2, o2) /\
    handle_event ev c =
      Some (0,
            set_input_events 0
              (if (count_fingers (fingers c) =? 0) && negb (sidekey c2 =? 0)
               then set_sidekey 0 c2 else c2),
            o2 ++
            (if (count_fingers (fingers c) =? 0) && negb (sidekey c2 =? 0)
             then if keycode c2 >? 0
                  then [write_kbd (sidekey_events c2 0)] else []
             else []) ++
            [write_tp (queued c2); write_tp [ev]]).
Proof.
  intros Hwf Ht Hc.
  destruct (tool_stage c Hwf) as (c1 & H1 & Hwf1 & Hf1 & Hq1).
  destruct (check_bounds_total c1 Hwf1) as (c2 & o2 & H2 & Hwf2 & _).
  exists c1, c2, o2. repeat (split; [assumption|]).
  unfold handle_event. rewrite Ht, Hc.
  change ((EV_SYN =? EV_SYN) && (SYN_REPORT =? SYN_REPORT)) with true.
  cbv iota. rewrite bind_get.
  rewrite (bind_some _ _ _ _ _ _ H1).
  rewrite (bind_some _ _ _ _ _ _ H2).
  rewrite bind_get. cbv beta.
  destruct ((count_fingers (fingers c) =? 0) && negb (sidekey c2 =? 0));
    [destruct (keycode c2 >? 0)|].
  - reflexivity.
  - reflexivity.
  - reflexivity.
Qed.

(** ** The side key *)

Lemma kbd_writes_app (o1 o2 : list write_call) :
  kbd_writes (o1 ++ o2) = kbd_writes o1 ++ kbd_writes o2.
Proof.
  induction o1 as [|[evs|evs] o1 IH]; simpl; [reflexivity|exact IH|].
  rewrite IH. reflexivity.
Qed.

Lemma tp_writes_app (o1 o2 : list write_call) :
  tp_writes (o1 ++ o2) = tp_writes o1 ++ tp_writes o2.
Proof.
  induction o1 as [|[evs|evs] o1 IH]; simpl; [reflexivity| |exact IH].
  rewrite IH. reflexivity.
Qed.

Lemma side_touches_01 (c : trackscreen_context) (x y : Z) :
  side_touches c x y = 0 \/ side_touches c x y = 1.
Proof.
  unfold side_touches.
  destruct ((y >=? tp_min_y c) && (y <? tp_max_y c));
    [destruct ((x <? tp_min_x c) || (x >=? tp_max_x c))|]; auto.
Qed.

(** What the bounds check writes to the keyboard and leaves as side-key
    state, by the three cases of its position. *)
Lemma check_bounds_sidekey (c c2 : trackscreen_context)
  (o2 : list write_call) :
  check_bounds c = Some (tt, c2, o2) ->
  let '(x, y) := resolved_position c in
  if (x =? -1) || (y =? -1) then sidekey c2 = sidekey c /\ o2 = []
  else
    sidekey c2 = side_touches c x y /\
    o2 = if side_touches c x y =? sidekey c then []
         else if kbd c >? 0
              then [write_kbd (sidekey_events c (side_touches c x y))]
              else [].
Proof.
  intros H. destruct (resolved_position c) as [x y] eqn:Hpos.
  destruct ((x =? -1) || (y =? -1)) eqn:E.
  - rewrite (check_bounds_unresolved c x y Hpos) in H
      by (bool_to_prop; destruct E; bool_to_prop; tauto).
    injection H as <- <-. split; reflexivity.
  - bool_to_prop.
    destruct (side_touches c x y =? sidekey c) eqn:Es; bool_to_prop.
    + rewrite (check_bounds_steady c x y) in H by assumption.
      injection H as <- <-. split; [symmetry; exact Es|reflexivity].
    + rewrite (check_bounds_transition c x y) in H by assumption.
      injection H as <- <-. split; reflexivity.
Qed.

(** C4, amended: on a report whose recomputed finger count is 0 while the
    side key is active, the side-key state becomes inactive and, when a key
    code is configured, exactly one release is written to the keyboard for
    that report, whatever the bounds check finds; without a key code
    nothing is written.  When the position is still classified as a side
    touch, the bounds check itself writes nothing. *)
Theorem C4_forced_release (c : trackscreen_context)
  (ev : struct_input_event) :
  wf c -> type ev = EV_SYN -> code ev = SYN_REPORT ->
  count_fingers (fingers c) = 0 -> sidekey c = 1 ->
  (kbd c >? 0) = (keycode c >? 0) ->
  (exists c' out,
     handle_event ev c = Some (0, c', out) /\
     sidekey c' = 0 /\
     kbd_writes out =
       if keycode c >? 0 then [sidekey_events c 0] else []) /\
  (forall x y,
     resolved_position c = (x, y) -> x <> -1 -> y <> -1 ->
     side_touches c x y = 1 ->
     exists c2, check_bounds c = Some (tt, c2, [])).
Proof.
  intros Hwf Ht Hc Hcount Hside Hkbd. split.
  - destruct (handle_event_sync c ev Hwf Ht Hc)
      as (c1 & c2 & o2 & Hwf1 & Hf1 & _ & H2 & ->).
    apply queue_frame_fields in Hf1. simpl in Hf1.
    destruct Hf1 as (Hk1 & Hkc1 & _ & _ & _ & _ & _ & _ & _ & _ & _ & Hs1).
    pose proof (check_bounds_total c1 Hwf1)
      as (c2' & o2' & H2' & _ & _ & Hkc2 & _).
    rewrite H2 in H2'. injection H2' as <- <-.
    pose proof (check_bounds_sidekey c1 c2 o2 H2) as Hcases.
    eexists _, _. split; [reflexivity|].
    rewrite Hcount. simpl (0 =? 0). simpl andb.
    rewrite !kbd_writes_app.
    assert (Hev : sidekey_events c2 0 = sidekey_events c 0)
      by (unfold sidekey_events; rewrite Hkc2, Hkc1; reflexivity).
    assert (Hev1 : forall v, sidekey_events c1 v = sidekey_events c v)
      by (intros v; unfold sidekey_events; rewrite Hkc1; reflexivity).
    rewrite Hkc2, Hkc1, Hev.
    destruct (resolved_position c1) as [x y].
    destruct ((x =? -1) || (y =? -1)).
    + destruct Hcases as [Hs2 ->]. rewrite Hs2, Hs1, Hside. simpl.
      split; [reflexivity|]. destruct (keycode c >? 0); reflexivity.
    + destruct Hcases as [Hs2 ->]. rewrite Hs2, Hs1, Hside, Hk1, Hkbd.
      destruct (side_touches_01 c1 x y) as [E|E]; rewrite E; simpl.
      * split; [congruence|]. rewrite Hev1.
        destruct (keycode c >? 0); reflexivity.
      * split; [reflexivity|]. destruct (keycode c >? 0); reflexivity.
  - intros x y Hpos Hx Hy Hcls. eexists.
    apply (check_bounds_steady c x y); try assumption. congruence.
Qed.

Lemma C4_forced_release_witness :
  (exists c' out,
     handle_event syn_report sidekey_active_context = Some (0, c', out) /\
     sidekey c' = 0 /\
     kbd_writes out =
       if keycode sidekey_active_context >? 0
       then [sidekey_events sidekey_active_context 0] else []) /\
  (forall x y,
     resolved_position sidekey_active_context = (x, y) ->
     x <> -1 -> y <> -1 ->
     side_touches sidekey_active_context x y = 1 ->
     exists c2, check_bounds sidekey_active_context = Some (tt, c2, [])).
Proof.
  apply (C4_forced_release sidekey_active_context syn_report);
    try reflexivity.
  repeat split; vm_compute; congruence.
Defined.

(** Without a key code the side key still becomes active on a side touch,
    and the report that lifts the finger resets it without writing any
    release. *)
Lemma C4_no_release_without_key_code :
  exists c1 out1 c2 out2,
    handle_events side_touch_report no_keyboard_context =
      Some (tt, c1, out1) /\
    sidekey c1 = 1 /\
    handle_events lift_report c1 = Some (tt, c2, out2) /\
    count_fingers (fingers c2) = 0 /\
    sidekey c2 = 0 /\
    kbd_writes out2 = [].
Proof.
  eexists _, _, _, _.
  split; [vm_compute; reflexivity|]. split; [reflexivity|].
  split; [vm_compute; reflexivity|]. repeat split.
Qed.

(** ** Tool events in the flushed report *)

Lemma replace_position_fields (x y : Z) (ev : struct_input_event) :
  type (replace_position x y ev) = type ev /\
  code (replace_position x y ev) = code ev /\
  (type ev <> EV_ABS -> replace_position x y ev = ev).
Proof.
  unfold replace_position.
  destruct (type ev =? EV_ABS) eqn:E; bool_to_prop.
  - destruct ((code ev =? ABS_X) || (code ev =? ABS_MT_POSITION_X));
      [|destruct ((code ev =? ABS_Y) || (code ev =? ABS_MT_POSITION_Y))];
      simpl; tauto.
  - tauto.
Qed.

(** The bounds check writes nothing to the trackpad, and changes the queue
    only in the values of its absolute events. *)
Lemma check_bounds_queue (c c2 : trackscreen_context)
  (o2 : list write_call) :
  wf c -> check_bounds c = Some (tt, c2, o2) ->
  tp_writes o2 = [] /\
  exists f : struct_input_event -> struct_input_event,
    queued c2 = map f (queued c) /\
    forall ev, type (f ev) = type ev /\ code (f ev) = code ev /\
               (type ev <> EV_ABS -> f ev = ev).
Proof.
  intros Hwf H. destruct (resolved_position c) as [x y] eqn:Hpos.
  destruct (Z.eq_dec x (-1)) as [Hx|Hx];
    [|destruct (Z.eq_dec y (-1)) as [Hy|Hy]].
  1,2: rewrite (check_bounds_unresolved c x y Hpos) in H by tauto;
       injection H as <- <-; split; [reflexivity|];
       exists (fun ev => ev); split; [symmetry; apply map_id|tauto].
  destruct (Z.eq_dec (side_touches c x y) (sidekey c)) as [Heq|Hne].
  - rewrite (check_bounds_steady c x y) in H by assumption.
    injection H as <- <-. split; [reflexivity|].
    eexists. split; [|apply replace_position_fields].
    rewrite queued_replace_positions by exact Hwf. reflexivity.
  - rewrite (check_bounds_transition c x y) in H by assumption.
    injection H as <- <-.
    split; [destruct (kbd c >? 0); reflexivity|].
    eexists. split; [|apply replace_position_fields].
    rewrite queued_replace_positions by exact Hwf. reflexivity.
Qed.

Lemma map_key_events (f : struct_input_event -> struct_input_event)
  (keys : list struct_input_event) :
  (forall ev, type ev <> EV_ABS -> f ev = ev) ->
  Forall (fun ev => type ev = EV_KEY) keys ->
  map f keys = keys.
Proof.
  intros Hf. induction 1 as [|ev keys Hev _ IH]; [reflexivity|].
  simpl. rewrite IH, Hf; [reflexivity|]. rewrite Hev. discriminate.
Qed.

Lemma tool_events_keys (a b : Z) :
  Forall (fun ev => type ev = EV_KEY) (tool_events a b).
Proof. apply Forall_app. split; apply tool_event_not_abs. Qed.

(** C2, amended: on a report whose recomputed finger count b differs from
    the recorded count a, the lift of a (if 1 <= a <= 5) and then the press
    of b (if 1 <= b <= 5), with the fixed mapping of counts to tool codes,
    are appended to the queue behind the events already queued for the
    report, position events included, and are dropped where the queue of 24
    is full; counts outside 1..5 give no tool event.  The flushed batch is
    the queue so extended, the queued events keeping their types and codes. *)
Theorem C2_tool_events_appended (c : trackscreen_context)
  (ev : struct_input_event) :
  wf c -> type ev = EV_SYN -> code ev = SYN_REPORT ->
  count_fingers (fingers c) <> finger_count c ->
  exists c' out (f : struct_input_event -> struct_input_event),
    handle_event ev c = Some (0, c', out) /\
    finger_count c' = count_fingers (fingers c) /\
    tp_writes out =
      [take 24 (map f (queued c) ++
                tool_events (finger_count c) (count_fingers (fingers c)));
       [ev]] /\
    (forall e, type (f e) = type e /\ code (f e) = code e /\
               (type e <> EV_ABS -> f e = e)) /\
    (forall n v, n < 1 \/ 5 < n -> tool_event n v = []) /\
    (forall v,
       tool_event 1 v = [mk_input_event EV_KEY BTN_TOOL_FINGER v] /\
       tool_event 2 v = [mk_input_event EV_KEY BTN_TOOL_DOUBLETAP v] /\
       tool_event 3 v = [mk_input_event EV_KEY BTN_TOOL_TRIPLETAP v] /\
       tool_event 4 v = [mk_input_event EV_KEY BTN_TOOL_QUADTAP v] /\
       tool_event 5 v = [mk_input_event EV_KEY BTN_TOOL_QUINTTAP v]).
Proof.
  intros Hwf Ht Hc Hne.
  destruct (handle_event_sync c ev Hwf Ht Hc)
    as (c1 & c2 & o2 & Hwf1 & Hf1 & Hq1 & H2 & ->).
  apply Z.eqb_neq in Hne. rewrite Hne in Hq1.
  destruct (check_bounds_queue c1 c2 o2 Hwf1 H2) as (Ho2 & f & Hq2 & Hf).
  pose proof (check_bounds_total c1 Hwf1)
    as (c2' & o2' & H2' & _ & _ & _ & _ & _ & _ & _ & Hfc2 & _).
  rewrite H2 in H2'. injection H2' as <- <-.
  apply queue_frame_fields in Hf1. simpl in Hf1.
  destruct Hf1 as (_ & _ & _ & _ & _ & _ & Hfc1 & _).
  eexists _, _, f. split; [reflexivity|].
  split; [|split; [|split; [exact Hf|split]]].
  - destruct ((count_fingers (fingers c) =? 0) && negb (sidekey c2 =? 0));
      simpl; congruence.
  - rewrite !tp_writes_app, Ho2.
    assert (Hforced :
      tp_writes
        (if (count_fingers (fingers c) =? 0) && negb (sidekey c2 =? 0)
         then if keycode c2 >? 0
              then [write_kbd (sidekey_events c2 0)] else []
         else []) = []).
    { destruct ((count_fingers (fingers c) =? 0) && negb (sidekey c2 =? 0));
        [destruct (keycode c2 >? 0)|]; reflexivity. }
    rewrite Hforced. simpl. rewrite Hq2, Hq1.
    change (Z.to_nat MAX_EVENTS_PER_REPORT) with 24%nat.
    rewrite <- firstn_map, map_app.
    rewrite (map_key_events f (tool_events _ _));
      [reflexivity|apply Hf|apply tool_events_keys].
  - intros n v Hn. unfold tool_event. rewrite tool_code_none; [reflexivity|lia].
  - intros v. repeat split.
Qed.

Lemma C2_tool_events_appended_witness :
  exists c' out (f : struct_input_event -> struct_input_event),
    handle_event syn_report lift_one_of_two_context = Some (0, c', out) /\
    finger_count c' = count_fingers (fingers lift_one_of_two_context) /\
    tp_writes out =
      [take 24 (map f (queued lift_one_of_two_context) ++
                tool_events (finger_count lift_one_of_two_context)
                  (count_fingers (fingers lift_one_of_two_context)));
       [syn_report]] /\
    (forall e, type (f e) = type e /\ code (f e) = code e /\
               (type e <> EV_ABS -> f e = e)) /\
    (forall n v, n < 1 \/ 5 < n -> tool_event n v = []) /\
    (forall v,
       tool_event 1 v = [mk_input_event EV_KEY BTN_TOOL_FINGER v] /\
       tool_event 2 v = [mk_input_event EV_KEY BTN_TOOL_DOUBLETAP v] /\
       tool_event 3 v = [mk_input_event EV_KEY BTN_TOOL_TRIPLETAP v] /\
       tool_event 4 v = [mk_input_event EV_KEY BTN_TOOL_QUADTAP v] /\
       tool_event 5 v = [mk_input_event EV_KEY BTN_TOOL_QUINTTAP v]).
Proof.
  apply (C2_tool_events_appended lift_one_of_two_context syn_report);
    [repeat split; vm_compute; congruence|reflexivity|reflexivity|].
  vm_compute. congruence.
Defined.

(** A finger going down at (100, 800): the count changes from 0 to 1, and
    the press of the finger tool is the last event of the flushed batch,
    behind both position events of the report. *)
Lemma C2_press_after_position_events :
  exists c' out,
    handle_events side_touch_report example_context = Some (tt, c', out) /\
    tp_writes out =
      [[mk_input_event EV_ABS ABS_MT_SLOT 0;
        mk_input_event EV_ABS ABS_MT_TRACKING_ID 7;
        mk_input_event EV_ABS ABS_MT_POSITION_X 0;
        mk_input_event EV_ABS ABS_MT_POSITION_Y 130;
        mk_input_event EV_KEY BTN_TOOL_FINGER 1];
       [syn_report]] /\
    exists batch before after,
      nth_error (tp_writes out) 0 = Some batch /\
      batch = before ++ mk_input_event EV_KEY BTN_TOOL_FINGER 1 :: after /\
      In (mk_input_event EV_ABS ABS_MT_POSITION_X 0) before /\
      In (mk_input_event EV_ABS ABS_MT_POSITION_Y 130) before.
Proof.
  eexists _, _. split; [vm_compute; reflexivity|].
  split; [reflexivity|].
  eexists _, (_ :: _ :: _ :: _ :: nil), nil.
  split; [reflexivity|]. split; [reflexivity|].
  simpl. tauto.
Qed.

(** ** The slot table *)

Lemma store_fingers_in_bounds (c : trackscreen_context) (id : Z) :
  wf c -> slot c < MAX_FINGERS ->
  store_fingers (slot c) id c =
    Some (tt, set_fingers (<[Z.to_nat (slot c) := id]> (fingers c)) c, []) /\
  (Z.to_nat (slot c) < length (fingers c))%nat.
Proof.
  intros (Hf & _ & _ & Hs) Hlt. unfold MAX_FINGERS in *.
  split; [|rewrite Hf; lia].
  unfold store_fingers, array_store. rewrite bind_get.
  replace ((0 <=? slot c) && (slot c <? Z.of_nat (length (fingers c))))
    with true; [reflexivity|].
  symmetry. apply andb_true_iff.
  split; [apply Z.leb_le|apply Z.ltb_lt; rewrite Hf]; lia.
Qed.

(** The handler on an absolute event: the slot cursor or the slot table is
    updated, the table only inside its bounds, and the event is queued. *)
Lemma handle_event_abs (c : trackscreen_context) (ev : struct_input_event) :
  wf c -> type ev = EV_ABS ->
  exists c1 c',
    c1 = (if code ev =? ABS_MT_SLOT then set_slot (to_uint (value ev)) c
          else if code ev =? ABS_MT_TRACKING_ID then
            if slot c <? MAX_FINGERS
            then set_fingers
                   (<[Z.to_nat (slot c) := value ev]> (fingers c)) c
            else c
          else c) /\
    handle_event ev c = Some (0, c', []) /\ wf c' /\
    queue_frame c1 c' /\
    queued c' = take (Z.to_nat MAX_EVENTS_PER_REPORT) (queued c ++ [ev]).
Proof.
  intros Hwf Ht.
  pose (c1 := if code ev =? ABS_MT_SLOT then set_slot (to_uint (value ev)) c
              else if code ev =? ABS_MT_TRACKING_ID then
                if slot c <? MAX_FINGERS
                then set_fingers
                       (<[Z.to_nat (slot c) := value ev]> (fingers c)) c
                else c
              else c).
  assert (H1 :
    (if code ev =? ABS_MT_SLOT then
       modify (set_slot (to_uint (value ev)))
     else if code ev =? ABS_MT_TRACKING_ID then
       c ← get;
       if slot c <? MAX_FINGERS then store_fingers (slot c) (value ev)
       else mret tt
     else mret tt) c = Some (tt, c1, []) /\ wf c1 /\ queued c1 = queued c).
  { subst c1. destruct (code ev =? ABS_MT_SLOT).
    - split; [reflexivity|]. split; [|reflexivity].
      destruct Hwf as (Hf & Ha & Hn & _). unfold wf. simpl.
      repeat (split; [assumption|]). apply to_uint_nonneg.
    - destruct (code ev =? ABS_MT_TRACKING_ID);
        [|split; [reflexivity|split; [assumption|reflexivity]]].
      rewrite bind_get.
      destruct (slot c <? MAX_FINGERS) eqn:E;
        [|split; [reflexivity|split; [assumption|reflexivity]]].
      bool_to_prop.
      destruct (store_fingers_in_bounds c (value ev) Hwf E) as [-> _].
      split; [reflexivity|]. split; [|reflexivity].
      destruct Hwf as (Hf & Ha & Hn & Hs). unfold wf. simpl.
      rewrite length_insert. tauto. }
  destruct H1 as (H1 & Hwf1 & Hq1).
  destruct (queue_tp_event_frame c1 (type ev) (code ev) (value ev) Hwf1)
    as (c' & Hq & Hwf' & Hf' & Hq').
  rewrite input_event_eta, Hq1 in Hq'.
  assert (Hrun : handle_event ev c = Some (0, c', [])).
  { unfold handle_event. rewrite Ht.
    change ((EV_ABS =? EV_SYN) && (code ev =? SYN_REPORT)) with false.
    change (negb (EV_ABS =? EV_ABS)) with false. cbv iota.
    rewrite (bind_some _ _ _ _ _ _ H1).
    rewrite <- Ht. rewrite (bind_ret_r _ _ _ _ _ Hq). reflexivity. }
  exists c1, c'. split; [reflexivity|].
  split; [exact Hrun|]. split; [exact Hwf'|]. split; [exact Hf'|exact Hq'].
Qed.

Lemma handle_event_other (c : trackscreen_context)
  (ev : struct_input_event) :
  wf c -> (type ev =? EV_SYN) && (code ev =? SYN_REPORT) = false ->
  type ev <> EV_ABS ->
  exists c',
    handle_event ev c = Some (0, c', []) /\ wf c' /\ queue_frame c c' /\
    queued c' = take (Z.to_nat MAX_EVENTS_PER_REPORT) (queued c ++ [ev]).
Proof.
  intros Hwf Hsyn Habs.
  destruct (queue_tp_event_frame c (type ev) (code ev) (value ev) Hwf)
    as (c' & Hq & Hwf' & Hf' & Hq').
  rewrite input_event_eta in Hq'.
  exists c'. split; [|split; [assumption|split; assumption]].
  unfold handle_event. rewrite Hsyn.
  apply Z.eqb_neq in Habs. rewrite Habs.
  change (negb false) with true. cbv iota.
  apply bind_ret_r. exact Hq.
Qed.

(** The handler never faults on a well-formed context, and keeps it
    well-formed. *)
Lemma handle_event_total (c : trackscreen_context)
  (ev : struct_input_event) :
  wf c ->
  exists c' out, handle_event ev c = Some (0, c', out) /\ wf c'.
Proof.
  intros Hwf.
  destruct ((type ev =? EV_SYN) && (code ev =? SYN_REPORT)) eqn:Hsyn.
  - bool_to_prop.
    destruct (handle_event_sync c ev Hwf H H0)
      as (c1 & c2 & o2 & Hwf1 & _ & _ & H2 & ->).
    destruct (check_bounds_total c1 Hwf1) as (c2' & o2' & H2' & Hwf2 & _).
    rewrite H2 in H2'. injection H2' as <- <-.
    eexists _, _. split; [reflexivity|].
    destruct Hwf2 as (Hf & Ha & Hn & Hs).
    destruct ((count_fingers (fingers c) =? 0) && negb (sidekey c2 =? 0));
      unfold wf, MAX_EVENTS_PER_REPORT in *; simpl;
      repeat (split; [assumption|]); lia.
  - destruct (Z.eq_dec (type ev) EV_ABS) as [Habs|Habs].
    + destruct (handle_event_abs c ev Hwf Habs)
        as (c1 & c' & _ & Hrun & Hwf' & _).
      eauto.
    + destruct (handle_event_other c ev Hwf Hsyn Habs)
        as (c' & Hrun & Hwf' & _).
      eauto.
Qed.

Lemma handle_events_total (evs : list struct_input_event) :
  forall c, wf c ->
  exists c' out, handle_events evs c = Some (tt, c', out) /\ wf c'.
Proof.
  induction evs as [|ev evs IH]; intros c Hwf.
  - exists c, []. split; [reflexivity|assumption].
  - destruct (handle_event_total c ev Hwf) as (c1 & o1 & H1 & Hwf1).
    destruct (IH c1 Hwf1) as (c2 & o2 & H2 & Hwf2).
    exists c2, (o1 ++ o2). split; [|assumption].
    simpl. rewrite (bind_some _ _ _ _ _ _ H1), H2. reflexivity.
Qed.

(** C10: every store into the slot table falls inside it.  No sequence of
    events makes the handler store outside an array.  A tracking-ID event
    leaves the table unchanged when the slot cursor is out of bounds, and
    stores at the cursor, an index below 10, otherwise.  A slot-select
    event with a negative value leaves the unsigned cursor out of bounds,
    so that the next tracking-ID event is skipped.  In each case the event
    is passed unchanged to the report queue. *)
Theorem C10_slot_table_writes_in_bounds (c : trackscreen_context)
  (evs : list struct_input_event) :
  wf c ->
  (exists c' out,
     handle_events evs c = Some (tt, c', out) /\
     length (fingers c') = Z.to_nat MAX_FINGERS) /\
  (forall ev,
     type ev = EV_ABS -> code ev = ABS_MT_TRACKING_ID ->
     exists c',
       handle_event ev c = Some (0, c', []) /\
       fingers c' =
         (if slot c <? MAX_FINGERS
          then <[Z.to_nat (slot c) := value ev]> (fingers c)
          else fingers c) /\
       ((slot c <? MAX_FINGERS) = true ->
        (Z.to_nat (slot c) < Z.to_nat MAX_FINGERS)%nat) /\
       queued c' = take 24 (queued c ++ [ev])) /\
  (forall ev,
     valid_event ev -> type ev = EV_ABS -> code ev = ABS_MT_SLOT ->
     value ev < 0 ->
     exists c',
       handle_event ev c = Some (0, c', []) /\
       MAX_FINGERS <= slot c' /\ fingers c' = fingers c /\
       queued c' = take 24 (queued c ++ [ev]) /\
       forall ev',
         type ev' = EV_ABS -> code ev' = ABS_MT_TRACKING_ID ->
         exists c'',
           handle_event ev' c' = Some (0, c'', []) /\
           fingers c'' = fingers c /\
           queued c'' = take 24 (queued c' ++ [ev'])).
Proof.
  intros Hwf. split; [|split].
  - destruct (handle_events_total evs c Hwf) as (c' & out & H & Hwf').
    exists c', out. split; [exact H|apply Hwf'].
  - intros ev Ht Hc.
    destruct (handle_event_abs c ev Hwf Ht)
      as (c1 & c' & Hc1 & Hrun & Hwf' & Hf' & Hq').
    exists c'. split; [exact Hrun|].
    apply queue_frame_fields in Hf'.
    destruct Hf' as (_ & _ & _ & _ & _ & _ & _ & Hfing & _).
    rewrite Hc in Hc1. simpl in Hc1.
    split; [|split; [|exact Hq']].
    + rewrite Hfing, Hc1. destruct (slot c <? MAX_FINGERS); reflexivity.
    + intros Hlt. bool_to_prop. destruct Hwf as (_ & _ & _ & Hs).
      unfold MAX_FINGERS in *. lia.
  - intros ev (_ & _ & Hrange & _) Ht Hc Hneg.
    assert (Hneg' : INT_MIN <= value ev < 0) by lia. clear Hneg Hrange.
    destruct (handle_event_abs c ev Hwf Ht)
      as (c1 & c' & Hc1 & Hrun & Hwf' & Hf' & Hq').
    exists c'. split; [exact Hrun|].
    apply queue_frame_fields in Hf'.
    destruct Hf' as (_ & _ & _ & _ & _ & _ & _ & Hfing & Hslot & _).
    rewrite Hc in Hc1. simpl in Hc1. subst c1. simpl in Hfing, Hslot.
    assert (Hoob : MAX_FINGERS <= slot c').
    { rewrite Hslot, to_uint_negative by exact Hneg'.
      unfold MAX_FINGERS, INT_MIN in *. lia. }
    split; [exact Hoob|]. split; [exact Hfing|]. split; [exact Hq'|].
    intros ev' Ht' Hc'.
    destruct (handle_event_abs c' ev' Hwf' Ht')
      as (c1' & c'' & Hc1' & Hrun' & _ & Hf'' & Hq'').
    exists c''. split; [exact Hrun'|]. split; [|exact Hq''].
    apply queue_frame_fields in Hf''.
    destruct Hf'' as (_ & _ & _ & _ & _ & _ & _ & Hfing' & _).
    rewrite Hc' in Hc1'. simpl in Hc1'.
    replace (slot c' <? MAX_FINGERS) with false in Hc1'
      by (symmetry; apply Z.ltb_ge; exact Hoob).
    rewrite Hfing', Hc1'. exact Hfing.
Qed.

Lemma C10_slot_table_writes_in_bounds_witness :
  (exists c' out,
     handle_events negative_slot_report example_context =
       Some (tt, c', out) /\
     length (fingers c') = Z.to_nat MAX_FINGERS) /\
  (forall ev,
     type ev = EV_ABS -> code ev = ABS_MT_TRACKING_ID ->
     exists c',
       handle_event ev example_context = Some (0, c', []) /\
       fingers c' =
         (if slot example_context <? MAX_FINGERS
          then <[Z.to_nat (slot example_context) := value ev]>
                 (fingers example_context)
          else fingers example_context) /\
       ((slot example_context <? MAX_FINGERS) = true ->
        (Z.to_nat (slot example_context) < Z.to_nat MAX_FINGERS)%nat) /\
       queued c' = take 24 (queued example_context ++ [ev])) /\
  (forall ev,
     valid_event ev -> type ev = EV_ABS -> code ev = ABS_MT_SLOT ->
     value ev < 0 ->
     exists c',
       handle_event ev example_context = Some (0, c', []) /\
       MAX_FINGERS <= slot c' /\ fingers c' = fingers example_context /\
       queued c' = take 24 (queued example_context ++ [ev]) /\
       forall ev',
         type ev' = EV_ABS -> code ev' = ABS_MT_TRACKING_ID ->
         exists c'',
           handle_event ev' c' = Some (0, c'', []) /\
           fingers c'' = fingers example_context /\
           queued c'' = take 24 (queued c' ++ [ev'])).
Proof.
  apply (C10_slot_table_writes_in_bounds example_context
           negative_slot_report).
  repeat split; vm_compute; congruence.
Defined.

(** ** The finger count *)

Lemma count_fingers_loop (l pre : list Z) (acc : Z) :
  fold_left
    (fun finger_count i =>
       if nth i (pre ++ l) 0 >? 0 then finger_count + 1 else finger_count)
    (seq (length pre) (length l)) acc =
  acc + Z.of_nat (length (List.filter (fun id => id >? 0) l)).
Proof.
  revert pre acc. induction l as [|id l IH]; intros pre acc.
  - simpl. lia.
  - simpl seq. simpl fold_left. rewrite nth_middle.
    replace (pre ++ id :: l) with ((pre ++ [id]) ++ l)
      by (rewrite <- app_assoc; reflexivity).
    replace (S (length pre)) with (length (pre ++ [id]))
      by (rewrite length_app; simpl; lia).
    rewrite IH. simpl. destruct (id >? 0); simpl length; lia.
Qed.

(** The loop of the handler counts the slots with a strictly positive
    tracking ID. *)
Lemma count_fingers_positive (fingers : list Z) :
  length fingers = Z.to_nat MAX_FINGERS ->
  count_fingers fingers =
    Z.of_nat (length (List.filter (fun id => id >? 0) fingers)).
Proof.
  intros Hlen. unfold count_fingers. rewrite <- Hlen.
  apply (count_fingers_loop fingers [] 0).
Qed.

(** C1, at the first touch after start-up: the finger has tracking ID 0 and
    occupies slot 0, one slot has a non-negative tracking ID, and the
    handler counts no finger: the recorded count stays 0 and no tool event
    is queued. *)
Theorem C1_tracking_id_zero_not_counted :
  exists c' out,
    handle_events first_touch_report example_context = Some (tt, c', out) /\
    fingers c' = 0 :: replicate 9 (-1) /\
    occupied_slots (fingers c') = 1 /\
    count_fingers (fingers c') = 0 /\
    finger_count c' = 0 /\
    tp_writes out =
      [[mk_input_event EV_ABS ABS_MT_SLOT 0;
        mk_input_event EV_ABS ABS_MT_TRACKING_ID 0;
        mk_input_event EV_ABS ABS_MT_POSITION_X 170;
        mk_input_event EV_ABS ABS_MT_POSITION_Y 130];
       [syn_report]].
Proof.
  eexists _, _. split; [vm_compute; reflexivity|]. repeat split.
Qed.

(** ** Runs of reports with one classification *)

(** An event other than sync-report writes nothing and leaves the side-key
    state and the keyboard configuration alone. *)
Lemma handle_event_body (c : trackscreen_context) (ev : struct_input_event) :
  wf c -> no_sync ev = true ->
  exists c',
    handle_event ev c = Some (0, c', []) /\ wf c' /\
    sidekey c' = sidekey c /\ kbd c' = kbd c /\ keycode c' = keycode c.
Proof.
  intros Hwf Hns. unfold no_sync in Hns. apply negb_true_iff in Hns.
  destruct (Z.eq_dec (type ev) EV_ABS) as [Habs|Habs].
  - destruct (handle_event_abs c ev Hwf Habs)
      as (c1 & c' & Hc1 & Hrun & Hwf' & Hf' & _).
    exists c'. split; [exact Hrun|]. split; [exact Hwf'|].
    apply queue_frame_fields in Hf'.
    destruct Hf' as (Hk & Hkc & _ & _ & _ & _ & _ & _ & _ & _ & _ & Hs).
    rewrite Hs, Hk, Hkc, Hc1.
    destruct (code ev =? ABS_MT_SLOT); [repeat split|].
    destruct (code ev =? ABS_MT_TRACKING_ID); [|repeat split].
    destruct (slot c <? MAX_FINGERS); repeat split.
  - destruct (handle_event_other c ev Hwf Hns Habs)
      as (c' & Hrun & Hwf' & Hf' & _).
    exists c'. split; [exact Hrun|]. split; [exact Hwf'|].
    apply queue_frame_fields in Hf'. tauto.
Qed.

Lemma handle_events_body (body : list struct_input_event) :
  forall c, wf c -> forallb no_sync body = true ->
  exists c',
    handle_events body c = Some (tt, c', []) /\ wf c' /\
    sidekey c' = sidekey c /\ kbd c' = kbd c /\ keycode c' = keycode c.
Proof.
  induction body as [|ev body IH]; intros c Hwf Hns.
  - exists c. repeat split; apply Hwf.
  - simpl in Hns. apply andb_true_iff in Hns. destruct Hns as [Hev Hns].
    destruct (handle_event_body c ev Hwf Hev)
      as (c1 & H1 & Hwf1 & Hs1 & Hk1 & Hkc1).
    destruct (IH c1 Hwf1 Hns) as (c2 & H2 & Hwf2 & Hs2 & Hk2 & Hkc2).
    exists c2. split; [|split; [exact Hwf2|repeat split; congruence]].
    simpl. rewrite (bind_some _ _ _ _ _ _ H1), H2. reflexivity.
Qed.

(** The sync-report event of a report classified [cls], unless the report
    is a side touch with no finger counted: the side-key state becomes
    [cls], and the keyboard is written once if [cls] differs from the
    stored state, not at all otherwise. *)
Lemma report_sync_sidekey (c : trackscreen_context) (cls : Z) :
  wf c -> classification c = Some cls ->
  (cls = 1 -> count_fingers (fingers c) <> 0) ->
  exists c2 o2,
    handle_event syn_report c = Some (0, c2, o2) /\ wf c2 /\
    sidekey c2 = cls /\ kbd c2 = kbd c /\ keycode c2 = keycode c /\
    kbd_writes o2 =
      if cls =? sidekey c then []
      else if kbd c >? 0 then [sidekey_events c cls] else [].
Proof.
  intros Hwf Hcls Hdown.
  destruct (handle_event_sync c syn_report Hwf eq_refl eq_refl)
    as (c1 & c2 & o2 & Hwf1 & Hf1 & Hq1 & H2 & Hrun).
  destruct (handle_event_total c syn_report Hwf)
    as (c' & out & Hrun' & Hwf').
  rewrite Hrun in Hrun'. injection Hrun' as <- <-.
  pose proof (check_bounds_total c1 Hwf1)
    as (c2' & o2' & H2' & _ & Hk2 & Hkc2 & _).
  rewrite H2 in H2'. injection H2' as <- <-.
  apply queue_frame_fields in Hf1. simpl in Hf1.
  destruct Hf1
    as (Hk1 & Hkc1 & Hx0 & Hx1 & Hy0 & Hy1 & _ & _ & _ & Hpx & Hpy & Hs1).
  assert (Hpos : resolved_position c1 = resolved_position c).
  { unfold resolved_position. rewrite Hq1, Hpx, Hpy.
    apply find_position_take_app.
    - rewrite queued_length by exact Hwf.
      destruct Hwf as (_ & _ & Hn & _). lia.
    - destruct (count_fingers (fingers c) =? finger_count c);
        [constructor|apply tool_events_keys]. }
  assert (Hside : forall x y, side_touches c1 x y = side_touches c x y).
  { intros x y. unfold side_touches. rewrite Hx0, Hx1, Hy0, Hy1.
    reflexivity. }
  pose proof (check_bounds_sidekey c1 c2 o2 H2) as Hcases.
  rewrite Hpos in Hcases. unfold classification in Hcls.
  destruct (resolved_position c) as [x y].
  destruct ((x =? -1) || (y =? -1)); [discriminate|].
  injection Hcls as Hcls. rewrite Hside, Hcls in Hcases.
  destruct Hcases as [Hs2 ->].
  assert (Hforced :
    (count_fingers (fingers c) =? 0) && negb (sidekey c2 =? 0) = false).
  { rewrite Hs2. destruct (side_touches_01 c x y) as [E|E];
      rewrite Hcls in E; rewrite E.
    - apply andb_false_r.
    - apply andb_false_iff. left. apply Z.eqb_neq. apply Hdown. exact E. }
  rewrite Hforced in *.
  eexists _, _. split; [exact Hrun|]. split; [exact Hwf'|].
  simpl. repeat (split; [congruence|]).
  rewrite kbd_writes_app, Hs1, Hk1. simpl. rewrite app_nil_r.
  destruct (cls =? sidekey c); [reflexivity|].
  destruct (kbd c >? 0); [|reflexivity].
  unfold sidekey_events. rewrite Hkc1. reflexivity.
Qed.

(** C8, amended: over a run of consecutive reports whose resolved positions
    all receive the same classification, and none of which is a side touch
    with a recomputed finger count of 0 (such a report releases the side
    key and resets the stored state), at most one side-key event is written:
    by the first report, exactly when the classification differs from the
    stored state and a keyboard is open; the later reports write none. *)
Theorem C8_one_sidekey_event_per_run (cls : Z)
  (reports : list (list struct_input_event)) (c : trackscreen_context) :
  wf c ->
  Forall (fun body => forallb no_sync body = true) reports ->
  Forall (fun ob => fst ob = Some cls /\ (cls = 1 -> snd ob <> 0))
    (report_observations c reports) ->
  exists c' out,
    run_reports reports c = Some (tt, c', out) /\
    kbd_writes out =
      match reports with
      | [] => []
      | _ :: _ =>
          if cls =? sidekey c then []
          else if kbd c >? 0 then [sidekey_events c cls] else []
      end /\
    (length (kbd_writes out) <= 1)%nat /\
    match reports with
    | [] => True
    | body :: rest =>
        exists c1 out1 c2 out2,
          (handle_events body;; handle_event syn_report) c =
            Some (0, c1, out1) /\
          run_reports rest c1 = Some (tt, c2, out2) /\
          out = out1 ++ out2 /\ kbd_writes out2 = []
    end.
Proof.
  revert c. induction reports as [|body rest IH]; intros c Hwf Hns Hobs.
  - exists c, []. repeat split. simpl. lia.
  - apply Forall_cons in Hns. destruct Hns as [Hbody Hrest].
    destruct (handle_events_body body c Hwf Hbody)
      as (c1 & H1 & Hwf1 & Hs1 & Hk1 & Hkc1).
    simpl in Hobs. rewrite H1 in Hobs.
    apply Forall_cons in Hobs. destruct Hobs as [[Hcls Hdown] Hobs].
    simpl in Hcls, Hdown.
    destruct (report_sync_sidekey c1 cls Hwf1 Hcls Hdown)
      as (c2 & o2 & H2 & Hwf2 & Hs2 & Hk2 & Hkc2 & Ho2).
    rewrite H2 in Hobs.
    destruct (IH c2 Hwf2 Hrest Hobs) as (c' & out' & Hrun' & Hk' & _ & _).
    assert (Hquiet : kbd_writes out' = []).
    { rewrite Hk'. destruct rest; [reflexivity|].
      rewrite Hs2, Z.eqb_refl. reflexivity. }
    assert (Hfirst :
      kbd_writes o2 =
        if cls =? sidekey c then []
        else if kbd c >? 0 then [sidekey_events c cls] else []).
    { rewrite Ho2, Hs1, Hk1. unfold sidekey_events. rewrite Hkc1.
      reflexivity. }
    exists c', (o2 ++ out').
    split; [|split; [|split]].
    + simpl. rewrite (bind_some _ _ _ _ _ _ H1).
      rewrite (bind_some _ _ _ _ _ _ H2), Hrun'. reflexivity.
    + rewrite kbd_writes_app, Hquiet, app_nil_r. exact Hfirst.
    + rewrite kbd_writes_app, Hquiet, app_nil_r, Hfirst.
      destruct (cls =? sidekey c); [simpl; lia|].
      destruct (kbd c >? 0); simpl; lia.
    + exists c2, o2, c', out'.
      split; [|split; [exact Hrun'|split; [reflexivity|exact Hquiet]]].
      rewrite (bind_some _ _ _ _ _ _ H1), H2. reflexivity.
Qed.

Lemma C8_one_sidekey_event_per_run_witness :
  exists c' out,
    run_reports side_touch_run example_context = Some (tt, c', out) /\
    kbd_writes out =
      match side_touch_run with
      | [] => []
      | _ :: _ =>
          if 1 =? sidekey example_context then []
          else if kbd example_context >? 0
               then [sidekey_events example_context 1] else []
      end /\
    (length (kbd_writes out) <= 1)%nat /\
    match side_touch_run with
    | [] => True
    | body :: rest =>
        exists c1 out1 c2 out2,
          (handle_events body;; handle_event syn_report) example_context =
            Some (0, c1, out1) /\
          run_reports rest c1 = Some (tt, c2, out2) /\
          out = out1 ++ out2 /\ kbd_writes out2 = []
    end.
Proof.
  apply (C8_one_sidekey_event_per_run 1 side_touch_run example_context).
  - repeat split; vm_compute; congruence.
  - repeat constructor.
  - vm_compute. repeat constructor; intros; discriminate.
Defined.

(** After a side touch, the report that lifts the finger and the idle
    report that follows are both classified as side touches, by the
    position of the last report, and both count no finger: the first
    releases the side key, the second presses and releases it again. *)
Lemma C8_idle_reports_toggle_side_key :
  sidekey after_side_touch = 1 /\
  report_observations after_side_touch lift_then_idle_run =
    [(Some 1, 0); (Some 1, 0)] /\
  exists c' out,
    run_reports lift_then_idle_run after_side_touch = Some (tt, c', out) /\
    kbd_writes out =
      [sidekey_events example_context 0;
       sidekey_events example_context 1;
       sidekey_events example_context 0] /\
    ~ (length (kbd_writes out) <= 1)%nat.
Proof.
  split; [reflexivity|]. split; [vm_compute; reflexivity|].
  eexists _, _. split; [vm_compute; reflexivity|].
  split; [reflexivity|]. simpl. lia.
Qed.

(** * Further properties of the batched handler *)

(** ** What a sync-report event flushes *)

Lemma tool_stage_position (c c1 : trackscreen_context) (n : Z)
  (keys : list struct_input_event) :
  wf c -> queue_frame (set_finger_count n c) c1 ->
  queued c1 = take (Z.to_nat MAX_EVENTS_PER_REPORT) (queued c ++ keys) ->
  Forall (fun ev => type ev = EV_KEY) keys ->
  resolved_position c1 = resolved_position c.
Proof.
  intros Hwf Hf Hq Hkeys.
  apply queue_frame_fields in Hf. simpl in Hf.
  destruct Hf as (_ & _ & _ & _ & _ & _ & _ & _ & _ & Hpx & Hpy & _).
  unfold resolved_position. rewrite Hq, Hpx, Hpy.
  apply find_position_take_app; [|exact Hkeys].
  rewrite queued_length by exact Hwf.
  destruct Hwf as (_ & _ & Hn & _). lia.
Qed.

(** The tool events a sync-report event queues. *)
Lemma report_tools_keys (c : trackscreen_context) :
  Forall (fun ev => type ev = EV_KEY)
    (if count_fingers (fingers c) =? finger_count c then []
     else tool_events (finger_count c) (count_fingers (fingers c))).
Proof.
  destruct (count_fingers (fingers c) =? finger_count c);
    [constructor|apply tool_events_keys].
Qed.

(** The whole effect of a sync-report event on the trackpad output and on
    the context, the side key apart. *)
Lemma sync_report_effect (c : trackscreen_context)
  (ev : struct_input_event) (x y : Z) :
  wf c -> type ev = EV_SYN -> code ev = SYN_REPORT ->
  resolved_position c = (x, y) ->
  exists c' out,
    handle_event ev c = Some (0, c', out) /\ wf c' /\
    input_events c' = 0 /\
    finger_count c' = count_fingers (fingers c) /\
    fingers c' = fingers c /\ slot c' = slot c /\
    kbd c' = kbd c /\ keycode c' = keycode c /\
    (tp_min_x c', tp_max_x c', tp_min_y c', tp_max_y c') =
      (tp_min_x c, tp_max_x c, tp_min_y c, tp_max_y c) /\
    (pos_x c', pos_y c') =
      (if (x =? -1) || (y =? -1) then (pos_x c, pos_y c) else (x, y)) /\
    tp_writes out =
      [(if (x =? -1) || (y =? -1) then fun q => q
        else map (replace_position
                    (clamp_adjust (tp_min_x c) (tp_max_x c) x)
                    (clamp_adjust (tp_min_y c) (tp_max_y c) y)))
         (take 24
            (queued c ++
             if count_fingers (fingers c) =? finger_count c then []
             else tool_events (finger_count c) (count_fingers (fingers c))));
       [ev]].
Proof.
  intros Hwf Ht Hc Hpos.
  destruct (handle_event_sync c ev Hwf Ht Hc)
    as (c1 & c2 & o2 & Hwf1 & Hf1 & Hq1 & H2 & Hrun).
  destruct (handle_event_total c ev Hwf) as (c' & out & Hrun' & Hwf').
  rewrite Hrun in Hrun'. injection Hrun' as <- <-.
  pose proof (tool_stage_position c c1 _ _ Hwf Hf1 Hq1 (report_tools_keys c))
    as Hpos1.
  rewrite Hpos in Hpos1.
  apply queue_frame_fields in Hf1. simpl in Hf1.
  destruct Hf1 as (Hk1 & Hkc1 & Hx0 & Hx1 & Hy0 & Hy1 & Hfc1 & Hfi1 & Hsl1
                   & Hpx1 & Hpy1 & Hs1).
  change (Z.to_nat MAX_EVENTS_PER_REPORT) with 24%nat in Hq1.
  assert (Htp2 : tp_writes o2 = [] /\
    kbd c2 = kbd c /\ keycode c2 = keycode c /\
    tp_min_x c2 = tp_min_x c /\ tp_max_x c2 = tp_max_x c /\
    tp_min_y c2 = tp_min_y c /\ tp_max_y c2 = tp_max_y c /\
    finger_count c2 = count_fingers (fingers c) /\
    fingers c2 = fingers c /\ slot c2 = slot c /\
    (pos_x c2, pos_y c2) =
      (if (x =? -1) || (y =? -1) then (pos_x c, pos_y c) else (x, y)) /\
    queued c2 =
      (if (x =? -1) || (y =? -1) then fun q => q
       else map (replace_position
                   (clamp_adjust (tp_min_x c) (tp_max_x c) x)
                   (clamp_adjust (tp_min_y c) (tp_max_y c) y)))
        (queued c1)).
  { destruct ((x =? -1) || (y =? -1)) eqn:E.
    - rewrite (check_bounds_unresolved c1 x y Hpos1) in H2
        by (bool_to_prop; destruct E; bool_to_prop; tauto).
      injection H2 as <- <-. rewrite Hpx1, Hpy1. repeat split; assumption.
    - bool_to_prop.
      destruct (Z.eq_dec (side_touches c1 x y) (sidekey c1)) as [Heq|Hne].
      + rewrite (check_bounds_steady c1 x y) in H2 by assumption.
        injection H2 as <- <-.
        rewrite queued_replace_positions by exact Hwf1.
        rewrite Hx0, Hx1, Hy0, Hy1. simpl. repeat split; assumption.
      + rewrite (check_bounds_transition c1 x y) in H2 by assumption.
        injection H2 as <- <-.
        rewrite queued_replace_positions by exact Hwf1.
        rewrite Hx0, Hx1, Hy0, Hy1. simpl.
        split; [destruct (kbd c1 >? 0); reflexivity|].
        repeat split; assumption. }
  destruct Htp2 as (Ho2 & Hk2 & Hkc2 & Hx02 & Hx12 & Hy02 & Hy12 & Hfc2
                    & Hfi2 & Hsl2 & Hp2 & Hq2).
  eexists _, _. split; [exact Hrun|]. split; [exact Hwf'|].
  assert (Hforced :
    tp_writes
      (if (count_fingers (fingers c) =? 0) && negb (sidekey c2 =? 0)
       then if keycode c2 >? 0
            then [write_kbd (sidekey_events c2 0)] else []
       else []) = []).
  { destruct ((count_fingers (fingers c) =? 0) && negb (sidekey c2 =? 0));
      [destruct (keycode c2 >? 0)|]; reflexivity. }
  rewrite !tp_writes_app, Ho2, Hforced. simpl tp_writes. simpl app.
  rewrite Hq2, Hq1.
  destruct ((count_fingers (fingers c) =? 0) && negb (sidekey c2 =? 0));
    simpl; rewrite Hx02, Hx12, Hy02, Hy12;
    repeat (split; [first [reflexivity|assumption]|]); reflexivity.
Qed.

Lemma replace_position_x (x y : Z) (ev : struct_input_event) :
  is_x_position (replace_position x y ev) = true ->
  value (replace_position x y ev) = x.
Proof.
  unfold is_x_position, replace_position.
  destruct (type ev =? EV_ABS) eqn:Et; [|simpl; rewrite Et; discriminate].
  destruct ((code ev =? ABS_X) || (code ev =? ABS_MT_POSITION_X)) eqn:Ex;
    [reflexivity|].
  destruct ((code ev =? ABS_Y) || (code ev =? ABS_MT_POSITION_Y));
    simpl; rewrite Et, Ex; discriminate.
Qed.

Lemma replace_position_y (x y : Z) (ev : struct_input_event) :
  is_y_position (replace_position x y ev) = true ->
  value (replace_position x y ev) = y.
Proof.
  unfold is_y_position, replace_position.
  destruct (type ev =? EV_ABS) eqn:Et; [|simpl; rewrite Et; discriminate].
  destruct ((code ev =? ABS_X) || (code ev =? ABS_MT_POSITION_X)) eqn:Ex.
  - simpl. rewrite Et. simpl. intros H. exfalso.
    bool_to_prop. unfold ABS_X, ABS_Y, ABS_MT_POSITION_X, ABS_MT_POSITION_Y
      in *. destruct Ex, H; bool_to_prop; lia.
  - destruct ((code ev =? ABS_Y) || (code ev =? ABS_MT_POSITION_Y)) eqn:Ey;
      [reflexivity|].
    simpl. rewrite Et, Ey. discriminate.
Qed.

(** X1: In a report with a resolved position every X position event of the
    flushed batch carries one value, the clamped and shifted last X of the
    report, and every Y position event the clamped and shifted last Y: for a
    region that is not empty these lie in [0, tp_max - tp_min), the range
    the trackpad axes are set up with. *)
Theorem flushed_positions_clamped (c : trackscreen_context)
  (ev : struct_input_event) (x y : Z) :
  wf c -> type ev = EV_SYN -> code ev = SYN_REPORT ->
  resolved_position c = (x, y) -> x <> -1 -> y <> -1 ->
  int_range x -> int_range y ->
  int_range (tp_min_x c) -> int_range (tp_max_x c) ->
  int_range (tp_min_y c) -> int_range (tp_max_y c) ->
  tp_min_x c < tp_max_x c -> tp_max_x c - tp_min_x c <= INT_MAX ->
  tp_min_y c < tp_max_y c -> tp_max_y c - tp_min_y c <= INT_MAX ->
  exists c' out batch,
    handle_event ev c = Some (0, c', out) /\
    tp_writes out = [batch; [ev]] /\
    forall e, In e batch ->
      (is_x_position e = true ->
       value e = Z.max (tp_min_x c) (Z.min x (tp_max_x c - 1)) - tp_min_x c /\
       0 <= value e < tp_max_x c - tp_min_x c) /\
      (is_y_position e = true ->
       value e = Z.max (tp_min_y c) (Z.min y (tp_max_y c - 1)) - tp_min_y c /\
       0 <= value e < tp_max_y c - tp_min_y c).
Proof.
  intros Hwf Ht Hc Hpos Hx Hy Hrx Hry Hx0 Hx1 Hy0 Hy1 Hxlt Hxfit Hylt Hyfit.
  destruct (sync_report_effect c ev x y Hwf Ht Hc Hpos)
    as (c' & out & Hrun & _ & _ & _ & _ & _ & _ & _ & _ & _ & Htp).
  replace ((x =? -1) || (y =? -1)) with false in Htp
    by (symmetry; apply orb_false_iff; rewrite !Z.eqb_neq; tauto).
  eexists _, _, _. split; [exact Hrun|]. split; [exact Htp|].
  intros e He. apply in_map_iff in He. destruct He as (e0 & <- & _).
  destruct (clamp_adjust_spec (tp_min_x c) (tp_max_x c) x) as [Ecx Hcx];
    try assumption.
  destruct (clamp_adjust_spec (tp_min_y c) (tp_max_y c) y) as [Ecy Hcy];
    try assumption.
  split; intros Hp.
  - rewrite (replace_position_x _ _ _ Hp). rewrite <- Ecx. tauto.
  - rewrite (replace_position_y _ _ _ Hp). rewrite <- Ecy. tauto.
Qed.

Lemma flushed_positions_clamped_witness :
  exists c' out batch,
    handle_event syn_report side_touch_context = Some (0, c', out) /\
    tp_writes out = [batch; [syn_report]] /\
    forall e, In e batch ->
      (is_x_position e = true ->
       value e =
         Z.max (tp_min_x side_touch_context)
           (Z.min 100 (tp_max_x side_touch_context - 1)) -
         tp_min_x side_touch_context /\
       0 <= value e <
         tp_max_x side_touch_context - tp_min_x side_touch_context) /\
      (is_y_position e = true ->
       value e =
         Z.max (tp_min_y side_touch_context)
           (Z.min 800 (tp_max_y side_touch_context - 1)) -
         tp_min_y side_touch_context /\
       0 <= value e <
         tp_max_y side_touch_context - tp_min_y side_touch_context).
Proof.
  apply (flushed_positions_clamped side_touch_context syn_report 100 800);
    try reflexivity; try lia;
    try (repeat split; vm_compute; congruence).
Defined.

(** X2: A report whose resolved X or Y is -1, the value the bounds check takes
    for a missing coordinate, is flushed as it was queued: the positions
    stay in touchscreen coordinates, neither clamped nor shifted, and the
    position of the last report is kept. *)
Theorem unset_position_forwards_raw (c : trackscreen_context)
  (ev : struct_input_event) (x y : Z) :
  wf c -> type ev = EV_SYN -> code ev = SYN_REPORT ->
  resolved_position c = (x, y) -> x = -1 \/ y = -1 ->
  exists c' out,
    handle_event ev c = Some (0, c', out) /\
    tp_writes out =
      [take 24
         (queued c ++
          if count_fingers (fingers c) =? finger_count c then []
          else tool_events (finger_count c) (count_fingers (fingers c)));
       [ev]] /\
    (pos_x c', pos_y c') = (pos_x c, pos_y c).
Proof.
  intros Hwf Ht Hc Hpos Hunset.
  destruct (sync_report_effect c ev x y Hwf Ht Hc Hpos)
    as (c' & out & Hrun & _ & _ & _ & _ & _ & _ & _ & _ & Hp & Htp).
  replace ((x =? -1) || (y =? -1)) with true in Hp, Htp
    by (symmetry; apply orb_true_iff; rewrite !Z.eqb_eq; exact Hunset).
  exists c', out. split; [exact Hrun|]. split; [exact Htp|exact Hp].
Qed.

Lemma unset_position_forwards_raw_witness :
  exists c' out,
    handle_event syn_report unset_position_context = Some (0, c', out) /\
    tp_writes out =
      [take 24
         (queued unset_position_context ++
          if count_fingers (fingers unset_position_context) =?
             finger_count unset_position_context then []
          else tool_events (finger_count unset_position_context)
                 (count_fingers (fingers unset_position_context)));
       [syn_report]] /\
    (pos_x c', pos_y c') =
      (pos_x unset_position_context, pos_y unset_position_context).
Proof.
  apply (unset_position_forwards_raw unset_position_context syn_report
           (-1) 2000);
    [repeat split; vm_compute; congruence
    |reflexivity|reflexivity|reflexivity|left; reflexivity].
Defined.

(** ** Reports on the trackpad *)

Lemma handle_event_tp (c : trackscreen_context) (ev : struct_input_event) :
  wf c ->
  exists c' out,
    handle_event ev c = Some (0, c', out) /\ wf c' /\
    if is_sync ev then
      exists batch,
        tp_writes out = [batch; [ev]] /\ (length batch <= 24)%nat /\
        input_events c' = 0 /\
        finger_count c' = count_fingers (fingers c')
    else tp_writes out = [].
Proof.
  intros Hwf. destruct (is_sync ev) eqn:Hs.
  - unfold is_sync in Hs. bool_to_prop.
    destruct (resolved_position c) as [x y] eqn:Hpos.
    destruct (sync_report_effect c ev x y Hwf H H0 Hpos)
      as (c' & out & Hrun & Hwf' & Hn & Hfc & Hfi & _ & _ & _ & _ & _ & Htp).
    exists c', out. split; [exact Hrun|]. split; [exact Hwf'|].
    eexists. split; [exact Htp|]. split; [|split; [exact Hn|congruence]].
    destruct ((x =? -1) || (y =? -1)); rewrite ?length_map, length_take; lia.
  - assert (Hns : no_sync ev = true)
      by (unfold no_sync; unfold is_sync in Hs; rewrite Hs; reflexivity).
    destruct (handle_event_body c ev Hwf Hns) as (c' & Hrun & Hwf' & _).
    exists c', []. split; [exact Hrun|]. split; [exact Hwf'|reflexivity].
Qed.

(** X3: Whatever events arrive, the trackpad is written in reports: a batch of
    at most 24 events and then one sync-report event, once per sync-report
    event read and never in between.  After a sync-report event the queue
    is empty and the recorded finger count is the one the table gives. *)
Theorem trackpad_output_is_batched (c : trackscreen_context)
  (evs : list struct_input_event) :
  wf c ->
  exists c' out,
    handle_events evs c = Some (tt, c', out) /\ wf c' /\
    batched (tp_writes out) = true /\
    length (tp_writes out) = (2 * length (List.filter is_sync evs))%nat /\
    (forall ev, last evs = Some ev -> is_sync ev = true ->
       input_events c' = 0 /\
       finger_count c' = count_fingers (fingers c')).
Proof.
  revert c. induction evs as [|ev evs IH]; intros c Hwf.
  - exists c, []. repeat split; try apply Hwf; discriminate.
  - destruct (handle_event_tp c ev Hwf) as (c1 & o1 & H1 & Hwf1 & Hev).
    destruct (IH c1 Hwf1) as (c2 & o2 & H2 & Hwf2 & Hb & Hlen & Hlast).
    exists c2, (o1 ++ o2). split; [|split; [exact Hwf2|]].
    { simpl. rewrite (bind_some _ _ _ _ _ _ H1), H2. reflexivity. }
    rewrite tp_writes_app. simpl List.filter.
    destruct (is_sync ev) eqn:Hs.
    + destruct Hev as (batch & -> & Hbl & Hn & Hfc).
      split; [|split].
      * simpl app. cbn [batched]. rewrite Hb.
        unfold is_sync in Hs. bool_to_prop. rewrite H, H0.
        replace (Z.of_nat (length batch) <=? MAX_EVENTS_PER_REPORT)
          with true; [reflexivity|].
        symmetry. apply Z.leb_le. unfold MAX_EVENTS_PER_REPORT. lia.
      * simpl. rewrite Hlen. lia.
      * intros ev' Hl Hs'. destruct evs as [|ev2 evs'].
        -- change (Some (tt, c1, @nil write_call) = Some (tt, c2, o2)) in H2.
           injection H2 as <- <-. tauto.
        -- apply (Hlast ev'); [|exact Hs'].
           rewrite last_cons in Hl.
           destruct (last (ev2 :: evs')) eqn:E;
             [exact Hl|apply last_None in E; discriminate].
    + rewrite Hev. split; [exact Hb|]. split; [exact Hlen|].
      intros ev' Hl Hs'. destruct evs as [|ev2 evs'].
      * simpl in Hl. injection Hl as <-. congruence.
      * apply (Hlast ev'); [|exact Hs'].
        rewrite last_cons in Hl.
        destruct (last (ev2 :: evs')) eqn:E;
          [exact Hl|apply last_None in E; discriminate].
Qed.

Lemma trackpad_output_is_batched_witness :
  exists c' out,
    handle_events (side_touch_report ++ lift_report) example_context =
      Some (tt, c', out) /\ wf c' /\
    batched (tp_writes out) = true /\
    length (tp_writes out) =
      (2 * length (List.filter is_sync (side_touch_report ++ lift_report)))%nat
    /\
    (forall ev,
       last (side_touch_report ++ lift_report) = Some ev ->
       is_sync ev = true ->
       input_events c' = 0 /\
       finger_count c' = count_fingers (fingers c')).
Proof.
  apply (trackpad_output_is_batched example_context
           (side_touch_report ++ lift_report)).
  repeat split; vm_compute; congruence.
Defined.

(** ** Presses and releases of the side key *)

Lemma last_cons_default (l : list Z) (x d d' : Z) :
  List.last (x :: l) d = List.last (x :: l) d'.
Proof.
  revert x. induction l as [|y l IH]; intros x; [reflexivity|].
  change (List.last (y :: l) d = List.last (y :: l) d'). apply IH.
Qed.

Lemma alternates_app (s : Z) (vs1 vs2 : list Z) :
  alternates s vs1 = true ->
  alternates (List.last vs1 s) vs2 = true ->
  alternates s (vs1 ++ vs2) = true.
Proof.
  revert s. induction vs1 as [|v vs1 IH]; intros s H1 H2; [exact H2|].
  simpl in H1. apply andb_true_iff in H1. destruct H1 as [Hv H1].
  simpl app. cbn [alternates]. rewrite Hv. simpl andb.
  apply IH; [exact H1|].
  destruct vs1 as [|z vs1]; [exact H2|].
  rewrite (last_cons_default vs1 z v s). exact H2.
Qed.

Lemma last_app_default (s : Z) (vs1 vs2 : list Z) :
  List.last (vs1 ++ vs2) s = List.last vs2 (List.last vs1 s).
Proof.
  revert s. induction vs1 as [|v vs1 IH]; intros s; [reflexivity|].
  destruct vs1 as [|v' vs1].
  - simpl. destruct vs2; [reflexivity|apply last_cons_default].
  - change (List.last ((v :: v' :: vs1) ++ vs2) s)
      with (List.last ((v' :: vs1) ++ vs2) s).
    rewrite IH. reflexivity.
Qed.

Lemma sidekey_values_app (o1 o2 : list write_call) :
  sidekey_values (o1 ++ o2) = sidekey_values o1 ++ sidekey_values o2.
Proof. unfold sidekey_values. rewrite kbd_writes_app. apply map_app. Qed.

(** The key events of one event, from a side-key state of 0 or 1 and with
    the keyboard open exactly when a key code is set. *)
Lemma handle_event_sidekey (c : trackscreen_context)
  (ev : struct_input_event) :
  wf c -> sidekey c = 0 \/ sidekey c = 1 ->
  (kbd c >? 0) = (keycode c >? 0) ->
  exists c' out,
    handle_event ev c = Some (0, c', out) /\ wf c' /\
    kbd c' = kbd c /\ keycode c' = keycode c /\
    (sidekey c' = 0 \/ sidekey c' = 1) /\
    alternates (sidekey c) (sidekey_values out) = true /\
    (if keycode c >? 0
     then sidekey c' = List.last (sidekey_values out) (sidekey c)
     else kbd_writes out = []).
Proof.
  intros Hwf Hs01 Hkbd. destruct (is_sync ev) eqn:Hsync.
  - unfold is_sync in Hsync. bool_to_prop.
    destruct (handle_event_sync c ev Hwf H H0)
      as (c1 & c2 & o2 & Hwf1 & Hf1 & _ & H2 & Hrun).
    destruct (handle_event_total c ev Hwf) as (c' & out & Hrun' & Hwf').
    rewrite Hrun in Hrun'. injection Hrun' as <- <-.
    pose proof (check_bounds_total c1 Hwf1)
      as (c2' & o2' & H2' & _ & Hk2 & Hkc2 & _).
    rewrite H2 in H2'. injection H2' as <- <-.
    apply queue_frame_fields in Hf1. simpl in Hf1.
    destruct Hf1 as (Hk1 & Hkc1 & _ & _ & _ & _ & _ & _ & _ & _ & _ & Hs1).
    pose proof (check_bounds_sidekey c1 c2 o2 H2) as Hcases.
    eexists _, _. split; [exact Hrun|]. split; [exact Hwf'|].
    assert (Hk' : forall b, kbd (set_input_events 0
                     (if b : bool then set_sidekey 0 c2 else c2)) = kbd c)
      by (intros []; simpl; congruence).
    assert (Hkc' : forall b, keycode (set_input_events 0
                     (if b : bool then set_sidekey 0 c2 else c2)) = keycode c)
      by (intros []; simpl; congruence).
    split; [apply Hk'|]. split; [apply Hkc'|].
    rewrite !sidekey_values_app, !kbd_writes_app.
    rewrite Hkc2, Hkc1.
    destruct (resolved_position c1) as [x y].
    assert (Hside := side_touches_01 c1 x y).
    rewrite Hs1, Hk1, Hkbd in Hcases.
    destruct ((x =? -1) || (y =? -1)).
    + destruct Hcases as [Hs2 ->]. rewrite Hs2.
      destruct (count_fingers (fingers c) =? 0), Hs01 as [E|E];
        rewrite E in *; simpl; rewrite ?Hs2; simpl;
        destruct (keycode c >? 0); simpl; rewrite ?Hs2; auto.
    + destruct Hcases as [Hs2 ->]. rewrite Hs2.
      destruct (count_fingers (fingers c) =? 0), Hs01 as [E|E],
        Hside as [E'|E']; rewrite E, E' in *; simpl; rewrite ?Hs2; simpl;
        destruct (keycode c >? 0); simpl; rewrite ?Hs2; auto.
  - assert (Hns : no_sync ev = true)
      by (unfold no_sync; unfold is_sync in Hsync; rewrite Hsync;
          reflexivity).
    destruct (handle_event_body c ev Hwf Hns)
      as (c' & Hrun & Hwf' & Hs' & Hk' & Hkc').
    exists c', []. split; [exact Hrun|]. split; [exact Hwf'|].
    split; [exact Hk'|]. split; [exact Hkc'|].
    split; [rewrite Hs'; exact Hs01|]. split; [reflexivity|].
    destruct (keycode c >? 0); [exact Hs'|reflexivity].
Qed.

(** X4: Over any sequence of events, from a side-key state of 0 or 1 and with
    the keyboard open exactly when a key code is set, the key events
    written to the keyboard alternate: a press is never followed by a
    press, nor a release by a release, and the first differs from the
    state at the start.  With a key code the state at the end is the value
    of the last key event; without one nothing is written. *)
Theorem sidekey_events_alternate (c : trackscreen_context)
  (evs : list struct_input_event) :
  wf c -> sidekey c = 0 \/ sidekey c = 1 ->
  (kbd c >? 0) = (keycode c >? 0) ->
  exists c' out,
    handle_events evs c = Some (tt, c', out) /\
    (sidekey c' = 0 \/ sidekey c' = 1) /\
    alternates (sidekey c) (sidekey_values out) = true /\
    (if keycode c >? 0
     then sidekey c' = List.last (sidekey_values out) (sidekey c)
     else kbd_writes out = []).
Proof.
  revert c. induction evs as [|ev evs IH]; intros c Hwf Hs01 Hkbd.
  - exists c, []. split; [reflexivity|]. split; [exact Hs01|].
    split; [reflexivity|]. destruct (keycode c >? 0); reflexivity.
  - destruct (handle_event_sidekey c ev Hwf Hs01 Hkbd)
      as (c1 & o1 & H1 & Hwf1 & Hk1 & Hkc1 & Hs1 & Ha1 & Hl1).
    assert (Hkbd1 : (kbd c1 >? 0) = (keycode c1 >? 0)) by congruence.
    destruct (IH c1 Hwf1 Hs1 Hkbd1) as (c2 & o2 & H2 & Hs2 & Ha2 & Hl2).
    exists c2, (o1 ++ o2). split; [|split; [exact Hs2|]].
    { simpl. rewrite (bind_some _ _ _ _ _ _ H1), H2. reflexivity. }
    rewrite Hkc1 in Hl2. rewrite sidekey_values_app, kbd_writes_app.
    destruct (keycode c >? 0).
    + rewrite Hl1 in Ha2, Hl2. split; [apply alternates_app; assumption|].
      rewrite last_app_default. exact Hl2.
    + unfold sidekey_values in *. rewrite Hl1, Hl2 in *. simpl.
      split; reflexivity.
Qed.

Lemma sidekey_events_alternate_witness :
  exists c' out,
    handle_events (side_touch_report ++ lift_report ++ idle_report ++
                   [syn_report]) example_context = Some (tt, c', out) /\
    (sidekey c' = 0 \/ sidekey c' = 1) /\
    alternates (sidekey example_context) (sidekey_values out) = true /\
    (if keycode example_context >? 0
     then sidekey c' =
          List.last (sidekey_values out) (sidekey example_context)
     else kbd_writes out = []).
Proof.
  apply (sidekey_events_alternate example_context
           (side_touch_report ++ lift_report ++ idle_report ++
            [syn_report]));
    [repeat split; vm_compute; congruence|left; reflexivity|reflexivity].
Defined.

(** ** A full queue at the sync-report event *)

(** X5: When the queue already holds 24 events at the sync-report event, the
    tool events of a finger-count change find no room: the batch flushed
    is the 24 queued events, the recorded count is updated all the same,
    and the next report carries no tool event either, so the change is
    never written to the trackpad. *)
Theorem full_queue_drops_tool_events (c : trackscreen_context)
  (ev : struct_input_event) :
  wf c -> type ev = EV_SYN -> code ev = SYN_REPORT ->
  input_events c = MAX_EVENTS_PER_REPORT ->
  exists c' out c'' out' (f : struct_input_event -> struct_input_event),
    handle_event ev c = Some (0, c', out) /\
    tp_writes out = [map f (queued c); [ev]] /\
    (forall e, type (f e) = type e /\ code (f e) = code e) /\
    finger_count c' = count_fingers (fingers c) /\
    handle_event ev c' = Some (0, c'', out') /\
    tp_writes out' = [[]; [ev]].
Proof.
  intros Hwf Ht Hc Hfull.
  destruct (resolved_position c) as [x y] eqn:Hpos.
  destruct (sync_report_effect c ev x y Hwf Ht Hc Hpos)
    as (c' & out & Hrun & Hwf' & Hn & Hfc & Hfi & _ & _ & _ & _ & _ & Htp).
  destruct (resolved_position c') as [x' y'] eqn:Hpos'.
  destruct (sync_report_effect c' ev x' y' Hwf' Ht Hc Hpos')
    as (c'' & out' & Hrun' & _ & _ & _ & _ & _ & _ & _ & _ & _ & Htp').
  assert (Hq : take 24
                 (queued c ++
                  if count_fingers (fingers c) =? finger_count c then []
                  else tool_events (finger_count c)
                         (count_fingers (fingers c))) = queued c).
  { pose proof (queued_length c Hwf) as Hlen.
    rewrite Hfull in Hlen. change (Z.to_nat MAX_EVENTS_PER_REPORT)
      with 24%nat in Hlen.
    rewrite take_app_le by lia. apply take_ge. lia. }
  assert (Hq' : take 24
                  (queued c' ++
                   if count_fingers (fingers c') =? finger_count c' then []
                   else tool_events (finger_count c')
                          (count_fingers (fingers c'))) = []).
  { rewrite Hfi, Hfc, Z.eqb_refl. unfold queued. rewrite Hn. reflexivity. }
  rewrite Hq in Htp. rewrite Hq' in Htp'.
  exists c', out, c'', out'.
  exists (if (x =? -1) || (y =? -1) then fun e => e
          else replace_position
                 (clamp_adjust (tp_min_x c) (tp_max_x c) x)
                 (clamp_adjust (tp_min_y c) (tp_max_y c) y)).
  split; [exact Hrun|]. split; [|split; [|split; [exact Hfc|split]]].
  - rewrite Htp. destruct ((x =? -1) || (y =? -1));
      [rewrite map_id|]; reflexivity.
  - intros e. destruct ((x =? -1) || (y =? -1)); [tauto|].
    pose proof (replace_position_fields
                  (clamp_adjust (tp_min_x c) (tp_max_x c) x)
                  (clamp_adjust (tp_min_y c) (tp_max_y c) y) e). tauto.
  - exact Hrun'.
  - rewrite Htp'. destruct ((x' =? -1) || (y' =? -1)); reflexivity.
Qed.

Lemma full_queue_drops_tool_events_witness :
  exists c' out c'' out' (f : struct_input_event -> struct_input_event),
    handle_event syn_report full_queue_context = Some (0, c', out) /\
    tp_writes out = [map f (queued full_queue_context); [syn_report]] /\
    (forall e, type (f e) = type e /\ code (f e) = code e) /\
    finger_count c' = count_fingers (fingers full_queue_context) /\
    handle_event syn_report c' = Some (0, c'', out') /\
    tp_writes out' = [[]; [syn_report]].
Proof.
  apply (full_queue_drops_tool_events full_queue_context syn_report);
    [repeat split; vm_compute; congruence
    |reflexivity|reflexivity|reflexivity].
Defined.

(** * The handler that clamps every position as it arrives *)

Lemma eager_emit_multitap (c : trackscreen_context) (n v : Z) :
  Eager.emit_multitap n v c =
    Some (tt, c, map (fun e => write_tp [e]) (tool_event n v)).
Proof.
  unfold Eager.emit_multitap, tool_event.
  destruct ((n <=? 0) || (n >? 5)) eqn:E.
  - rewrite tool_code_none by (bool_to_prop; destruct E; bool_to_prop; lia).
    reflexivity.
  - bool_to_prop. rewrite tool_code_nth by lia. reflexivity.
Qed.

(** The tool events written before a sync-report event. *)
Lemma eager_tool_stage (c : trackscreen_context) :
  (c ← get;
   let count := count_fingers (fingers c) in
   if negb (count =? finger_count c) then
     Eager.emit_multitap (finger_count c) 0;;
     Eager.emit_multitap count 1;;
     modify (set_finger_count count)
   else mret tt) c =
  Some (tt,
        (if count_fingers (fingers c) =? finger_count c then c
         else set_finger_count (count_fingers (fingers c)) c),
        map (fun e => write_tp [e])
          (if count_fingers (fingers c) =? finger_count c then []
           else tool_events (finger_count c) (count_fingers (fingers c)))).
Proof.
  rewrite bind_get. cbv zeta.
  destruct (count_fingers (fingers c) =? finger_count c); [reflexivity|].
  change (negb false) with true. cbv iota.
  rewrite (bind_some _ _ _ _ _ _ (eager_emit_multitap c _ _)).
  rewrite (bind_some _ _ _ _ _ _ (eager_emit_multitap c _ _)).
  unfold modify, tool_events. rewrite map_app, app_nil_r. reflexivity.
Qed.

Lemma eager_convert_event (c : trackscreen_context)
  (ev : struct_input_event) :
  wf c ->
  exists c' written,
    Eager.convert_event ev c =
      Some (0, c', map (fun e => write_tp [e]) written) /\
    wf c' /\ forwards ev written /\
    (tp_min_x c', tp_max_x c', tp_min_y c', tp_max_y c') =
      (tp_min_x c, tp_max_x c, tp_min_y c, tp_max_y c).
Proof.
  intros Hwf. unfold Eager.convert_event, forwards.
  destruct ((type ev =? EV_SYN) && (code ev =? SYN_REPORT)) eqn:Hsync.
  - rewrite (bind_some _ _ _ _ _ _ (eager_tool_stage c)).
    bool_to_prop. rewrite H.
    change (negb (EV_SYN =? EV_ABS)) with true. cbv iota.
    eexists _, (_ ++ [ev]). split; [|split; [|split]].
    + unfold Eager.emit_tp_event. rewrite <- H, input_event_eta.
      rewrite map_app. reflexivity.
    + destruct (count_fingers (fingers c) =? finger_count c); exact Hwf.
    + eexists _, ev. split; [reflexivity|].
      split; [apply report_tools_keys|].
      unfold is_sync. rewrite H, H0. split; [discriminate|]. tauto.
    + destruct (count_fingers (fingers c) =? finger_count c); reflexivity.
  - assert (Hfirst : (mret tt : prog unit) c = Some (tt, c, [])) by reflexivity.
    rewrite (bind_some _ _ _ _ _ _ Hfirst). clear Hfirst.
    assert (Hplain : forall written : list struct_input_event,
              written = [ev] ->
              exists tools ev',
                written = tools ++ [ev'] /\
                Forall (fun e => type e = EV_KEY) tools /\
                (is_sync ev = false -> tools = []) /\
                type ev' = type ev /\ code ev' = code ev /\
                (is_x_position ev || is_y_position ev = false -> ev' = ev)).
    { intros written ->. exists [], ev. repeat split; constructor. }
    destruct (type ev =? EV_ABS) eqn:Habs;
      [change (negb true) with false|change (negb false) with true];
      cbv iota.
    + destruct ((code ev =? ABS_X) || (code ev =? ABS_MT_POSITION_X)) eqn:Ex;
        [|destruct ((code ev =? ABS_Y) || (code ev =? ABS_MT_POSITION_Y))
            eqn:Ey;
          [|destruct (code ev =? ABS_MT_SLOT) eqn:Esl;
            [|destruct (code ev =? ABS_MT_TRACKING_ID) eqn:Etr;
              [destruct (slot c <? MAX_FINGERS) eqn:Elt|]]]].
      * eexists c, [_]. split; [reflexivity|]. split; [exact Hwf|].
        split; [|reflexivity]. eexists [], _. split; [reflexivity|].
        split; [constructor|]. repeat split.
        unfold is_x_position. rewrite Habs, Ex. discriminate.
      * eexists c, [_]. split; [reflexivity|]. split; [exact Hwf|].
        split; [|reflexivity]. eexists [], _. split; [reflexivity|].
        split; [constructor|]. repeat split.
        unfold is_x_position, is_y_position. rewrite Habs, Ex, Ey.
        discriminate.
      * eexists _, [_]. split; [reflexivity|]. split; [|split; [|reflexivity]].
        -- destruct Hwf as (Hf & Ha & Hn & _). unfold wf. simpl.
           repeat (split; [assumption|]). apply to_uint_nonneg.
        -- apply Hplain. rewrite input_event_eta. reflexivity.
      * bool_to_prop.
        destruct (store_fingers_in_bounds c (value ev) Hwf Elt) as [Hst _].
        assert (Hinner :
          (c ← get;
           (if slot c <? MAX_FINGERS then store_fingers (slot c) (value ev)
            else mret tt);;
           mret (value ev)) c =
          Some (value ev,
                set_fingers (<[Z.to_nat (slot c) := value ev]> (fingers c)) c,
                [])).
        { rewrite bind_get.
          replace (slot c <? MAX_FINGERS) with true
            by (symmetry; apply Z.ltb_lt; exact Elt).
          apply bind_ret_r. exact Hst. }
        eexists _, [_].
        split; [rewrite (bind_some _ _ _ _ _ _ Hinner); reflexivity|].
        split; [|split; [|reflexivity]].
        -- destruct Hwf as (Hf & Ha & Hn & Hs). unfold wf. simpl.
           rewrite length_insert. tauto.
        -- apply Hplain. rewrite input_event_eta. reflexivity.
      * assert (Hinner :
          (c ← get;
           (if slot c <? MAX_FINGERS then store_fingers (slot c) (value ev)
            else mret tt);;
           mret (value ev)) c = Some (value ev, c, [])).
        { rewrite bind_get, Elt. reflexivity. }
        eexists c, [_].
        split; [rewrite (bind_some _ _ _ _ _ _ Hinner); reflexivity|].
        split; [exact Hwf|].
        split; [|reflexivity]. apply Hplain.
        rewrite input_event_eta. reflexivity.
      * eexists c, [_]. split; [reflexivity|]. split; [exact Hwf|].
        split; [|reflexivity]. apply Hplain.
        rewrite input_event_eta. reflexivity.
    + eexists c, [_]. split; [reflexivity|]. split; [exact Hwf|].
      split; [|reflexivity]. apply Hplain.
      rewrite input_event_eta. reflexivity.
Qed.

(** X6: The clamping handler drops nothing: for every event read it writes that
    event, alone in a write of its own and in the order read, with its type
    and code, and with its value unless it is a position.  The only events
    it adds are tool events, written just before a sync-report event. *)
Theorem eager_handler_forwards_every_event (c : trackscreen_context)
  (evs : list struct_input_event) :
  wf c ->
  exists c' written,
    Eager.convert_events evs c =
      Some (tt, c', map (fun e => write_tp [e]) (concat written)) /\
    Forall2 forwards evs written.
Proof.
  revert c. induction evs as [|ev evs IH]; intros c Hwf.
  - exists c, []. split; [reflexivity|constructor].
  - destruct (eager_convert_event c ev Hwf) as (c1 & w1 & H1 & Hwf1 & Hfw & _).
    destruct (IH c1 Hwf1) as (c2 & w2 & H2 & Hfw2).
    exists c2, (w1 :: w2). split; [|constructor; assumption].
    simpl. rewrite (bind_some _ _ _ _ _ _ H1), H2, map_app. reflexivity.
Qed.

Lemma eager_handler_forwards_every_event_witness :
  exists c' written,
    Eager.convert_events side_touch_report example_context =
      Some (tt, c', map (fun e => write_tp [e]) (concat written)) /\
    Forall2 forwards side_touch_report written.
Proof.
  apply (eager_handler_forwards_every_event example_context
           side_touch_report).
  repeat split; vm_compute; congruence.
Defined.

Lemma eager_clamp_adjust (tp_min tp_max v : Z) :
  tp_min < tp_max ->
  Eager.clamp tp_min tp_max v = clamp_adjust tp_min tp_max v.
Proof.
  intros Hlt. unfold Eager.clamp, clamp_adjust.
  destruct (v <? tp_min) eqn:E1; [|reflexivity].
  replace (tp_min >=? tp_max) with false; [reflexivity|].
  symmetry. rewrite Z.geb_leb. apply Z.leb_gt. exact Hlt.
Qed.

(** X7: On a region that is not empty the clamping handler and the bounds check
    of the batched handler map a coordinate to the same value, although one
    tests the two bounds in sequence and the other as alternatives; the
    value is the coordinate clamped into the region and shifted to its
    origin. *)
Theorem clamp_agrees_between_handlers (tp_min tp_max v : Z) :
  int_range tp_min -> int_range tp_max -> int_range v ->
  tp_min < tp_max -> tp_max - tp_min <= INT_MAX ->
  Eager.clamp tp_min tp_max v = clamp_adjust tp_min tp_max v /\
  Eager.clamp tp_min tp_max v =
    Z.max tp_min (Z.min v (tp_max - 1)) - tp_min.
Proof.
  intros Hlo Hhi Hv Hlt Hfit.
  rewrite (eager_clamp_adjust tp_min tp_max v Hlt).
  split; [reflexivity|].
  apply clamp_adjust_spec; assumption.
Qed.

Lemma clamp_agrees_between_handlers_witness :
  Eager.clamp 330 660 100 = clamp_adjust 330 660 100 /\
  Eager.clamp 330 660 100 = Z.max 330 (Z.min 100 (660 - 1)) - 330.
Proof.
  apply (clamp_agrees_between_handlers 330 660 100);
    try lia; vm_compute; try split; congruence.
Defined.

Lemma eager_convert_x (c : trackscreen_context) (ev : struct_input_event) :
  is_x_position ev = true ->
  Eager.convert_event ev c =
    Some (0, c,
          [write_tp [mk_input_event (type ev) (code ev)
                       (Eager.clamp (tp_min_x c) (tp_max_x c) (value ev))]]).
Proof.
  intros Hp. unfold is_x_position in Hp. apply andb_true_iff in Hp.
  destruct Hp as [Habs Hx].
  unfold Eager.convert_event. rewrite Habs, Hx.
  apply Z.eqb_eq in Habs. rewrite Habs.
  change ((EV_ABS =? EV_SYN) && (code ev =? SYN_REPORT)) with false.
  reflexivity.
Qed.

Lemma eager_convert_y (c : trackscreen_context) (ev : struct_input_event) :
  is_y_position ev = true ->
  Eager.convert_event ev c =
    Some (0, c,
          [write_tp [mk_input_event (type ev) (code ev)
                       (Eager.clamp (tp_min_y c) (tp_max_y c) (value ev))]]).
Proof.
  intros Hp. unfold is_y_position in Hp. apply andb_true_iff in Hp.
  destruct Hp as [Habs Hy].
  assert (Hx : (code ev =? ABS_X) || (code ev =? ABS_MT_POSITION_X) = false).
  { apply orb_false_iff. rewrite !Z.eqb_neq.
    unfold ABS_X, ABS_Y, ABS_MT_POSITION_X, ABS_MT_POSITION_Y in *.
    apply orb_true_iff in Hy. destruct Hy as [Hy|Hy]; apply Z.eqb_eq in Hy;
      lia. }
  unfold Eager.convert_event. rewrite Habs, Hx, Hy.
  apply Z.eqb_eq in Habs. rewrite Habs.
  change ((EV_ABS =? EV_SYN) && (code ev =? SYN_REPORT)) with false.
  reflexivity.
Qed.

(** X8: On a region that is not empty on either axis, with bounds and
    extents that fit an [int], the clamping handler writes a position event
    whose value fits an [int] with that value clamped into the region and
    shifted by the edge of the region, X by the left edge and Y by the top
    edge: the value written is in [0, tp_max - tp_min), it is the distance
    from the edge inside the region, 0 before it and the extent less one
    past it.  The context is left as it was.  The region has to be non-empty:
    see [eager_clamp_empty_region]. *)
Theorem eager_positions_clamped (c : trackscreen_context)
  (ev : struct_input_event) :
  int_range (value ev) ->
  int_range (tp_min_x c) -> int_range (tp_max_x c) ->
  int_range (tp_min_y c) -> int_range (tp_max_y c) ->
  tp_min_x c < tp_max_x c -> tp_max_x c - tp_min_x c <= INT_MAX ->
  tp_min_y c < tp_max_y c -> tp_max_y c - tp_min_y c <= INT_MAX ->
  (is_x_position ev = true ->
   exists v,
     Eager.convert_event ev c =
       Some (0, c, [write_tp [mk_input_event (type ev) (code ev) v]]) /\
     v = Z.max (tp_min_x c) (Z.min (value ev) (tp_max_x c - 1)) -
         tp_min_x c /\
     0 <= v < tp_max_x c - tp_min_x c) /\
  (is_y_position ev = true ->
   exists v,
     Eager.convert_event ev c =
       Some (0, c, [write_tp [mk_input_event (type ev) (code ev) v]]) /\
     v = Z.max (tp_min_y c) (Z.min (value ev) (tp_max_y c - 1)) -
         tp_min_y c /\
     0 <= v < tp_max_y c - tp_min_y c).
Proof.
  intros Hv Hx0 Hx1 Hy0 Hy1 Hxlt Hxfit Hylt Hyfit. split; intros Hp.
  - eexists. split; [apply eager_convert_x; exact Hp|].
    rewrite eager_clamp_adjust by exact Hxlt.
    apply clamp_adjust_spec; assumption.
  - eexists. split; [apply eager_convert_y; exact Hp|].
    rewrite eager_clamp_adjust by exact Hylt.
    apply clamp_adjust_spec; assumption.
Qed.

Lemma eager_positions_clamped_witness :
  (is_x_position (mk_input_event EV_ABS ABS_MT_POSITION_X 100) = true ->
   exists v,
     Eager.convert_event (mk_input_event EV_ABS ABS_MT_POSITION_X 100)
       example_context =
       Some (0, example_context,
             [write_tp [mk_input_event EV_ABS ABS_MT_POSITION_X v]]) /\
     v = Z.max (tp_min_x example_context)
           (Z.min 100 (tp_max_x example_context - 1)) -
         tp_min_x example_context /\
     0 <= v < tp_max_x example_context - tp_min_x example_context) /\
  (is_y_position (mk_input_event EV_ABS ABS_MT_POSITION_X 100) = true ->
   exists v,
     Eager.convert_event (mk_input_event EV_ABS ABS_MT_POSITION_X 100)
       example_context =
       Some (0, example_context,
             [write_tp [mk_input_event EV_ABS ABS_MT_POSITION_X v]]) /\
     v = Z.max (tp_min_y example_context)
           (Z.min 100 (tp_max_y example_context - 1)) -
         tp_min_y example_context /\
     0 <= v < tp_max_y example_context - tp_min_y example_context).
Proof.
  apply (eager_positions_clamped example_context
           (mk_input_event EV_ABS ABS_MT_POSITION_X 100));
    vm_compute; intuition congruence.
Defined.

(** On the empty region of [small_screen_context] the clamping handler
    writes -1 for the X position 5: the second test replaces the value by
    [tp_max - 1]. *)
Lemma eager_clamp_empty_region :
  (tp_min_x small_screen_context, tp_max_x small_screen_context) = (0, 0) /\
  Eager.convert_event (mk_input_event EV_ABS ABS_MT_POSITION_X 5)
    small_screen_context =
    Some (0, small_screen_context,
          [write_tp [mk_input_event EV_ABS ABS_MT_POSITION_X (-1)]]).
Proof. split; reflexivity. Qed.

(** * Finding the touchscreen by name *)

Lemma land_bit (a k : Z) :
  0 <= k -> (Z.land a (Z.shiftl 1 k) =? 0) = negb (Z.testbit a k).
Proof.
  intros Hk. rewrite Z.shiftl_1_l.
  destruct (Z.testbit a k) eqn:Hb; simpl.
  - apply Z.eqb_neq. intros H0.
    assert (Hbit : Z.testbit (Z.land a (2 ^ k)) k = true)
      by (rewrite Z.land_spec, Hb, Z.pow2_bits_true by exact Hk;
          reflexivity).
    rewrite H0, Z.bits_0 in Hbit. discriminate.
  - apply Z.eqb_eq. apply Z.bits_inj'. intros n Hn.
    rewrite Z.land_spec, Z.bits_0, Z.pow2_bits_eqb by exact Hk.
    destruct (Z.eqb_spec k n) as [->|Hne];
      [rewrite Hb; reflexivity|apply andb_false_r].
Qed.

Lemma has_abs_bit_mt_position_y (absbits : option (list Z)) :
  (Discovery.has_abs_bit absbits ABS_MT_POSITION_Y =? 0) =
  negb match absbits with
       | Some bytes => Z.testbit (nth 6 (take 8 bytes) 0) 6
       | None => false
       end.
Proof.
  unfold Discovery.has_abs_bit. destruct absbits as [bytes|]; [|reflexivity].
  change (Z.to_nat (Z.quot ABS_MT_POSITION_Y 8)) with 6%nat.
  change (Z.to_nat (Z.quot Discovery.ABS_MAX 8 + 1)) with 8%nat.
  change (Z.rem ABS_MT_POSITION_Y 8) with 6.
  rewrite land_bit by lia.
  destruct (Z.testbit (nth 6 (take 8 bytes) 0) 6); reflexivity.
Qed.

(** X9: [find_input_by_name] returns the descriptor of the first entry of the
    directory that is an event device, opens, carries the name asked for,
    reports absolute events and has the multitouch Y axis; it returns -1
    when there is none, or when the directory cannot be opened. *)
Theorem find_input_by_name_first_usable
  (entries : list Discovery.input_device) (arg : string) :
  fst (Discovery.find_input_by_name (Some entries) arg) =
    match List.find (Discovery.usable arg) entries with
    | Some entry => Discovery.open_fd entry
    | None => -1
    end /\
  Discovery.find_input_by_name None arg = (-1, []).
Proof.
  split; [|reflexivity]. unfold Discovery.find_input_by_name.
  induction entries as [|entry rest IH]; [reflexivity|].
  cbn [Discovery.scan List.find]. unfold Discovery.usable at 1.
  rewrite Z.leb_antisym, has_abs_bit_mt_position_y.
  rewrite (land_bit _ EV_ABS) by (unfold EV_ABS; lia).
  destruct (Discovery.scan rest arg) as [found calls]. cbn [fst] in IH.
  destruct (String.prefix "event" (Discovery.d_name entry));
    [|exact IH].
  destruct (Discovery.open_fd entry <? 0); [exact IH|].
  destruct (Discovery.device_name entry) as [devicename|]; [|exact IH].
  destruct (String.eqb devicename arg); [|exact IH].
  destruct (Z.testbit (Discovery.evbit entry) EV_ABS); [|exact IH].
  destruct (Discovery.absbits entry) as [bytes|]; [|exact IH].
  destruct (Z.testbit (nth 6 (take 8 bytes) 0) 6); [reflexivity|exact IH].
Qed.

(** X10: [find_input_by_name] leaks no descriptor: every descriptor it opened it
    has closed, in the order opened, but for the one it returns. *)
Theorem find_input_by_name_closes_rejected
  (dir : option (list Discovery.input_device)) (arg : string) :
  Discovery.opened (snd (Discovery.find_input_by_name dir arg)) =
  Discovery.closed (snd (Discovery.find_input_by_name dir arg)) ++
  (if fst (Discovery.find_input_by_name dir arg) <? 0 then []
   else [fst (Discovery.find_input_by_name dir arg)]).
Proof.
  destruct dir as [entries|]; [|reflexivity].
  unfold Discovery.find_input_by_name.
  induction entries as [|entry rest IH]; [reflexivity|].
  cbn [Discovery.scan].
  destruct (String.prefix "event" (Discovery.d_name entry)); [|exact IH].
  cbn [negb].
  destruct (Discovery.scan rest arg) as [found calls]. cbn [fst snd] in IH.
  assert (Hskip : forall path,
    (Discovery.open_fd entry <? 0) = false ->
    Discovery.opened
      (Discovery.sys_open path (Discovery.open_fd entry) ::
       [Discovery.sys_close (Discovery.open_fd entry)] ++ calls) =
    Discovery.closed
      (Discovery.sys_open path (Discovery.open_fd entry) ::
       [Discovery.sys_close (Discovery.open_fd entry)] ++ calls) ++
    (if found <? 0 then [] else [found])).
  { intros path Hfd. cbn [Discovery.opened Discovery.closed app].
    rewrite Hfd, IH. reflexivity. }
  cbn [fst snd].
  destruct (Discovery.open_fd entry <? 0) eqn:Hfd.
  - cbn [fst snd Discovery.opened Discovery.closed app].
    rewrite Hfd. exact IH.
  - destruct (Discovery.device_name entry) as [devicename|];
      [|apply Hskip; reflexivity].
    destruct (negb (String.eqb devicename arg));
      [apply Hskip; reflexivity|].
    destruct (Z.land (Discovery.evbit entry) (Z.shiftl 1 EV_ABS) =? 0);
      [apply Hskip; reflexivity|].
    destruct (Discovery.has_abs_bit (Discovery.absbits entry)
                ABS_MT_POSITION_Y =? 0);
      [apply Hskip; reflexivity|].
    cbn [fst snd Discovery.opened Discovery.closed app].
    rewrite Hfd. reflexivity.
Qed.

(** * The relative-motion program *)

(** ** The slot check *)





(** ** Reports *)

Lemma int_sub_diag (z : Z) : int_sub z z = 0.
Proof. unfold int_sub. rewrite Z.sub_diag. reflexivity. Qed.

(** The click and the motion one finger adds to the accumulators. *)
Lemma report_finger_acc (c : Relative.trackscreen_context)
  (f : Relative.finger) (click dx dy : Z) :
  exists f' dx' dy',
    Relative.report_finger c f (click, dx, dy) =
      (f', (if Relative.tapped f then 1 else click, dx', dy')) /\
    Relative.prev_x f' = Relative.x f' /\
    Relative.prev_y f' = Relative.y f' /\
    Relative.prev_on f' = Relative.on f' /\
    (Relative.still c f = true -> dx' = dx /\ dy' = dy).
Proof.
  unfold Relative.report_finger, Relative.tapped, Relative.still.
  destruct (Relative.on f =? Relative.prev_on f) eqn:Eon;
    destruct (Relative.on f =? 0) eqn:E0;
    destruct (Relative.prev_on f =? 0) eqn:Ep;
    try (exfalso; bool_to_prop; congruence);
    destruct (Relative.started_in_bounds f =? 0) eqn:Es;
    destruct (Relative.touch_in_box c f) eqn:Eb;
    destruct (Relative.touch_time f <=? Relative.TAP_TIME_US) eqn:Et;
    cbn [negb andb orb Relative.on Relative.prev_on
         Relative.started_in_bounds Relative.set_started_in_bounds];
    rewrite ?E0, ?Ep, ?Es;
    cbn [negb andb orb Z.eqb];
    eexists _, _, _; (split; [reflexivity|]);
    (split; [reflexivity|]); (split; [reflexivity|]);
    (split; [reflexivity|]);
    intros Hs; try discriminate Hs; split; reflexivity.
Qed.

Lemma report_fingers_acc (c : Relative.trackscreen_context)
  (fs : list Relative.finger) :
  forall click dx dy,
  exists fs' dx' dy',
    Relative.report_fingers c fs (click, dx, dy) =
      (fs', (if existsb Relative.tapped fs then 1 else click, dx', dy')) /\
    Forall (fun f' =>
              Relative.prev_x f' = Relative.x f' /\
              Relative.prev_y f' = Relative.y f' /\
              Relative.prev_on f' = Relative.on f') fs' /\
    (forallb (Relative.still c) fs = true -> dx' = dx /\ dy' = dy).
Proof.
  induction fs as [|f fs IH]; intros click dx dy.
  - exists [], dx, dy. repeat split. constructor.
  - destruct (report_finger_acc c f click dx dy)
      as (f' & dx1 & dy1 & H1 & Hx & Hy & Hon & Hstill).
    destruct (IH (if Relative.tapped f then 1 else click) dx1 dy1)
      as (fs' & dx2 & dy2 & H2 & Hall & Hstill2).
    exists (f' :: fs'), dx2, dy2. split; [|split].
    + cbn [Relative.report_fingers existsb]. rewrite H1, H2.
      destruct (Relative.tapped f), (existsb Relative.tapped fs);
        reflexivity.
    + constructor; [tauto|exact Hall].
    + cbn [forallb]. intros Hs. apply andb_true_iff in Hs.
      destruct Hs as [Hs1 Hs2].
      destruct (Hstill Hs1) as [-> ->]. apply Hstill2. exact Hs2.
Qed.

(** A finger whose previous values are its current ones is left alone by
    the loop, and adds nothing. *)
Lemma report_fingers_settled (c : Relative.trackscreen_context)
  (fs : list Relative.finger) :
  Forall (fun f =>
            Relative.prev_x f = Relative.x f /\
            Relative.prev_y f = Relative.y f /\
            Relative.prev_on f = Relative.on f) fs ->
  Relative.report_fingers c fs (0, 0, 0) = (fs, (0, 0, 0)).
Proof.
  induction 1 as [|f fs (Hx & Hy & Hon) _ IH]; [reflexivity|].
  cbn [Relative.report_fingers]. unfold Relative.report_finger.
  rewrite Hon, Z.eqb_refl.
  change (negb true) with false. cbv iota beta.
  rewrite Hx, Hy, Hon, !int_sub_diag.
  assert (Hf : Relative.set_prev f = f).
  { destruct f. simpl in *. subst. reflexivity. }
  rewrite Hf.
  destruct (negb (Relative.on f =? 0) && negb (Relative.on f =? 0) &&
            negb (Relative.started_in_bounds f =? 0));
    change (int_add 0 0) with 0; rewrite IH; reflexivity.
Qed.

(** X12: A second sync-report event with no event in between writes nothing and
    leaves the context as the first one left it: [process_report] settles
    the previous position and touch state of every finger on the current
    ones. *)
Theorem relative_second_report_is_silent (scale_delta : Z -> Z)
  (c : Relative.trackscreen_context) :
  Relative.process_report scale_delta
    (snd (fst (Relative.process_report scale_delta c))) =
  (0, snd (fst (Relative.process_report scale_delta c)), []).
Proof.
  unfold Relative.process_report at 2 3.
  destruct (report_fingers_acc c (Relative.fingers c) 0 0 0)
    as (fs' & dx' & dy' & -> & Hall & _).
  set (c1 := Relative.set_fingers fs' c).
  assert (Hc1 : forall (r : Z * Relative.trackscreen_context *
                            list struct_input_event),
            snd (fst r) = c1 ->
            Relative.process_report scale_delta (snd (fst r)) =
              (0, snd (fst r), [])).
  { intros r ->. unfold Relative.process_report.
    change (Relative.fingers c1) with fs'.
    rewrite (report_fingers_settled c1 fs' Hall). reflexivity. }
  apply Hc1.
  destruct (negb (dx' =? 0)); destruct (negb (dy' =? 0)); reflexivity.
Qed.

(** ** Runs of events *)

Lemma forallb_Forall_true {A : Type} (p : A -> bool) (l : list A) :
  forallb p l = true <-> Forall (fun a => p a = true) l.
Proof.
  induction l as [|a l IH]; cbn [forallb].
  - split; [constructor|reflexivity].
  - rewrite andb_true_iff, IH. split.
    + intros [H1 H2]. constructor; assumption.
    + intros H. inversion H; subst. split; assumption.
Qed.

Lemma report_finger_idle (c : Relative.trackscreen_context)
  (f : Relative.finger) (acc : Z * Z * Z) :
  Relative.idle f = true ->
  Relative.report_finger c f acc = (Relative.set_prev f, acc).
Proof.
  unfold Relative.idle, Relative.report_finger. intros H.
  apply andb_true_iff in H. destruct H as [H1 H2].
  destruct acc as [[click dx] dy].
  bool_to_prop. rewrite H1, H2.
  change (negb (0 =? 0)) with false. cbv iota beta.
  rewrite H1. reflexivity.
Qed.

Lemma set_prev_idle (f : Relative.finger) :
  Relative.idle f = true -> Relative.idle (Relative.set_prev f) = true.
Proof.
  unfold Relative.idle. intros H. apply andb_true_iff in H.
  destruct H as [H1 H2]. cbn [Relative.on Relative.prev_on Relative.set_prev].
  rewrite H1. reflexivity.
Qed.

Lemma report_fingers_idle (c : Relative.trackscreen_context)
  (fs : list Relative.finger) (acc : Z * Z * Z) :
  Forall (fun f => Relative.idle f = true) fs ->
  Relative.report_fingers c fs acc = (map Relative.set_prev fs, acc).
Proof.
  induction 1 as [|f fs Hf _ IH]; [reflexivity|].
  cbn [Relative.report_fingers map].
  rewrite (report_finger_idle c f acc Hf), IH. reflexivity.
Qed.

Lemma process_report_idle (scale_delta : Z -> Z)
  (c : Relative.trackscreen_context) :
  Forall (fun f => Relative.idle f = true) (Relative.fingers c) ->
  Relative.process_report scale_delta c =
    (0, Relative.set_fingers (map Relative.set_prev (Relative.fingers c)) c,
     []).
Proof.
  intros H. unfold Relative.process_report.
  rewrite (report_fingers_idle c _ _ H). reflexivity.
Qed.

Lemma update_finger_idle (c : Relative.trackscreen_context)
  (g : Relative.finger -> Relative.finger) :
  Relative.wf c -> 0 <= Relative.current_slot c ->
  Forall (fun f => Relative.idle f = true) (Relative.fingers c) ->
  (forall f, Relative.idle f = true -> Relative.idle (g f) = true) ->
  exists c',
    (if Relative.current_slot c <? Relative.MAX_FINGERS then
       match Relative.update_finger c (Relative.current_slot c) g with
       | Some c' => Some (0, c', [])
       | None => None
       end
     else Some (0, c, [])) = Some (0, c', @nil struct_input_event) /\
    Relative.wf c' /\ Relative.current_slot c' = Relative.current_slot c /\
    Forall (fun f => Relative.idle f = true) (Relative.fingers c').
Proof.
  intros Hwf Hs Hidle Hg.
  destruct (Relative.current_slot c <? Relative.MAX_FINGERS) eqn:E.
  - bool_to_prop.
    assert (Hlen : (Z.to_nat (Relative.current_slot c) <
                    length (Relative.fingers c))%nat).
    { rewrite Hwf. unfold Relative.MAX_FINGERS in *. lia. }
    destruct (lookup_lt_is_Some_2 _ _ Hlen) as [f Hf].
    unfold Relative.update_finger.
    replace ((0 <=? Relative.current_slot c) &&
             (Relative.current_slot c <?
              Z.of_nat (length (Relative.fingers c)))) with true
      by (symmetry; apply andb_true_iff;
          split; [apply Z.leb_le|apply Z.ltb_lt]; lia).
    rewrite Hf. eexists. split; [reflexivity|].
    split; [|split; [reflexivity|]].
    + unfold Relative.wf. cbn [Relative.fingers Relative.set_fingers].
      rewrite length_insert. exact Hwf.
    + cbn [Relative.fingers Relative.set_fingers].
      apply Forall_insert; [exact Hidle|]. apply Hg.
      exact (Forall_lookup_1 _ _ _ _ Hidle Hf).
  - exists c. repeat split; assumption.
Qed.

Lemma convert_event_quiet (scale_delta : Z -> Z)
  (c : Relative.trackscreen_context) (ev : Relative.input_event) :
  Relative.wf c -> 0 <= Relative.current_slot c ->
  Forall (fun f => Relative.idle f = true) (Relative.fingers c) ->
  Relative.quiet ev = true ->
  exists c',
    Relative.convert_event scale_delta ev c = Some (0, c', []) /\
    Relative.wf c' /\ 0 <= Relative.current_slot c' /\
    Forall (fun f => Relative.idle f = true) (Relative.fingers c').
Proof.
  intros Hwf Hs Hidle Hq. unfold Relative.convert_event.
  destruct ((Relative.type ev =? EV_SYN) &&
            (Relative.code ev =? SYN_REPORT)) eqn:Esyn.
  { rewrite (process_report_idle scale_delta c Hidle).
    eexists. split; [reflexivity|].
    split; [|split; [exact Hs|]].
    - unfold Relative.wf. cbn [Relative.fingers Relative.set_fingers].
      rewrite length_map. exact Hwf.
    - cbn [Relative.fingers Relative.set_fingers].
      apply Forall_map. eapply Forall_impl; [exact Hidle|].
      intros f Hf. apply set_prev_idle. exact Hf. }
  unfold Relative.quiet in Hq.
  destruct (Relative.type ev =? EV_ABS) eqn:Eabs; cbn [negb orb] in *;
    [|exists c; repeat split; assumption].
  destruct (Relative.code ev =? ABS_MT_SLOT) eqn:Eslot.
  { eexists. split; [reflexivity|]. bool_to_prop.
    repeat split; assumption. }
  assert (Hkeep : forall g,
            (forall f, Relative.idle f = true ->
                       Relative.idle (g f) = true) ->
            exists c',
              (if Relative.current_slot c <? Relative.MAX_FINGERS then
                 match Relative.update_finger c (Relative.current_slot c) g
                 with
                 | Some c' => Some (0, c', [])
                 | None => None
                 end
               else Some (0, c, [])) =
                Some (0, c', @nil struct_input_event) /\
              Relative.wf c' /\ 0 <= Relative.current_slot c' /\
              Forall (fun f => Relative.idle f = true)
                (Relative.fingers c')).
  { intros g Hg.
    destruct (update_finger_idle c g Hwf Hs Hidle Hg)
      as (c' & H1 & H2 & H3 & H4).
    exists c'. rewrite H3. repeat split; assumption. }
  destruct (Relative.code ev =? ABS_MT_POSITION_X).
  { apply Hkeep. intros f Hf. exact Hf. }
  destruct (Relative.code ev =? ABS_MT_POSITION_Y).
  { apply Hkeep. intros f Hf. exact Hf. }
  destruct (Relative.code ev =? ABS_MT_TRACKING_ID);
    [|exists c; repeat split; assumption].
  apply Hkeep. intros f Hf. unfold Relative.track_finger.
  unfold Relative.idle in Hf. apply andb_true_iff in Hf.
  destruct Hf as [Hon Hprev]. bool_to_prop. rewrite Hon.
  change (0 >? 0) with false. change (0 =? 0) with true. cbv iota.
  destruct (Relative.value ev <? 0) eqn:Eneg.
  - unfold Relative.idle. cbn [Relative.on Relative.prev_on Relative.set_on].
    rewrite Hprev. reflexivity.
  - bool_to_prop. replace (Relative.value ev) with 0 by lia.
    unfold Relative.idle.
    cbn [Relative.on Relative.prev_on Relative.set_on
         Relative.set_start_time].
    rewrite Hprev. reflexivity.
Qed.

(** X13: From a state in which no finger is down, events that bring none down
    write nothing, whatever positions they carry: among them a touch whose
    tracking ID is 0, which [convert_event] stores as the touch state
    itself, so that the finger stays up for [process_report]. *)
Theorem relative_quiet_events_write_nothing (scale_delta : Z -> Z)
  (evs : list Relative.input_event) :
  forall c : Relative.trackscreen_context,
  Relative.wf c -> 0 <= Relative.current_slot c ->
  forallb Relative.idle (Relative.fingers c) = true ->
  forallb Relative.quiet evs = true ->
  exists c',
    Relative.convert_events scale_delta evs c = Some (c', []) /\
    forallb Relative.idle (Relative.fingers c') = true.
Proof.
  induction evs as [|ev evs IH]; intros c Hwf Hs Hidle Hq.
  - exists c. split; [reflexivity|exact Hidle].
  - cbn [forallb] in Hq. apply andb_true_iff in Hq. destruct Hq as [Hq1 Hq2].
    apply forallb_Forall_true in Hidle.
    destruct (convert_event_quiet scale_delta c ev Hwf Hs Hidle Hq1)
      as (c1 & H1 & Hwf1 & Hs1 & Hidle1).
    apply forallb_Forall_true in Hidle1.
    destruct (IH c1 Hwf1 Hs1 Hidle1 Hq2) as (c' & H2 & Hidle2).
    exists c'. split; [|exact Hidle2].
    cbn [Relative.convert_events]. rewrite H1.
    change (0 =? 0) with true. cbv iota. rewrite H2. reflexivity.
Qed.

Lemma relative_quiet_events_write_nothing_witness :
  exists c',
    Relative.convert_events (fun d => d)
      (Relative.touch_report (Relative.stamp 1 0) 0 400 800 ++
       Relative.move_report (Relative.stamp 1 20000) 450 850)
      Relative.example_context = Some (c', []) /\
    forallb Relative.idle (Relative.fingers c') = true.
Proof.
  apply (relative_quiet_events_write_nothing (fun d => d)
           (Relative.touch_report (Relative.stamp 1 0) 0 400 800 ++
            Relative.move_report (Relative.stamp 1 20000) 450 850)
           Relative.example_context);
    [reflexivity | vm_compute; congruence | reflexivity | reflexivity].
Defined.

(** ** A touch followed through its reports *)

Lemma to_int64_small (z : Z) :
  - 2 ^ 63 <= z < 2 ^ 63 -> Relative.to_int64 z = z.
Proof.
  unfold Relative.to_int64. intros H. rewrite Z.mod_small; lia.
Qed.

Lemma touch_time_elapsed (f : Relative.finger) :
  Relative.valid_time (Relative.start_time f) = true ->
  Relative.valid_time (Relative.end_time f) = true ->
  Relative.touch_time f =
    Relative.elapsed_us (Relative.start_time f) (Relative.end_time f).
Proof.
  unfold Relative.valid_time, Relative.touch_time, Relative.elapsed_us.
  intros H0 H1. bool_to_prop.
  rewrite (to_int64_small (Relative.tv_sec _ - Relative.tv_sec _)) by lia.
  rewrite (to_int64_small (Relative.tv_usec _ - Relative.tv_usec _)) by lia.
  rewrite (to_int64_small (_ * 1000000)) by lia.
  apply to_int64_small. lia.
Qed.

Lemma convert_event_status (scale_delta : Z -> Z)
  (ev : Relative.input_event) (c c' : Relative.trackscreen_context)
  (status : Z) (out : list struct_input_event) :
  Relative.convert_event scale_delta ev c = Some (status, c', out) ->
  status = 0.
Proof.
  unfold Relative.convert_event, Relative.process_report.
  repeat match goal with
         | |- context [if ?b then _ else _] => destruct b
         | |- context [match ?o with Some _ => _ | None => _ end] =>
             destruct o
         | |- context [let '(_, _) := ?p in _] => destruct p
         end;
    intros H; inversion H; reflexivity.
Qed.

Lemma convert_events_app (scale_delta : Z -> Z)
  (evs1 evs2 : list Relative.input_event) :
  forall c : Relative.trackscreen_context,
  Relative.convert_events scale_delta (evs1 ++ evs2) c =
    match Relative.convert_events scale_delta evs1 c with
    | Some (c1, out1) =>
        match Relative.convert_events scale_delta evs2 c1 with
        | Some (c2, out2) => Some (c2, out1 ++ out2)
        | None => None
        end
    | None => None
    end.
Proof.
  induction evs1 as [|ev evs1 IH]; intros c.
  - cbn [app Relative.convert_events].
    destruct (Relative.convert_events scale_delta evs2 c) as [[c2 out2]|];
      reflexivity.
  - cbn [app Relative.convert_events].
    destruct (Relative.convert_event scale_delta ev c)
      as [[[status c'] out]|] eqn:E; [|reflexivity].
    rewrite (convert_event_status _ _ _ _ _ _ E).
    change (0 =? 0) with true. cbv iota. rewrite IH.
    destruct (Relative.convert_events scale_delta evs1 c')
      as [[c1 out1]|]; [|reflexivity].
    destruct (Relative.convert_events scale_delta evs2 c1)
      as [[c2 out2]|]; [|reflexivity].
    rewrite app_assoc. reflexivity.
Qed.

Lemma slot_finger_intro (c : Relative.trackscreen_context) :
  Relative.wf c -> 0 <= Relative.current_slot c < Relative.MAX_FINGERS ->
  forallb Relative.idle (Relative.fingers c) = true ->
  exists f, Relative.slot_finger c c f /\ Relative.idle f = true.
Proof.
  unfold Relative.wf, Relative.MAX_FINGERS. intros Hwf Hs Hidle.
  destruct (lookup_lt_is_Some_2 (Relative.fingers c)
              (Z.to_nat (Relative.current_slot c))) as [f Hf];
    [rewrite Hwf; lia|].
  pose proof (take_drop_middle _ _ _ Hf) as Hsplit.
  rewrite <- Hsplit in Hidle. rewrite forallb_app in Hidle.
  cbn [forallb] in Hidle. bool_to_prop.
  exists f. split; [|assumption].
  exists (take (Z.to_nat (Relative.current_slot c)) (Relative.fingers c)),
         (drop (S (Z.to_nat (Relative.current_slot c))) (Relative.fingers c)).
  split; [|split; [|split; assumption]].
  - rewrite Hsplit. destruct c; reflexivity.
  - rewrite length_take, Hwf. lia.
Qed.

Lemma slot_update (c0 c : Relative.trackscreen_context)
  (f : Relative.finger) (g : Relative.finger -> Relative.finger) :
  Relative.slot_finger c0 c f ->
  exists c',
    (if Relative.current_slot c <? Relative.MAX_FINGERS then
       match Relative.update_finger c (Relative.current_slot c) g with
       | Some c' => Some (0, c', [])
       | None => None
       end
     else Some (0, c, [])) = Some (0, c', @nil struct_input_event) /\
    (Relative.current_slot c0 < Relative.MAX_FINGERS ->
     Relative.slot_finger c0 c' (g f)).
Proof.
  intros (l1 & l2 & -> & Hs & H1 & H2).
  cbn [Relative.current_slot Relative.set_fingers].
  destruct (Relative.current_slot c0 <? Relative.MAX_FINGERS) eqn:E.
  - unfold Relative.update_finger.
    cbn [Relative.fingers Relative.set_fingers Relative.current_slot].
    rewrite Hs, Nat2Z.id.
    replace ((0 <=? Z.of_nat (length l1)) &&
             (Z.of_nat (length l1) <?
              Z.of_nat (length (l1 ++ f :: l2)))) with true
      by (symmetry; apply andb_true_iff; rewrite length_app;
          cbn [length]; split; [apply Z.leb_le|apply Z.ltb_lt]; lia).
    rewrite list_lookup_middle by reflexivity.
    eexists. split; [reflexivity|]. intros _.
    exists l1, l2. split; [|split; [exact Hs|split; assumption]].
    rewrite insert_app_r_alt by lia. rewrite Nat.sub_diag. reflexivity.
  - eexists. split; [reflexivity|]. bool_to_prop. lia.
Qed.

Lemma report_fingers_middle (c : Relative.trackscreen_context)
  (l1 l2 : list Relative.finger) (f f' : Relative.finger)
  (acc acc' : Z * Z * Z) :
  forallb Relative.idle l1 = true -> forallb Relative.idle l2 = true ->
  Relative.report_finger c f acc = (f', acc') ->
  Relative.report_fingers c (l1 ++ f :: l2) acc =
    (map Relative.set_prev l1 ++ f' :: map Relative.set_prev l2, acc').
Proof.
  intros H1 H2 Hf. induction l1 as [|a l1 IH].
  - cbn [app map Relative.report_fingers]. rewrite Hf.
    apply forallb_Forall_true in H2.
    rewrite (report_fingers_idle c l2 acc' H2). reflexivity.
  - cbn [forallb] in H1. bool_to_prop.
    cbn [app map Relative.report_fingers].
    rewrite (report_finger_idle c a acc) by assumption.
    rewrite IH by assumption. reflexivity.
Qed.

Lemma forallb_idle_settled (l : list Relative.finger) :
  forallb Relative.idle l = true ->
  forallb Relative.idle (map Relative.set_prev l) = true.
Proof.
  induction l as [|a l IH]; [reflexivity|].
  cbn [forallb map]. intros H. bool_to_prop.
  rewrite set_prev_idle by assumption. apply IH. assumption.
Qed.

(** The loop of [process_report] seen from the finger of the cursor. *)
Lemma slot_report (c0 c : Relative.trackscreen_context)
  (f f' : Relative.finger) (acc' : Z * Z * Z) :
  Relative.slot_finger c0 c f ->
  Relative.report_finger c0 f (0, 0, 0) = (f', acc') ->
  exists fs',
    Relative.report_fingers c (Relative.fingers c) (0, 0, 0) = (fs', acc') /\
    Relative.slot_finger c0 (Relative.set_fingers fs' c) f'.
Proof.
  intros (l1 & l2 & -> & Hs & H1 & H2) Hf.
  cbn [Relative.fingers Relative.set_fingers].
  eexists. split.
  - apply report_fingers_middle; [assumption|assumption|exact Hf].
  - exists (map Relative.set_prev l1), (map Relative.set_prev l2).
    split; [reflexivity|]. rewrite length_map.
    split; [exact Hs|]. split; apply forallb_idle_settled; assumption.
Qed.

Lemma convert_events_cons (scale_delta : Z -> Z)
  (ev : Relative.input_event) (evs : list Relative.input_event)
  (c c' : Relative.trackscreen_context) (out : list struct_input_event) :
  Relative.convert_event scale_delta ev c = Some (0, c', out) ->
  Relative.convert_events scale_delta (ev :: evs) c =
    match Relative.convert_events scale_delta evs c' with
    | Some (c'', out') => Some (c'', out ++ out')
    | None => None
    end.
Proof. intros H. cbn [Relative.convert_events]. rewrite H. reflexivity. Qed.

Lemma convert_position_x (scale_delta : Z -> Z) (t : Relative.timeval)
  (v : Z) (c0 c : Relative.trackscreen_context) (f : Relative.finger) :
  Relative.slot_finger c0 c f ->
  Relative.current_slot c0 < Relative.MAX_FINGERS ->
  exists c',
    Relative.convert_event scale_delta
      (Relative.mk_event t EV_ABS ABS_MT_POSITION_X v) c =
      Some (0, c', []) /\
    Relative.slot_finger c0 c' (Relative.set_x v f).
Proof.
  intros Hslot Hs.
  destruct (slot_update c0 c f (Relative.set_x v) Hslot) as (c' & H & Hc').
  exists c'. split; [exact H|exact (Hc' Hs)].
Qed.

Lemma convert_position_y (scale_delta : Z -> Z) (t : Relative.timeval)
  (v : Z) (c0 c : Relative.trackscreen_context) (f : Relative.finger) :
  Relative.slot_finger c0 c f ->
  Relative.current_slot c0 < Relative.MAX_FINGERS ->
  exists c',
    Relative.convert_event scale_delta
      (Relative.mk_event t EV_ABS ABS_MT_POSITION_Y v) c =
      Some (0, c', []) /\
    Relative.slot_finger c0 c' (Relative.set_y v f).
Proof.
  intros Hslot Hs.
  destruct (slot_update c0 c f (Relative.set_y v) Hslot) as (c' & H & Hc').
  exists c'. split; [exact H|exact (Hc' Hs)].
Qed.

Lemma convert_tracking_id (scale_delta : Z -> Z) (t : Relative.timeval)
  (v : Z) (c0 c : Relative.trackscreen_context) (f : Relative.finger) :
  Relative.slot_finger c0 c f ->
  Relative.current_slot c0 < Relative.MAX_FINGERS ->
  exists c',
    Relative.convert_event scale_delta
      (Relative.mk_event t EV_ABS ABS_MT_TRACKING_ID v) c =
      Some (0, c', []) /\
    Relative.slot_finger c0 c'
      (Relative.track_finger
         (Relative.mk_event t EV_ABS ABS_MT_TRACKING_ID v) f).
Proof.
  intros Hslot Hs.
  destruct (slot_update c0 c f
              (Relative.track_finger
                 (Relative.mk_event t EV_ABS ABS_MT_TRACKING_ID v)) Hslot)
    as (c' & H & Hc').
  exists c'. split; [exact H|exact (Hc' Hs)].
Qed.

(** A sync report in which the finger of the cursor adds [acc] to the
    accumulators. *)
Lemma convert_sync (scale_delta : Z -> Z) (t : Relative.timeval)
  (c0 c : Relative.trackscreen_context) (f f' : Relative.finger)
  (acc' : Z * Z * Z) :
  Relative.slot_finger c0 c f ->
  Relative.report_finger c0 f (0, 0, 0) = (f', acc') ->
  exists fs',
    Relative.report_fingers c (Relative.fingers c) (0, 0, 0) = (fs', acc') /\
    Relative.convert_event scale_delta
      (Relative.mk_event t EV_SYN SYN_REPORT 0) c =
      Some (Relative.process_report scale_delta c) /\
    Relative.slot_finger c0 (Relative.set_fingers fs' c) f'.
Proof.
  intros Hslot Hf.
  destruct (slot_report c0 c f f' acc' Hslot Hf) as (fs' & H1 & H2).
  exists fs'. split; [exact H1|]. split; [reflexivity|exact H2].
Qed.

(** The touch-down report: nothing is written, and the finger is recorded
    as down at the position of the report, with the flag of a start inside
    the box. *)
Lemma touch_report_lands (scale_delta : Z -> Z) (t : Relative.timeval)
  (id px py : Z) (c0 c : Relative.trackscreen_context)
  (f : Relative.finger) :
  Relative.slot_finger c0 c f ->
  Relative.current_slot c0 < Relative.MAX_FINGERS ->
  Relative.idle f = true -> 0 < id ->
  exists c' f',
    Relative.convert_events scale_delta
      (Relative.touch_report t id px py) c = Some (c', []) /\
    Relative.slot_finger c0 c' f' /\
    Relative.on f' = id /\ Relative.prev_on f' = id /\
    Relative.x f' = px /\ Relative.prev_x f' = px /\
    Relative.y f' = py /\ Relative.prev_y f' = py /\
    Relative.start_time f' = t /\
    Relative.started_in_bounds f' =
      (if (px >=? Relative.tp_min_x c0) && (px <? Relative.tp_max_x c0) &&
          (py >=? Relative.tp_min_y c0) && (py <? Relative.tp_max_y c0)
       then 1 else 0).
Proof.
  intros Hslot Hs Hidle Hid.
  unfold Relative.idle in Hidle. bool_to_prop.
  destruct (convert_tracking_id scale_delta t id c0 c f Hslot Hs)
    as (c1 & E1 & Hslot1).
  unfold Relative.track_finger in Hslot1.
  cbn [Relative.value] in Hslot1.
  replace (id <? 0) with false in Hslot1 by (symmetry; apply Z.ltb_ge; lia).
  replace (Relative.on f =? 0) with true in Hslot1
    by (symmetry; apply Z.eqb_eq; assumption).
  destruct (convert_position_x scale_delta t px c0 c1 _ Hslot1 Hs)
    as (c2 & E2 & Hslot2).
  destruct (convert_position_y scale_delta t py c0 c2 _ Hslot2 Hs)
    as (c3 & E3 & Hslot3).
  set (f3 := Relative.set_y py
               (Relative.set_x px
                  (Relative.set_on id (Relative.set_start_time t f)))) in *.
  assert (Hf3 : Relative.report_finger c0 f3 (0, 0, 0) =
                (Relative.set_prev
                   (Relative.set_started_in_bounds
                      (if Relative.touch_in_box c0 f3 then 1 else 0) f3),
                 (0, 0, 0))).
  { unfold Relative.report_finger.
    change (Relative.on f3) with id.
    change (Relative.prev_on f3) with (Relative.prev_on f).
    replace (Relative.prev_on f) with 0 by (symmetry; assumption).
    replace (id =? 0) with false by (symmetry; apply Z.eqb_neq; lia).
    change (negb false) with true. cbv iota beta.
    cbn [Relative.on Relative.prev_on Relative.set_started_in_bounds].
    change (Relative.on f3) with id.
    change (Relative.prev_on f3) with (Relative.prev_on f).
    replace (Relative.prev_on f) with 0 by (symmetry; assumption).
    replace (id =? 0) with false by (symmetry; apply Z.eqb_neq; lia).
    reflexivity. }
  destruct (convert_sync scale_delta t c0 c3 f3 _ _ Hslot3 Hf3)
    as (fs' & Hfs & E4 & Hslot4).
  assert (E4' : Relative.convert_event scale_delta
                  (Relative.mk_event t EV_SYN SYN_REPORT 0) c3 =
                Some (0, Relative.set_fingers fs' c3, [])).
  { rewrite E4. unfold Relative.process_report. rewrite Hfs. reflexivity. }
  eexists _, _. split; [|split; [exact Hslot4|]].
  - unfold Relative.touch_report.
    rewrite (convert_events_cons _ _ _ _ _ _ E1).
    rewrite (convert_events_cons _ _ _ _ _ _ E2).
    rewrite (convert_events_cons _ _ _ _ _ _ E3).
    rewrite (convert_events_cons _ _ _ _ _ _ E4').
    reflexivity.
  - repeat split.
Qed.

Lemma int_add_0_sub (a b : Z) : int_add 0 (int_sub a b) = int_sub a b.
Proof.
  unfold int_add, int_sub. rewrite Z.add_0_l. apply to_int_range.
  unfold int_range, INT_MIN, INT_MAX, to_int.
  pose proof (Z.mod_pos_bound (a - b + 2 ^ 31) (2 ^ 32)). lia.
Qed.

Lemma slot_finger_idle (c0 c : Relative.trackscreen_context)
  (f : Relative.finger) :
  Relative.slot_finger c0 c f -> Relative.idle f = true ->
  forallb Relative.idle (Relative.fingers c) = true.
Proof.
  intros (l1 & l2 & -> & _ & H1 & H2) Hf.
  cbn [Relative.fingers Relative.set_fingers].
  rewrite forallb_app. cbn [forallb]. rewrite H1, H2, Hf. reflexivity.
Qed.

(** The position events of a move report on a finger that is down, and
    what the finger adds to the accumulators at the sync report. *)
Lemma move_positions (scale_delta : Z -> Z) (t : Relative.timeval)
  (qx qy : Z) (c0 c : Relative.trackscreen_context) (f : Relative.finger) :
  Relative.slot_finger c0 c f ->
  Relative.current_slot c0 < Relative.MAX_FINGERS ->
  Relative.on f <> 0 -> Relative.prev_on f = Relative.on f ->
  exists c' fs',
    Relative.convert_events scale_delta
      [Relative.mk_event t EV_ABS ABS_MT_POSITION_X qx;
       Relative.mk_event t EV_ABS ABS_MT_POSITION_Y qy] c = Some (c', []) /\
    Relative.report_fingers c' (Relative.fingers c') (0, 0, 0) =
      (fs',
       if Relative.started_in_bounds f =? 0 then (0, 0, 0)
       else (0, int_sub qx (Relative.prev_x f),
             int_sub qy (Relative.prev_y f))) /\
    Relative.slot_finger c0 (Relative.set_fingers fs' c')
      (Relative.set_prev (Relative.set_y qy (Relative.set_x qx f))).
Proof.
  intros Hslot Hs Hon Hprev.
  destruct (convert_position_x scale_delta t qx c0 c _ Hslot Hs)
    as (c1 & E1 & Hslot1).
  destruct (convert_position_y scale_delta t qy c0 c1 _ Hslot1 Hs)
    as (c2 & E2 & Hslot2).
  set (f2 := Relative.set_y qy (Relative.set_x qx f)) in *.
  assert (Hf2 : Relative.report_finger c0 f2 (0, 0, 0) =
                (Relative.set_prev f2,
                 if Relative.started_in_bounds f =? 0 then (0, 0, 0)
                 else (0, int_sub qx (Relative.prev_x f),
                       int_sub qy (Relative.prev_y f)))).
  { unfold Relative.report_finger.
    change (Relative.on f2) with (Relative.on f).
    change (Relative.prev_on f2) with (Relative.prev_on f).
    change (Relative.started_in_bounds f2)
      with (Relative.started_in_bounds f).
    rewrite Hprev, Z.eqb_refl. change (negb true) with false.
    cbv iota beta.
    change (Relative.on f2) with (Relative.on f).
    change (Relative.prev_on f2) with (Relative.prev_on f).
    change (Relative.started_in_bounds f2)
      with (Relative.started_in_bounds f).
    change (Relative.x f2) with qx. change (Relative.y f2) with qy.
    change (Relative.prev_x f2) with (Relative.prev_x f).
    change (Relative.prev_y f2) with (Relative.prev_y f).
    rewrite Hprev.
    replace (Relative.on f =? 0) with false
      by (symmetry; apply Z.eqb_neq; assumption).
    destruct (Relative.started_in_bounds f =? 0);
      cbn [negb andb]; rewrite ?int_add_0_sub; reflexivity. }
  destruct (slot_report c0 c2 f2 _ _ Hslot2 Hf2) as (fs' & Hfs & Hslot3).
  exists c2, fs'. split; [|split; [exact Hfs|exact Hslot3]].
  rewrite (convert_events_cons _ _ _ _ _ _ E1).
  rewrite (convert_events_cons _ _ _ _ _ _ E2).
  reflexivity.
Qed.

Lemma convert_events_sync (scale_delta : Z -> Z) (t : Relative.timeval)
  (c : Relative.trackscreen_context) :
  Relative.convert_events scale_delta
    [Relative.mk_event t EV_SYN SYN_REPORT 0] c =
    Some (snd (fst (Relative.process_report scale_delta c)),
          snd (Relative.process_report scale_delta c)).
Proof.
  cbn [Relative.convert_events].
  change (Relative.convert_event scale_delta
            (Relative.mk_event t EV_SYN SYN_REPORT 0) c)
    with (Some (Relative.process_report scale_delta c)).
  cbv iota beta.
  destruct (Relative.process_report scale_delta c) as [[status c'] out] eqn:E.
  assert (Hst : status = 0).
  { unfold Relative.process_report in E.
    repeat match type of E with
           | context [if ?b then _ else _] => destruct b
           | context [let '(_, _) := ?p in _] => destruct p
           end; inversion E; reflexivity. }
  rewrite Hst. cbn [fst snd]. rewrite app_nil_r. reflexivity.
Qed.

(** A touch that began outside the box writes nothing while it moves. *)
Lemma moves_outside (scale_delta : Z -> Z)
  (c0 : Relative.trackscreen_context)
  (ps : list (Relative.timeval * Z * Z)) :
  forall (c : Relative.trackscreen_context) (f : Relative.finger),
  Relative.slot_finger c0 c f ->
  Relative.current_slot c0 < Relative.MAX_FINGERS ->
  Relative.on f <> 0 -> Relative.prev_on f = Relative.on f ->
  Relative.started_in_bounds f = 0 ->
  exists c',
    Relative.convert_events scale_delta (Relative.move_reports ps) c =
      Some (c', []).
Proof.
  induction ps as [|[[t qx] qy] ps IH]; intros c f Hslot Hs Hon Hprev Hsib.
  - exists c. reflexivity.
  - destruct (move_positions scale_delta t qx qy c0 c f Hslot Hs Hon Hprev)
      as (c1 & fs' & E1 & Hfs & Hslot1).
    rewrite Hsib in Hfs. change (0 =? 0) with true in Hfs. cbv iota in Hfs.
    destruct (IH _ _ Hslot1 Hs) as (c' & E2);
      [exact Hon|reflexivity|exact Hsib|].
    exists c'.
    change (Relative.move_reports ((t, qx, qy) :: ps))
      with ([Relative.mk_event t EV_ABS ABS_MT_POSITION_X qx;
             Relative.mk_event t EV_ABS ABS_MT_POSITION_Y qy] ++
            [Relative.mk_event t EV_SYN SYN_REPORT 0] ++
            Relative.move_reports ps).
    rewrite convert_events_app, E1, convert_events_app, convert_events_sync.
    unfold Relative.process_report. rewrite Hfs.
    cbn [fst snd negb Z.eqb Z.lor app]. rewrite E2. reflexivity.
Qed.

Lemma started_flag (c : Relative.trackscreen_context) (px py : Z) :
  (if (px >=? Relative.tp_min_x c) && (px <? Relative.tp_max_x c) &&
      (py >=? Relative.tp_min_y c) && (py <? Relative.tp_max_y c)
   then 1 else 0) = 0 <->
  ~ (Relative.tp_min_x c <= px < Relative.tp_max_x c /\
     Relative.tp_min_y c <= py < Relative.tp_max_y c).
Proof.
  destruct ((px >=? Relative.tp_min_x c) && (px <? Relative.tp_max_x c) &&
            (py >=? Relative.tp_min_y c) && (py <? Relative.tp_max_y c))
    eqn:E.
  - bool_to_prop. split; [discriminate|]. intros Hn. exfalso. apply Hn. lia.
  - split; [|reflexivity]. intros _ Hn.
    rewrite !Z.geb_leb in E.
    repeat (apply andb_false_iff in E; destruct E as [E|E]);
      bool_to_prop; lia.
Qed.

(** X14: A touch and its lift: the lift report writes a click of the left
    button (press, sync, release, sync) when the finger was down for at
    most [TAP_TIME_US] microseconds, and nothing otherwise, wherever on the
    screen the finger was; the touch-down report writes nothing, and all
    fingers are idle again afterwards. *)
Theorem relative_touch_and_lift (scale_delta : Z -> Z)
  (c : Relative.trackscreen_context) (t0 t1 : Relative.timeval)
  (id px py : Z) :
  Relative.wf c -> 0 <= Relative.current_slot c < Relative.MAX_FINGERS ->
  forallb Relative.idle (Relative.fingers c) = true ->
  0 < id ->
  Relative.valid_time t0 = true -> Relative.valid_time t1 = true ->
  exists c1 c',
    Relative.convert_events scale_delta
      (Relative.touch_report t0 id px py) c = Some (c1, []) /\
    Relative.convert_events scale_delta (Relative.lift_report t1) c1 =
      Some (c', if Relative.elapsed_us t0 t1 <=? Relative.TAP_TIME_US
                then Relative.click_sequence else []) /\
    forallb Relative.idle (Relative.fingers c') = true.
Proof.
  intros Hwf Hs Hidle Hid Ht0 Ht1.
  destruct (slot_finger_intro c Hwf Hs Hidle) as (f & Hslot & Hf).
  destruct (touch_report_lands scale_delta t0 id px py c c f Hslot
              (proj2 Hs) Hf Hid)
    as (c1 & f1 & E1 & Hslot1 & Hon & Hprev & _ & _ & _ & _ & Hst & _).
  destruct (convert_tracking_id scale_delta t1 (-1) c c1 f1 Hslot1 (proj2 Hs))
    as (c2 & E2 & Hslot2).
  unfold Relative.track_finger in Hslot2. cbn [Relative.value] in Hslot2.
  change (-1 <? 0) with true in Hslot2.
  replace (Relative.on f1 >? 0) with true in Hslot2
    by (symmetry; apply Z.gtb_lt; lia).
  cbv iota in Hslot2.
  set (f2 := Relative.set_on 0 (Relative.set_end_time t1 f1)) in *.
  assert (Htime : Relative.touch_time f2 = Relative.elapsed_us t0 t1).
  { rewrite touch_time_elapsed.
    - change (Relative.start_time f2) with (Relative.start_time f1).
      rewrite Hst. reflexivity.
    - change (Relative.start_time f2) with (Relative.start_time f1).
      rewrite Hst. exact Ht0.
    - exact Ht1. }
  assert (Hf2 : Relative.report_finger c f2 (0, 0, 0) =
                (Relative.set_prev f2,
                 (if Relative.elapsed_us t0 t1 <=? Relative.TAP_TIME_US
                  then 1 else 0, 0, 0))).
  { unfold Relative.report_finger.
    change (Relative.on f2) with 0.
    change (Relative.prev_on f2) with (Relative.prev_on f1).
    rewrite Hprev.
    replace (0 =? id) with false by (symmetry; apply Z.eqb_neq; lia).
    change (negb false) with true. change (0 =? 0) with true.
    cbv iota beta. rewrite Htime. reflexivity. }
  destruct (slot_report c c2 f2 _ _ Hslot2 Hf2) as (fs' & Hfs & Hslot3).
  exists c1. eexists. split; [exact E1|]. split.
  - unfold Relative.lift_report.
    rewrite (convert_events_cons _ _ _ _ _ _ E2), convert_events_sync.
    unfold Relative.process_report. rewrite Hfs.
    destruct (Relative.elapsed_us t0 t1 <=? Relative.TAP_TIME_US);
      reflexivity.
  - apply (slot_finger_idle c _ _ Hslot3).
    unfold Relative.idle. reflexivity.
Qed.

Lemma relative_touch_and_lift_witness :
  exists c1 c',
    Relative.convert_events (fun d => d)
      (Relative.touch_report (Relative.stamp 1 0) 7 100 100)
      Relative.example_context = Some (c1, []) /\
    Relative.convert_events (fun d => d)
      (Relative.lift_report (Relative.stamp 1 50000)) c1 =
      Some (c', if Relative.elapsed_us (Relative.stamp 1 0)
                     (Relative.stamp 1 50000) <=? Relative.TAP_TIME_US
                then Relative.click_sequence else []) /\
    forallb Relative.idle (Relative.fingers c') = true.
Proof.
  apply (relative_touch_and_lift (fun d => d) Relative.example_context
           (Relative.stamp 1 0) (Relative.stamp 1 50000) 7 100 100);
    [reflexivity | vm_compute; split; congruence | reflexivity | lia
    | reflexivity | reflexivity].
Defined.

(** X15: A touch that comes down outside the trackpad box writes nothing, and
    neither does any move of it afterwards, also when it moves into the
    box: the box is tested once, on the report of the touch-down. *)
Theorem relative_touch_outside_never_moves (scale_delta : Z -> Z)
  (c : Relative.trackscreen_context) (t : Relative.timeval) (id px py : Z)
  (ps : list (Relative.timeval * Z * Z)) :
  Relative.wf c -> 0 <= Relative.current_slot c < Relative.MAX_FINGERS ->
  forallb Relative.idle (Relative.fingers c) = true ->
  0 < id ->
  ~ (Relative.tp_min_x c <= px < Relative.tp_max_x c /\
     Relative.tp_min_y c <= py < Relative.tp_max_y c) ->
  exists c',
    Relative.convert_events scale_delta
      (Relative.touch_report t id px py ++ Relative.move_reports ps) c =
      Some (c', []).
Proof.
  intros Hwf Hs Hidle Hid Hout.
  destruct (slot_finger_intro c Hwf Hs Hidle) as (f & Hslot & Hf).
  destruct (touch_report_lands scale_delta t id px py c c f Hslot
              (proj2 Hs) Hf Hid)
    as (c1 & f1 & E1 & Hslot1 & Hon & Hprev & _ & _ & _ & _ & _ & Hsib).
  apply started_flag in Hout. rewrite Hout in Hsib.
  destruct (moves_outside scale_delta c ps c1 f1 Hslot1 (proj2 Hs))
    as (c' & E2); [lia|congruence|exact Hsib|].
  exists c'. rewrite convert_events_app, E1, E2. reflexivity.
Qed.

Lemma relative_touch_outside_never_moves_witness :
  exists c',
    Relative.convert_events (fun d => d)
      (Relative.touch_report (Relative.stamp 1 0) 7 100 100 ++
       Relative.move_reports
         [(Relative.stamp 1 20000, 400, 800);
          (Relative.stamp 1 40000, 450, 850)])
      Relative.example_context = Some (c', []).
Proof.
  apply (relative_touch_outside_never_moves (fun d => d)
           Relative.example_context (Relative.stamp 1 0) 7 100 100
           [(Relative.stamp 1 20000, 400, 800);
            (Relative.stamp 1 40000, 450, 850)]);
    [reflexivity | vm_compute; split; congruence | reflexivity | lia
    | vm_compute; intros [[H _] _]; apply H; reflexivity].
Defined.

(** A touch that comes down inside the box, then a move report: the
    report is processed with the displacement from the touch-down in the
    accumulators. *)
Lemma touch_inside_move (scale_delta : Z -> Z)
  (c : Relative.trackscreen_context) (t0 t1 : Relative.timeval)
  (id px py qx qy : Z) :
  Relative.wf c -> 0 <= Relative.current_slot c < Relative.MAX_FINGERS ->
  forallb Relative.idle (Relative.fingers c) = true ->
  0 < id ->
  Relative.tp_min_x c <= px < Relative.tp_max_x c ->
  Relative.tp_min_y c <= py < Relative.tp_max_y c ->
  exists c2 fs',
    Relative.report_fingers c2 (Relative.fingers c2) (0, 0, 0) =
      (fs', (0, int_sub qx px, int_sub qy py)) /\
    Relative.convert_events scale_delta
      (Relative.touch_report t0 id px py ++
       Relative.move_report t1 qx qy) c =
      Some (snd (fst (Relative.process_report scale_delta c2)),
            snd (Relative.process_report scale_delta c2)).
Proof.
  intros Hwf Hs Hidle Hid Hx Hy.
  destruct (slot_finger_intro c Hwf Hs Hidle) as (f & Hslot & Hf).
  destruct (touch_report_lands scale_delta t0 id px py c c f Hslot
              (proj2 Hs) Hf Hid)
    as (c1 & f1 & E1 & Hslot1 & Hon & Hprev & _ & Hpx & _ & Hpy & _ & Hsib).
  assert (Hin : Relative.started_in_bounds f1 = 1).
  { rewrite Hsib.
    replace ((px >=? Relative.tp_min_x c) && (px <? Relative.tp_max_x c) &&
             (py >=? Relative.tp_min_y c) && (py <? Relative.tp_max_y c))
      with true; [reflexivity|].
    symmetry. rewrite !Z.geb_leb, !andb_true_iff, !Z.leb_le, !Z.ltb_lt.
    lia. }
  destruct (move_positions scale_delta t1 qx qy c c1 f1 Hslot1 (proj2 Hs))
    as (c2 & fs' & E2 & Hfs & _); [lia|congruence|].
  rewrite Hin, Hpx, Hpy in Hfs. change (1 =? 0) with false in Hfs.
  cbv iota in Hfs.
  exists c2, fs'. split; [exact Hfs|].
  change (Relative.move_report t1 qx qy)
    with ([Relative.mk_event t1 EV_ABS ABS_MT_POSITION_X qx;
           Relative.mk_event t1 EV_ABS ABS_MT_POSITION_Y qy] ++
          [Relative.mk_event t1 EV_SYN SYN_REPORT 0]).
  rewrite convert_events_app, E1, convert_events_app, E2,
    convert_events_sync.
  reflexivity.
Qed.

(** X16: A touch that comes down inside the trackpad box and then moves: the
    move report writes the scaled X displacement, the scaled Y displacement
    when the Y coordinate changed, and a sync report, the displacements
    being taken from the position of the touch-down. *)
Theorem relative_touch_inside_moves (scale_delta : Z -> Z)
  (c : Relative.trackscreen_context) (t0 t1 : Relative.timeval)
  (id px py qx qy : Z) :
  Relative.wf c -> 0 <= Relative.current_slot c < Relative.MAX_FINGERS ->
  forallb Relative.idle (Relative.fingers c) = true ->
  0 < id ->
  Relative.tp_min_x c <= px < Relative.tp_max_x c ->
  Relative.tp_min_y c <= py < Relative.tp_max_y c ->
  int_sub qx px <> 0 -> scale_delta (int_sub qx px) <> 0 ->
  exists c',
    Relative.convert_events scale_delta
      (Relative.touch_report t0 id px py ++
       Relative.move_report t1 qx qy) c =
      Some (c',
            mk_input_event Relative.EV_REL Relative.REL_X
              (scale_delta (int_sub qx px)) ::
            (if int_sub qy py =? 0 then []
             else [mk_input_event Relative.EV_REL Relative.REL_Y
                     (scale_delta (int_sub qy py))]) ++
            [mk_input_event EV_SYN SYN_REPORT 0]).
Proof.
  intros Hwf Hs Hidle Hid Hx Hy Hdx Hsx.
  destruct (touch_inside_move scale_delta c t0 t1 id px py qx qy
              Hwf Hs Hidle Hid Hx Hy) as (c2 & fs' & Hfs & ->).
  eexists.
  unfold Relative.process_report. rewrite Hfs.
  replace (int_sub qx px =? 0) with false
    by (symmetry; apply Z.eqb_neq; assumption).
  change (negb false) with true. cbv iota beta.
  replace (scale_delta (int_sub qx px) =? 0) with false
    by (symmetry; apply Z.eqb_neq; assumption).
  change (negb false) with true. cbv iota beta.
  change (0 =? 0) with true. change (negb true) with false.
  cbv iota beta.
  destruct (int_sub qy py =? 0) eqn:Edy.
  - change (negb true) with false. cbv iota beta.
    apply Z.eqb_eq in Edy. rewrite Edy, !Z.lor_0_r.
    replace (scale_delta (int_sub qx px) =? 0) with false
      by (symmetry; apply Z.eqb_neq; assumption).
    reflexivity.
  - change (negb false) with true. cbv iota beta.
    replace (Z.lor (Z.lor (scale_delta (int_sub qx px))
                      (scale_delta (int_sub qy py))) 0 =? 0) with false.
    + reflexivity.
    + symmetry. apply Z.eqb_neq. rewrite Z.lor_0_r.
      intros H. apply Z.lor_eq_0_iff in H. tauto.
Qed.

Lemma relative_touch_inside_moves_witness :
  exists c',
    Relative.convert_events (fun d => d * 2)
      (Relative.touch_report (Relative.stamp 1 0) 7 400 800 ++
       Relative.move_report (Relative.stamp 1 20000) 410 795)
      Relative.example_context =
      Some (c',
            mk_input_event Relative.EV_REL Relative.REL_X
              ((int_sub 410 400) * 2) ::
            (if int_sub 795 800 =? 0 then []
             else [mk_input_event Relative.EV_REL Relative.REL_Y
                     ((int_sub 795 800) * 2)]) ++
            [mk_input_event EV_SYN SYN_REPORT 0]).
Proof.
  apply (relative_touch_inside_moves (fun d => d * 2)
           Relative.example_context (Relative.stamp 1 0)
           (Relative.stamp 1 20000) 7 400 800 410 795);
    [reflexivity | vm_compute; split; congruence | reflexivity | lia
    | vm_compute; split; congruence | vm_compute; split; congruence
    | vm_compute; congruence | vm_compute; congruence].
Defined.

(** X17: Displacements that the scale brings to zero are not treated alike on
    the two axes: an X displacement scaled to zero writes nothing, a Y
    displacement scaled to zero is written as a [REL_Y] event of value 0,
    and no sync report follows it. *)
Theorem relative_motion_scaled_to_zero (scale_delta : Z -> Z)
  (c : Relative.trackscreen_context) (t0 t1 : Relative.timeval)
  (id px py qx qy : Z) :
  Relative.wf c -> 0 <= Relative.current_slot c < Relative.MAX_FINGERS ->
  forallb Relative.idle (Relative.fingers c) = true ->
  0 < id ->
  Relative.tp_min_x c <= px < Relative.tp_max_x c ->
  Relative.tp_min_y c <= py < Relative.tp_max_y c ->
  int_sub qx px <> 0 -> scale_delta (int_sub qx px) = 0 ->
  int_sub qy py <> 0 -> scale_delta (int_sub qy py) = 0 ->
  (exists c',
     Relative.convert_events scale_delta
       (Relative.touch_report t0 id px py ++
        Relative.move_report t1 qx py) c = Some (c', [])) /\
  (exists c',
     Relative.convert_events scale_delta
       (Relative.touch_report t0 id px py ++
        Relative.move_report t1 px qy) c =
       Some (c', [mk_input_event Relative.EV_REL Relative.REL_Y 0])).
Proof.
  intros Hwf Hs Hidle Hid Hx Hy Hdx Hsx Hdy Hsy. split.
  - destruct (touch_inside_move scale_delta c t0 t1 id px py qx py
                Hwf Hs Hidle Hid Hx Hy) as (c2 & fs' & Hfs & ->).
    eexists. unfold Relative.process_report.
    rewrite Hfs, int_sub_diag.
    replace (int_sub qx px =? 0) with false
      by (symmetry; apply Z.eqb_neq; assumption).
    change (negb false) with true. cbv iota beta.
    rewrite Hsx. reflexivity.
  - destruct (touch_inside_move scale_delta c t0 t1 id px py px qy
                Hwf Hs Hidle Hid Hx Hy) as (c2 & fs' & Hfs & ->).
    eexists. unfold Relative.process_report.
    rewrite Hfs, int_sub_diag.
    replace (int_sub qy py =? 0) with false
      by (symmetry; apply Z.eqb_neq; assumption).
    change (0 =? 0) with true. change (negb true) with false.
    change (negb false) with true. cbv iota beta.
    rewrite Hsy. reflexivity.
Qed.

Lemma relative_motion_scaled_to_zero_witness :
  (exists c',
     Relative.convert_events (fun d => Z.quot d 2)
       (Relative.touch_report (Relative.stamp 1 0) 7 400 800 ++
        Relative.move_report (Relative.stamp 1 20000) 401 800)
       Relative.example_context = Some (c', [])) /\
  (exists c',
     Relative.convert_events (fun d => Z.quot d 2)
       (Relative.touch_report (Relative.stamp 1 0) 7 400 800 ++
        Relative.move_report (Relative.stamp 1 20000) 400 801)
       Relative.example_context =
       Some (c', [mk_input_event Relative.EV_REL Relative.REL_Y 0])).
Proof.
  apply (relative_motion_scaled_to_zero (fun d => Z.quot d 2)
           Relative.example_context (Relative.stamp 1 0)
           (Relative.stamp 1 20000) 7 400 800 401 801);
    [reflexivity | vm_compute; split; congruence | reflexivity | lia
    | vm_compute; split; congruence | vm_compute; split; congruence
    | vm_compute; congruence | reflexivity
    | vm_compute; congruence | reflexivity].
Defined.

(** ** The region of the relative-motion program *)

Lemma third_of_extent (e : Z) :
  0 <= e <= INT_MAX -> int_div e 3 = e / 3 /\ 0 <= e / 3 /\ 3 * (e / 3) <= e
                       /\ e < 3 * (e / 3) + 3.
Proof.
  intros He. unfold int_div. rewrite Z.quot_div_nonneg by lia.
  assert (H0 : 0 <= e / 3) by (apply Z.div_pos; lia).
  assert (H1 : 3 * (e / 3) <= e) by (apply Z.mul_div_le; lia).
  assert (H2 : e < 3 * Z.succ (e / 3)) by (apply Z.mul_succ_div_gt; lia).
  split; [|lia].
  apply to_int_range. unfold int_range, INT_MIN, INT_MAX in *. lia.
Qed.

(** X18: For a screen rectangle with minimum below maximum on both axes,
    whose bounds, width and twice its height fit an [int], the trackpad box
    of the relative-motion program is the bottom middle cell of a three by
    three grid, rounded down: it lies inside the screen rectangle, its left
    margin is as wide as the box and its right margin at least as wide, it
    reaches the bottom edge of the screen and its height is at least a
    third of the screen height, so that it is never empty vertically;
    horizontally it is empty exactly when the screen is less than three
    units wide.  Twice the height has to fit: see
    [relative_region_overflow]. *)
Theorem relative_region_bottom_middle (c : Relative.trackscreen_context) :
  Relative.ts_min_x c < Relative.ts_max_x c ->
  Relative.ts_min_y c < Relative.ts_max_y c ->
  int_range (Relative.ts_min_x c) -> int_range (Relative.ts_max_x c) ->
  int_range (Relative.ts_min_y c) -> int_range (Relative.ts_max_y c) ->
  Relative.ts_max_x c - Relative.ts_min_x c <= INT_MAX ->
  (Relative.ts_max_y c - Relative.ts_min_y c) * 2 <= INT_MAX ->
  let c' := Relative.compute_trackpad_bounds c in
  Relative.ts_min_x c <= Relative.tp_min_x c' <= Relative.tp_max_x c' /\
  Relative.tp_max_x c' <= Relative.ts_max_x c /\
  Relative.tp_min_x c' - Relative.ts_min_x c =
    Relative.tp_max_x c' - Relative.tp_min_x c' /\
  Relative.tp_max_x c' - Relative.tp_min_x c' <=
    Relative.ts_max_x c - Relative.tp_max_x c' /\
  (Relative.tp_min_x c' < Relative.tp_max_x c' <->
   3 <= Relative.ts_max_x c - Relative.ts_min_x c) /\
  Relative.ts_min_y c <= Relative.tp_min_y c' < Relative.tp_max_y c' /\
  Relative.tp_max_y c' = Relative.ts_max_y c /\
  Relative.ts_max_y c - Relative.ts_min_y c <=
    3 * (Relative.tp_max_y c' - Relative.tp_min_y c') /\
  Relative.fingers c' = Relative.fingers c /\
  Relative.current_slot c' = Relative.current_slot c.
Proof.
  intros Hx Hy Hx0 Hx1 Hy0 Hy1 Hfx Hfy c'. subst c'.
  unfold Relative.compute_trackpad_bounds.
  cbn [Relative.tp_min_x Relative.tp_max_x Relative.tp_min_y
       Relative.tp_max_y Relative.fingers Relative.current_slot
       Relative.ts_min_x Relative.ts_max_x Relative.ts_min_y
       Relative.ts_max_y].
  set (x0 := Relative.ts_min_x c) in *. set (x1 := Relative.ts_max_x c) in *.
  set (y0 := Relative.ts_min_y c) in *. set (y1 := Relative.ts_max_y c) in *.
  assert (Hw : int_sub x1 x0 = x1 - x0).
  { apply to_int_range. unfold int_range, INT_MIN, INT_MAX in *. lia. }
  assert (Hh : int_sub y1 y0 = y1 - y0).
  { apply to_int_range. unfold int_range, INT_MIN, INT_MAX in *. lia. }
  rewrite Hw, Hh.
  assert (Hh2 : int_mul (y1 - y0) 2 = (y1 - y0) * 2).
  { apply to_int_range. unfold int_range, INT_MIN, INT_MAX in *. lia. }
  rewrite Hh2.
  destruct (third_of_extent (x1 - x0)) as (-> & Ha & Hb & Hc); [lia|].
  destruct (third_of_extent ((y1 - y0) * 2)) as (-> & Hd & He & Hf); [lia|].
  unfold int_add.
  rewrite (to_int_range (x0 + (x1 - x0) / 3))
    by (unfold int_range, INT_MIN, INT_MAX in *; lia).
  rewrite (to_int_range (x0 + (x1 - x0) / 3 + (x1 - x0) / 3))
    by (unfold int_range, INT_MIN, INT_MAX in *; lia).
  rewrite (to_int_range (y0 + (y1 - y0) * 2 / 3))
    by (unfold int_range, INT_MIN, INT_MAX in *; lia).
  repeat split; try reflexivity; lia.
Qed.

Lemma relative_region_bottom_middle_witness :
  let c' := Relative.compute_trackpad_bounds Relative.example_context in
  Relative.ts_min_x Relative.example_context <= Relative.tp_min_x c' <=
    Relative.tp_max_x c' /\
  Relative.tp_max_x c' <= Relative.ts_max_x Relative.example_context /\
  Relative.tp_min_x c' - Relative.ts_min_x Relative.example_context =
    Relative.tp_max_x c' - Relative.tp_min_x c' /\
  Relative.tp_max_x c' - Relative.tp_min_x c' <=
    Relative.ts_max_x Relative.example_context - Relative.tp_max_x c' /\
  (Relative.tp_min_x c' < Relative.tp_max_x c' <->
   3 <= Relative.ts_max_x Relative.example_context -
        Relative.ts_min_x Relative.example_context) /\
  Relative.ts_min_y Relative.example_context <= Relative.tp_min_y c' <
    Relative.tp_max_y c' /\
  Relative.tp_max_y c' = Relative.ts_max_y Relative.example_context /\
  Relative.ts_max_y Relative.example_context -
    Relative.ts_min_y Relative.example_context <=
    3 * (Relative.tp_max_y c' - Relative.tp_min_y c') /\
  Relative.fingers c' = Relative.fingers Relative.example_context /\
  Relative.current_slot c' = Relative.current_slot Relative.example_context.
Proof.
  apply (relative_region_bottom_middle Relative.example_context);
    vm_compute; try split; congruence.
Defined.

(** On a screen of [0,2000000000] x [0,2000000000] twice the height leaves
    the range of [int], and the top of the box is put above the screen. *)
Lemma relative_region_overflow :
  Relative.tp_min_y (Relative.compute_trackpad_bounds large_screen_context) =
    -98322432.
Proof. reflexivity. Qed.

(** ** Clicks *)

Lemma lor_one_nonzero (a : Z) : (Z.lor a 1 =? 0) = false.
Proof.
  apply Z.eqb_neq. intros H. apply Z.lor_eq_0_iff in H.
  destruct H as [_ H]. discriminate H.
Qed.

(** X19: A sync report writes a click exactly when some finger was lifted since
    the last report after a touch of at most [TAP_TIME_US] microseconds,
    whatever the number of such fingers and whether or not their touch
    began inside the box: then the report ends with press, sync, release,
    sync of the left button, after motion events only; otherwise it has no
    key event. *)
Theorem relative_report_clicks_on_tap (scale_delta : Z -> Z)
  (c : Relative.trackscreen_context) :
  let out := snd (Relative.process_report scale_delta c) in
  if existsb Relative.tapped (Relative.fingers c) then
    exists moves,
      out = moves ++ Relative.click_sequence /\
      Forall (fun e => type e = Relative.EV_REL) moves
  else Forall (fun e => type e <> EV_KEY) out.
Proof.
  unfold Relative.process_report.
  destruct (report_fingers_acc c (Relative.fingers c) 0 0 0)
    as (fs' & dx & dy & -> & _ & _).
  destruct (existsb Relative.tapped (Relative.fingers c)).
  - change (negb (1 =? 0)) with true. cbv iota beta zeta.
    destruct (negb (dx =? 0)); [destruct (negb (scale_delta dx =? 0))|];
      destruct (negb (dy =? 0)); cbv iota beta zeta; cbn [snd];
        rewrite lor_one_nonzero; change (negb false) with true;
          cbv iota.
    + exists [mk_input_event Relative.EV_REL Relative.REL_X (scale_delta dx);
              mk_input_event Relative.EV_REL Relative.REL_Y
                (scale_delta dy)].
      split; [reflexivity|]. repeat constructor.
    + exists [mk_input_event Relative.EV_REL Relative.REL_X
                (scale_delta dx)].
      split; [reflexivity|]. repeat constructor.
    + exists [mk_input_event Relative.EV_REL Relative.REL_Y
                (scale_delta dy)].
      split; [reflexivity|]. repeat constructor.
    + exists []. split; [reflexivity|]. constructor.
    + exists [mk_input_event Relative.EV_REL Relative.REL_Y
                (scale_delta dy)].
      split; [reflexivity|]. repeat constructor.
    + exists []. split; [reflexivity|]. constructor.
  - change (negb (0 =? 0)) with false. cbv iota beta zeta.
    destruct (negb (dx =? 0)); [destruct (negb (scale_delta dx =? 0))|];
      destruct (negb (dy =? 0)); cbv iota beta zeta; cbn [snd];
        match goal with
        | |- context [negb (?z =? 0)] => destruct (negb (z =? 0))
        end;
        cbn [app]; repeat constructor; cbn [type]; discriminate.
Qed.

(** * Set-up of the uinput devices *)

Lemma check_ioctls_ok (accepts : Setup.request -> bool)
  (reqs : list Setup.request) :
  fst (Setup.check_ioctls accepts reqs) = true ->
  Setup.check_ioctls accepts reqs = (true, reqs) /\
  Forall (fun r => accepts r = true) reqs.
Proof.
  induction reqs as [|r reqs IH]; cbn [Setup.check_ioctls].
  - intros _. split; [reflexivity|constructor].
  - destruct (accepts r) eqn:Er; [|discriminate].
    destruct (Setup.check_ioctls accepts reqs) as [ok issued].
    cbn [fst]. intros ->. destruct (IH eq_refl) as [Hrun Hall].
    injection Hrun as ->. split; [reflexivity|].
    constructor; assumption.
Qed.

Lemma check_ioctls_all (accepts : Setup.request -> bool)
  (reqs : list Setup.request) :
  Forall (fun r => accepts r = true) reqs ->
  Setup.check_ioctls accepts reqs = (true, reqs).
Proof.
  induction 1 as [|r reqs Hr _ IH]; [reflexivity|].
  cbn [Setup.check_ioctls]. rewrite Hr, IH. reflexivity.
Qed.

(** An axis whose bit is accepted has its set-up request issued. *)
Lemma check_ioctls_pair (accepts : Setup.request -> bool)
  (a b : Setup.request) :
  accepts a = true -> snd (Setup.check_ioctls accepts [a; b]) = [a; b].
Proof.
  intros Ha. cbn [Setup.check_ioctls]. rewrite Ha.
  destruct (accepts b); reflexivity.
Qed.

Lemma setup_axes_issued (accepts : Setup.request -> bool)
  (c : trackscreen_context) (x_res y_res pressure_min pressure_max : Z) :
  Forall (fun r => accepts r = true) Setup.capability_requests ->
  Setup.setup_axes accepts c x_res y_res pressure_min pressure_max =
    Setup.setup_axes Setup.accepts_all c x_res y_res pressure_min
      pressure_max.
Proof.
  intros Hall. unfold Setup.capability_requests in Hall.
  repeat match type of Hall with
         | Forall _ (_ :: _) => apply Forall_cons in Hall;
                                destruct Hall as [? Hall]
         end.
  unfold Setup.setup_axes, Setup.setup_axis, Setup.setup_pressure_axis.
  rewrite !check_ioctls_pair by (assumption || reflexivity).
  reflexivity.
Qed.

(** When the first run of requests is accepted, the axis requests issued
    are those a kernel that accepts everything is sent. *)
Lemma setup_trackpad_issued (accepts : Setup.request -> bool)
  (c : trackscreen_context) (x_res y_res pressure_min pressure_max : Z) :
  fst (Setup.check_ioctls accepts Setup.capability_requests) = true ->
  Setup.setup_trackpad accepts c x_res y_res pressure_min pressure_max =
    (fst (Setup.check_ioctls accepts Setup.device_requests),
     Setup.capability_requests ++
     Setup.setup_axes Setup.accepts_all c x_res y_res pressure_min
       pressure_max ++
     snd (Setup.check_ioctls accepts Setup.device_requests)).
Proof.
  intros Hok. apply check_ioctls_ok in Hok. destruct Hok as [Hrun Hall].
  unfold Setup.setup_trackpad. rewrite Hrun.
  change (negb true) with false. cbv iota.
  rewrite (setup_axes_issued accepts c _ _ _ _ Hall).
  destruct (Setup.check_ioctls accepts Setup.device_requests);
    reflexivity.
Qed.

Lemma setup_trackpad_ok (accepts : Setup.request -> bool)
  (c : trackscreen_context) (x_res y_res pressure_min pressure_max : Z) :
  fst (Setup.setup_trackpad accepts c x_res y_res pressure_min
         pressure_max) = true ->
  snd (Setup.setup_trackpad accepts c x_res y_res pressure_min
         pressure_max) =
    Setup.capability_requests ++
    Setup.setup_axes Setup.accepts_all c x_res y_res pressure_min
      pressure_max ++
    Setup.device_requests.
Proof.
  intros Hok.
  assert (H1 : fst (Setup.check_ioctls accepts Setup.capability_requests) =
               true).
  { unfold Setup.setup_trackpad in Hok.
    destruct (Setup.check_ioctls accepts Setup.capability_requests)
      as [[|] issued]; [reflexivity|discriminate Hok]. }
  rewrite (setup_trackpad_issued accepts c _ _ _ _ H1) in Hok |- *.
  cbn [fst snd] in *.
  destruct (check_ioctls_ok accepts _ Hok) as [-> _]. reflexivity.
Qed.



(** On the empty region of [empty_region_context] the set-up succeeds and
    declares the maximum 0 for the position axes, and the positions flushed
    are -1. *)
Lemma clamp_adjust_empty_region :
  fst (Setup.setup_trackpad Setup.accepts_all empty_region_context
         10 10 0 255) = true /\
  In (Setup.UI_ABS_SETUP ABS_MT_POSITION_X
        {| Setup.abs_value := 0; Setup.minimum := 0; Setup.maximum := 0;
           Setup.fuzz := 0; Setup.flat := 0; Setup.resolution := 10 |})
     (snd (Setup.setup_trackpad Setup.accepts_all empty_region_context
             10 10 0 255)) /\
  exists c' out,
    handle_event syn_report empty_region_context = Some (0, c', out) /\
    tp_writes out =
      [[mk_input_event EV_ABS ABS_MT_POSITION_X (-1);
        mk_input_event EV_ABS ABS_MT_POSITION_Y (-1)];
       [syn_report]].
Proof.
  split; [reflexivity|]. split; [vm_compute; tauto|].
  eexists _, _. split; [vm_compute; reflexivity|reflexivity].
Qed.

(** X21: [setup_trackpad] does not look at the results of its axis set-up calls:
    when the kernel accepts every request but the [UI_ABS_SETUP] ones, it
    returns 0 and the device is created, with every axis range left
    undeclared. *)
Theorem refused_axis_setup_not_reported (accepts : Setup.request -> bool)
  (c : trackscreen_context) (x_res y_res pressure_min pressure_max : Z) :
  (forall r, accepts r = false -> exists code info,
               r = Setup.UI_ABS_SETUP code info) ->
  let result :=
    Setup.setup_trackpad accepts c x_res y_res pressure_min pressure_max in
  fst result = true /\
  last (snd result) = Some Setup.UI_DEV_CREATE /\
  snd result =
    snd (Setup.setup_trackpad Setup.accepts_all c x_res y_res pressure_min
           pressure_max).
Proof.
  intros Hacc result. subst result.
  assert (Hyes : forall r,
            (forall code info, r <> Setup.UI_ABS_SETUP code info) ->
            accepts r = true).
  { intros r Hr. destruct (accepts r) eqn:E; [reflexivity|].
    destruct (Hacc r E) as (code & info & ->). exfalso.
    exact (Hr code info eq_refl). }
  assert (H1 : Setup.check_ioctls accepts Setup.capability_requests =
               (true, Setup.capability_requests)).
  { apply check_ioctls_all. unfold Setup.capability_requests.
    repeat constructor; apply Hyes; discriminate. }
  assert (H2 : Setup.check_ioctls accepts Setup.device_requests =
               (true, Setup.device_requests)).
  { apply check_ioctls_all. unfold Setup.device_requests.
    repeat constructor; apply Hyes; discriminate. }
  rewrite (setup_trackpad_issued accepts c x_res y_res pressure_min
             pressure_max) by (rewrite H1; reflexivity).
  rewrite H2. cbn [fst snd].
  split; [reflexivity|]. split.
  - rewrite !app_assoc. unfold Setup.device_requests.
    change [Setup.UI_DEV_SETUP Setup.BUS_VIRTUAL 1616 2321 "Trackscreen";
            Setup.UI_DEV_CREATE]
      with ([Setup.UI_DEV_SETUP Setup.BUS_VIRTUAL 1616 2321 "Trackscreen"] ++
            [Setup.UI_DEV_CREATE]).
    rewrite app_assoc. apply last_snoc.
  - reflexivity.
Qed.

Lemma refused_axis_setup_not_reported_witness :
  let result :=
    Setup.setup_trackpad Setup.refuses_axis_setup example_context
      10 10 0 255 in
  fst result = true /\
  last (snd result) = Some Setup.UI_DEV_CREATE /\
  snd result =
    snd (Setup.setup_trackpad Setup.accepts_all example_context
           10 10 0 255).
Proof.
  apply (refused_axis_setup_not_reported Setup.refuses_axis_setup
           example_context 10 10 0 255).
  intros r Hr. destruct r; try discriminate Hr.
  eexists _, _. reflexivity.
Defined.

Lemma in_appended {A : Type} (a : A) (l t : list A) (n : nat) :
  In a (drop (length l) (take n (l ++ t))) -> In a t.
Proof.
  rewrite take_app. destruct (Nat.le_gt_cases (length l) n) as [Hle|Hgt].
  - rewrite (take_ge l n) by exact Hle. rewrite drop_app_length.
    intros H. rewrite <- (take_drop (n - length l) t).
    apply in_or_app. left. exact H.
  - replace (n - length l)%nat with 0%nat by lia.
    rewrite take_0, app_nil_r, drop_ge; [intros []|].
    rewrite length_take. lia.
Qed.

(** X22: The key events the program generates itself have codes that the
    set-up enabled, once [setup_trackpad] and [setup_keyboard] have
    returned 0: the tool event [emit_multitap] queues for a finger count
    carries a key code that [setup_trackpad] enabled on the trackpad, and
    the key event of [emit_sidekey_event] the key code that
    [setup_keyboard] enabled on the keyboard, for a key code that fits the
    16 bits of an event code.  The key events [handle_event] reads from the
    touchscreen and forwards are another matter: see
    [forwarded_key_code_not_enabled]. *)
Theorem generated_key_codes_are_enabled (accepts : Setup.request -> bool)
  (c : trackscreen_context) (x_res y_res pressure_min pressure_max : Z)
  (n v : Z) :
  wf c -> 0 < keycode c < 2 ^ 16 ->
  fst (Setup.setup_trackpad accepts c x_res y_res pressure_min
         pressure_max) = true ->
  fst (Setup.setup_keyboard accepts c) = true ->
  (exists c',
     emit_multitap n v c = Some (tt, c', []) /\
     forall e, In e (drop (length (queued c)) (queued c')) ->
       type e = EV_KEY /\
       In (Setup.UI_SET_KEYBIT (code e))
         (snd (Setup.setup_trackpad accepts c x_res y_res pressure_min
                 pressure_max))) /\
  (exists evs,
     emit_sidekey_event v c = Some (tt, c, [write_kbd evs]) /\
     forall e, In e evs -> type e = EV_KEY ->
       In (Setup.UI_SET_KEYBIT (code e))
         (snd (Setup.setup_keyboard accepts c))).
Proof.
  intros Hwf Hk Hok Hkbd. split.
  - destruct (emit_multitap_spec c n v Hwf) as (c' & Hrun & _ & _ & Hq).
    exists c'. split; [exact Hrun|]. intros e He.
    rewrite Hq in He. apply in_appended in He.
    rewrite (setup_trackpad_ok accepts c _ _ _ _ Hok).
    unfold tool_event, tool_code in He.
    repeat match type of He with
           | context [if ?b then _ else _] => destruct b
           end;
      cbn [In] in He;
      first [ contradiction
            | destruct He as [<-|[]]; (split; [reflexivity|]);
              apply in_or_app; left; cbn; tauto ].
  - exists (sidekey_events c v). split; [reflexivity|].
    intros e He Hty.
    destruct (check_ioctls_ok accepts _ Hkbd) as [Hrun _].
    unfold Setup.setup_keyboard. rewrite Hrun. cbn [snd].
    unfold sidekey_events in He. cbn [In] in He.
    destruct He as [<-|[<-|[]]]; [|discriminate Hty].
    cbn [code]. unfold to_uint16. rewrite Z.mod_small by lia.
    cbn. tauto.
Qed.

Lemma generated_key_codes_are_enabled_witness :
  (exists c',
     emit_multitap 2 1 example_context = Some (tt, c', []) /\
     forall e,
       In e (drop (length (queued example_context)) (queued c')) ->
       type e = EV_KEY /\
       In (Setup.UI_SET_KEYBIT (code e))
         (snd (Setup.setup_trackpad Setup.accepts_all example_context
                 10 10 0 255))) /\
  (exists evs,
     emit_sidekey_event 1 example_context =
       Some (tt, example_context, [write_kbd evs]) /\
     forall e, In e evs -> type e = EV_KEY ->
       In (Setup.UI_SET_KEYBIT (code e))
         (snd (Setup.setup_keyboard Setup.accepts_all example_context))).
Proof.
  apply (generated_key_codes_are_enabled Setup.accepts_all example_context
           10 10 0 255 2 1);
    [repeat split; vm_compute; congruence
    | vm_compute; split; congruence | reflexivity | reflexivity].
Defined.

(** A key event read from the touchscreen is queued and flushed like any
    other event, whether or not its code was enabled on the trackpad. *)
Lemma forwarded_key_code_not_enabled :
  (exists c' out,
     handle_events pen_report example_context = Some (tt, c', out) /\
     tp_writes out = [[mk_input_event EV_KEY 320 1]; [syn_report]]) /\
  ~ In (Setup.UI_SET_KEYBIT 320)
      (snd (Setup.setup_trackpad Setup.accepts_all example_context
              10 10 0 255)).
Proof.
  split.
  - eexists _, _. split; [vm_compute; reflexivity|reflexivity].
  - vm_compute. intuition discriminate.
Qed.
